(** * describe-client: request tracker, service clients and orchestration

    A shallow embedding of
      - utils/request_manager.py  (RequestManager),
      - utils/llm_service.py      (LLMService),
      - utils/oracle_storage.py   (OracleCloudStorage),
      - app.py                    (process_image, save_feedback),
      - image_browser.py          (list_images, get_image),
    followed by the properties of the specification that concern them.

    Python objects are [value]s, the tracker's dictionary of requests is a
    finite map from request ids to dictionaries, and everything the code
    reaches outside itself (local disk, object storage, the inference
    endpoint, the clock, the uuid generator) is either a component of the
    [world] that the functions thread through, or an explicit argument of the
    call that consumes it. *)

From Stdlib Require Import ZArith Ascii String List.
From stdpp Require Import gmap strings list fin_maps pretty.

#[local] Set Warnings "-register-all".
Open Scope string_scope.

(* ===================================================================== *)
(** * Part I: definitions                                                *)
(* ===================================================================== *)

(** ** Python values

    The objects the program stores in request records, receives from the
    inference endpoint and serialises as metadata.  A Python [str] is held
    as the bytes of its UTF-8 encoding, which is also how a string literal
    of this file is read; [is_text] (below) tells whether a [string] is
    the encoding of a sequence of Unicode characters, and [chars] gives
    that sequence.  A [str] that holds a lone surrogate has no UTF-8
    encoding and is outside the model, as are floating-point numbers;
    integers are unbounded.  Byte strings (file contents, stored objects)
    are [string]s too. *)

Inductive value : Type :=
  | VNone
  | VBool (b : bool)
  | VInt (z : Z)
  | VStr (s : string)
  | VList (l : list value)
  | VDict (l : list (string * value)).

(** Python dictionaries with string keys, in insertion order. *)
Abbreviation pydict := (list (string * value)).

(** Truth value of an object ([bool(x)], what [if not x] tests). *)
Definition truthy (v : value) : bool :=
  match v with
  | VNone => false
  | VBool b => b
  | VInt z => negb (z =? 0)%Z
  | VStr s => negb (String.eqb s "")
  | VList l => match l with [] => false | _ => true end
  | VDict l => match l with [] => false | _ => true end
  end.

Inductive exn : Type :=
  | KeyError | TypeError | AttributeError | OSError | OverflowError | ValueError
  | ServiceError.

(** Outcome of a call that may raise. *)
Inductive result (A : Type) : Type :=
  | Return (a : A)
  | Raise (e : exn).
Arguments Return {A} a.
Arguments Raise {A} e.

(** [d[k] = v] and [d.get(k, default)] on an insertion-ordered dictionary. *)
Fixpoint dict_set (k : string) (v : value) (d : pydict) : pydict :=
  match d with
  | [] => [(k, v)]
  | (k', v') :: d' =>
      if String.eqb k k' then (k, v) :: d' else (k', v') :: dict_set k v d'
  end.

Fixpoint dict_get (k : string) (d : pydict) : option value :=
  match d with
  | [] => None
  | (k', v') :: d' => if String.eqb k k' then Some v' else dict_get k d'
  end.

(** ** The world *)

(** An entry of the local file system.  [os.remove] succeeds on a regular
    file whose directory is writable ([removable]) and raises [OSError]
    otherwise; directories cannot be removed or read as files. *)
Inductive entry : Type :=
  | File (data : string) (removable : bool)
  | Dir.

(** The calls to [logging] made by request_manager.py, in order. *)
Inductive log_event : Type :=
  | LogCreated (request_id : string)                      (* line 31 *)
  | LogNotFound (request_id : string)                     (* lines 46, 67 *)
  | LogUpdated (request_id : string) (kwargs : pydict)    (* line 52 *)
  | LogDeleted (temp_path : string)                       (* line 90 *)
  | LogDeleteFailed (e : exn).                            (* line 93 *)

(** An object name inside a bucket of a namespace. *)
Abbreviation object_key := (string * string * string)%type.

Record world : Type := World {
  (** [RequestManager.requests] *)
  requests : gmap string (gmap string value);
  (** the local file system, by path *)
  disk : gmap string entry;
  (** file descriptors open in the process *)
  open_fds : gset Z;
  (** remote object storage: (namespace, bucket, object name) to bytes *)
  objects : gmap object_key string;
  (** what request_manager.py has logged so far *)
  tracker_log : list log_event;
  (** successive contents of [RequestManager.requests], one entry per
      mutation performed by [create_request] or [update_request]; not
      program state, only a record of it *)
  snapshots : list (gmap string (gmap string value))
}.

Definition set_requests (m : gmap string (gmap string value)) (w : world) : world :=
  World m (disk w) (open_fds w) (objects w) (tracker_log w) (snapshots w ++ [m]).

Definition set_disk (d : gmap string entry) (w : world) : world :=
  World (requests w) d (open_fds w) (objects w) (tracker_log w) (snapshots w).

Definition set_objects (o : gmap object_key string) (w : world) : world :=
  World (requests w) (disk w) (open_fds w) o (tracker_log w) (snapshots w).

Definition logging (e : log_event) (w : world) : world :=
  World (requests w) (disk w) (open_fds w) (objects w) (tracker_log w ++ [e]) (snapshots w).

(** The state right after [RequestManager.__init__] on a given machine. *)
Definition init_world (d : gmap string entry) (fds : gset Z)
    (o : gmap object_key string) : world :=
  World ∅ d fds o [] [∅].

(** ** utils/request_manager.py *)

(** The dictionary literal of [create_request]. *)
Definition new_request : gmap string value :=
  <["status" := VStr "created"]>
  (<["temp_path" := VNone]>
  (<["cloud_path" := VNone]>
  (<["llm_description" := VNone]>
  (<["user_feedback" := VNone]>
  (<["user_note" := VNone]> ∅))))).

(** [create_request]; [uuid4] is the value drawn by [str(uuid.uuid4())]. *)
Definition create_request (uuid4 : string) (w : world) : string * world :=
  let request_id := uuid4 in
  let w := set_requests (<[request_id := new_request]> (requests w)) w in
  let w := logging (LogCreated request_id) w in
  (request_id, w).

(** The loop [for key, value in kwargs.items(): request[key] = value]. *)
Definition apply_kwargs (kwargs : pydict) (r : gmap string value) : gmap string value :=
  foldl (fun d kv => <[kv.1 := kv.2]> d) r kwargs.

Definition update_request (request_id : string) (kwargs : pydict) (w : world)
    : bool * world :=
  match requests w !! request_id with
  | None => (false, logging (LogNotFound request_id) w)
  | Some r =>
      let w := set_requests (<[request_id := apply_kwargs kwargs r]> (requests w)) w in
      let w := logging (LogUpdated request_id kwargs) w in
      (true, w)
  end.

(** [get_request] returns the stored dictionary itself, not a copy: the
    caller holds a reference that sees later updates.  The model returns
    the contents at the time of the call; callers that read through the
    reference after an update use [request_field] on the current world. *)
Definition get_request (request_id : string) (w : world)
    : option (gmap string value) * world :=
  match requests w !! request_id with
  | None => (None, logging (LogNotFound request_id) w)
  | Some r => (Some r, w)
  end.

(** [self.requests[request_id][key]] read through a held reference. *)
Definition request_field (request_id key : string) (w : world) : result value :=
  match requests w !! request_id with
  | None => Raise KeyError
  | Some r => match r !! key with
              | None => Raise KeyError
              | Some v => Return v
              end
  end.

(** [os.path.exists]: a string is a path, an integer (or a boolean, which
    is one) names a file descriptor and must fit a C int, anything else is
    a [TypeError]. *)
Definition fd_exists (n : Z) (w : world) : result bool :=
  if ((n <? - 2 ^ 31) || (2 ^ 31 <=? n))%Z then Raise OverflowError
  else Return (bool_decide (n ∈ open_fds w)).

Definition os_path_exists (p : value) (w : world) : result bool :=
  match p with
  | VStr s => Return (bool_decide (is_Some (disk w !! s)))
  | VInt n => fd_exists n w
  | VBool b => fd_exists (if b then 1 else 0)%Z w
  | _ => Raise TypeError
  end.

(** [os.remove] *)
Definition os_remove (p : value) (w : world) : result unit * world :=
  match p with
  | VStr s =>
      match disk w !! s with
      | Some (File _ true) => (Return tt, set_disk (delete s (disk w)) w)
      | _ => (Raise OSError, w)
      end
  | _ => (Raise TypeError, w)
  end.

(** The formatted path in the log line 90 is only recorded for strings. *)
Definition log_deleted (p : value) (w : world) : world :=
  match p with
  | VStr s => logging (LogDeleted s) w
  | _ => w
  end.

Definition clean_temp_file (request_id : string) (w : world) : result bool * world :=
  let '(request, w) := get_request request_id w in
  match request with
  | None => (Return false, w)
  | Some r =>
      (* an empty dictionary is falsy too *)
      if bool_decide (r = ∅) then (Return false, w) else
      match r !! "temp_path" with
      | None => (Raise KeyError, w)
      | Some temp_path =>
          if negb (truthy temp_path) then (Return false, w)
          else
            (* try: *)
            match os_path_exists temp_path w with
            | Raise e => (Return false, logging (LogDeleteFailed e) w)
            | Return false => (Return true, w)
            | Return true =>
                match os_remove temp_path w with
                | (Raise e, w) => (Return false, logging (LogDeleteFailed e) w)
                | (Return _, w) => (Return true, log_deleted temp_path w)
                end
            end
      end
  end.

(** ** Text helpers *)

Definition dquote : ascii := "034"%char.
Definition backslash : ascii := "092"%char.
Definition squote : ascii := "039"%char.

Definition hexdigit (n : N) : ascii :=
  match n with
  | 0 => "0" | 1 => "1" | 2 => "2" | 3 => "3" | 4 => "4" | 5 => "5" | 6 => "6"
  | 7 => "7" | 8 => "8" | 9 => "9" | 10 => "a" | 11 => "b" | 12 => "c"
  | 13 => "d" | 14 => "e" | _ => "f"
  end%N%char.

(** Two lowercase hexadecimal digits of a number below 256, and four of a
    number below 65536. *)
Definition hex2 (n : N) : string :=
  String (hexdigit (n / 16)) (String (hexdigit (n mod 16)) "").

Definition hex4_of (n : N) : string :=
  String (hexdigit (n / 4096)) (String (hexdigit ((n / 256) mod 16)) (hex2 (n mod 256))).

(** [sub in s] on strings. *)
Definition contains (sub s : string) : bool :=
  match String.index 0 sub s with Some _ => true | None => false end.

(** Lower case of the letters A to Z. *)
Definition lower_char (c : ascii) : ascii :=
  let n := N_of_ascii c in
  if ((65 <=? n) && (n <=? 90))%N then ascii_of_N (n + 32) else c.

Fixpoint lower (s : string) : string :=
  match s with
  | "" => ""
  | String c s' => String (lower_char c) (lower s')
  end.

(** Decimal numeral of a natural number, padded with zeros to [width]. *)
Definition zero_pad (width : nat) (n : N) : string :=
  let s := pretty n in
  String.concat "" (replicate (width - String.length s) "0") ++ s.

(** The digits at the front of a string: how many there are, the number
    they spell after [acc], and what follows them. *)
Definition digit_value (c : ascii) : option N :=
  let n := N_of_ascii c in
  if ((48 <=? n) && (n <=? 57))%N then Some (n - 48)%N else None.

Fixpoint read_digits (count : nat) (acc : N) (s : string) : nat * N * string :=
  match s with
  | "" => (count, acc, s)
  | String c s' =>
      match digit_value c with
      | Some d => read_digits (S count) (acc * 10 + d) s'
      | None => (count, acc, s)
      end
  end.

(** ** Unicode text *)

(** The code points that are characters: everything up to U+10FFFF except
    the surrogates U+D800 to U+DFFF. *)
Definition scalar_value (cp : N) : bool :=
  ((cp <? 55296) || (57344 <=? cp) && (cp <? 1114112))%N.

(** The UTF-8 encoding of a code point, and of a sequence of them. *)
Definition utf8_of (cp : N) : string :=
  if (cp <? 128)%N then String (ascii_of_N cp) ""
  else if (cp <? 2048)%N then
    String (ascii_of_N (192 + cp / 64))
      (String (ascii_of_N (128 + cp mod 64)) "")
  else if (cp <? 65536)%N then
    String (ascii_of_N (224 + cp / 4096))
      (String (ascii_of_N (128 + (cp / 64) mod 64))
         (String (ascii_of_N (128 + cp mod 64)) ""))
  else
    String (ascii_of_N (240 + cp / 262144))
      (String (ascii_of_N (128 + (cp / 4096) mod 64))
         (String (ascii_of_N (128 + (cp / 64) mod 64))
            (String (ascii_of_N (128 + cp mod 64)) ""))).

Fixpoint utf8 (cps : list N) : string :=
  match cps with
  | [] => ""
  | cp :: cps' => utf8_of cp ++ utf8 cps'
  end.

(** The six payload bits of a continuation byte. *)
Definition continuation (c : ascii) : option N :=
  let n := N_of_ascii c in
  if ((128 <=? n) && (n <? 192))%N then Some (n - 128)%N else None.

(** The code points that a byte string encodes.  The result is [None]
    unless the bytes are well-formed UTF-8 (every character in its
    shortest form, no surrogate, nothing above U+10FFFF): these are the
    byte strings on which [bytes.decode('utf-8')] does not raise. *)
Fixpoint code_points (b : string) : option (list N) :=
  match b with
  | "" => Some []
  | String c0 b1 =>
      let n0 := N_of_ascii c0 in
      if (n0 <? 128)%N then cons n0 <$> code_points b1
      else if (n0 <? 192)%N then None
      else if (n0 <? 224)%N then
        match b1 with
        | String c1 b2 =>
            match continuation c1 with
            | Some x1 =>
                let cp := ((n0 - 192) * 64 + x1)%N in
                if (128 <=? cp)%N then cons cp <$> code_points b2 else None
            | None => None
            end
        | "" => None
        end
      else if (n0 <? 240)%N then
        match b1 with
        | String c1 (String c2 b3) =>
            match continuation c1, continuation c2 with
            | Some x1, Some x2 =>
                let cp := ((n0 - 224) * 4096 + x1 * 64 + x2)%N in
                if ((2048 <=? cp)%N && scalar_value cp)
                then cons cp <$> code_points b3 else None
            | _, _ => None
            end
        | _ => None
        end
      else if (n0 <? 248)%N then
        match b1 with
        | String c1 (String c2 (String c3 b4)) =>
            match continuation c1, continuation c2, continuation c3 with
            | Some x1, Some x2, Some x3 =>
                let cp := ((n0 - 240) * 262144 + x1 * 4096 + x2 * 64 + x3)%N in
                if ((65536 <=? cp) && (cp <? 1114112))%N
                then cons cp <$> code_points b4 else None
            | _, _, _ => None
            end
        | _ => None
        end
      else None
  end.

(** The string is the encoding of a text. *)
Definition is_text (s : string) : bool :=
  match code_points s with Some _ => true | None => false end.

(** The characters of a [str]: its code points.  (A string that is no
    text stands for no [str]; it is read byte by byte.) *)
Definition chars (s : string) : list N :=
  default (N_of_ascii <$> list_ascii_of_string s) (code_points s).

(** [s[:n]] on a [str]. *)
Definition text_prefix (n : nat) (s : string) : string := utf8 (take n (chars s)).

(** ** datetime *)

Record datetime : Type := {
  year : N; month : N; day : N;
  hour : N; minute : N; second : N; microsecond : N
}.

(** [strftime("%Y%m%d_%H%M%S")] *)
Definition strftime_stamp (t : datetime) : string :=
  pretty (year t) ++ zero_pad 2 (month t) ++ zero_pad 2 (day t) ++ "_" ++
  zero_pad 2 (hour t) ++ zero_pad 2 (minute t) ++ zero_pad 2 (second t).

(** [isoformat()] of a naive datetime. *)
Definition isoformat (t : datetime) : string :=
  zero_pad 4 (year t) ++ "-" ++ zero_pad 2 (month t) ++ "-" ++ zero_pad 2 (day t) ++
  "T" ++ zero_pad 2 (hour t) ++ ":" ++ zero_pad 2 (minute t) ++ ":" ++
  zero_pad 2 (second t) ++
  (if (microsecond t =? 0)%N then "" else "." ++ zero_pad 6 (microsecond t)).

(** ** str() and repr()

    [repr] of a [str] escapes the characters that [str.isprintable]
    rejects.  Up to U+00FF these are the control characters, U+007F to
    U+00A0 and U+00AD; from U+0100 on the answer lies in the Unicode
    tables of the Python build, and the model writes every such character
    as it is, which is what Python does for the printable ones. *)

Definition printable (cp : N) : bool :=
  ((32 <=? cp) && (cp <? 127) || (161 <=? cp) && negb (cp =? 173))%N.

Definition repr_char (quote : ascii) (cp : N) : string :=
  if ((cp =? N_of_ascii quote) || (cp =? 92))%N
  then String backslash (String (ascii_of_N cp) "")
  else if (cp =? 9)%N then String backslash "t"
  else if (cp =? 10)%N then String backslash "n"
  else if (cp =? 13)%N then String backslash "r"
  else if printable cp then utf8_of cp
  else String backslash ("x" ++ hex2 cp).

Fixpoint repr_chars (quote : ascii) (cps : list N) : string :=
  match cps with
  | [] => ""
  | cp :: cps' => repr_char quote cp ++ repr_chars quote cps'
  end.

Definition repr_str (s : string) : string :=
  let quote :=
    if contains (String squote "") s && negb (contains (String dquote "") s)
    then dquote else squote in
  String quote (repr_chars quote (chars s) ++ String quote "").

Fixpoint py_repr (v : value) : string :=
  match v with
  | VNone => "None"
  | VBool b => if b then "True" else "False"
  | VInt z => pretty z
  | VStr s => repr_str s
  | VList l =>
      "[" ++
      (fix items (l : list value) : string :=
         match l with
         | [] => ""
         | x :: l' =>
             match l' with
             | [] => py_repr x
             | _ => py_repr x ++ ", " ++ items l'
             end
         end) l ++ "]"
  | VDict d =>
      "{" ++
      (fix members (d : pydict) : string :=
         match d with
         | [] => ""
         | (k, x) :: d' =>
             match d' with
             | [] => repr_str k ++ ": " ++ py_repr x
             | _ => repr_str k ++ ": " ++ py_repr x ++ ", " ++ members d'
             end
         end) d ++ "}"
  end.

(** What an f-string substitutes for [{v}]. *)
Definition py_str (v : value) : string :=
  match v with
  | VStr s => s
  | _ => py_repr v
  end.

(** ** json.dumps and UTF-8 *)

(** One character of a string literal with [ensure_ascii=True]: the short
    escapes, the printable ASCII characters as they are, and [\uXXXX] for
    everything else, a character above U+FFFF as a surrogate pair. *)
Definition json_escape_char (cp : N) : string :=
  if (cp =? 34)%N then String backslash (String dquote "")
  else if (cp =? 92)%N then String backslash (String backslash "")
  else if (cp =? 8)%N then String backslash "b"
  else if (cp =? 12)%N then String backslash "f"
  else if (cp =? 10)%N then String backslash "n"
  else if (cp =? 13)%N then String backslash "r"
  else if (cp =? 9)%N then String backslash "t"
  else if ((32 <=? cp) && (cp <? 127))%N then String (ascii_of_N cp) ""
  else if (cp <? 65536)%N then String backslash ("u" ++ hex4_of cp)
  else
    String backslash ("u" ++ hex4_of (55296 + (cp - 65536) / 1024)) ++
    String backslash ("u" ++ hex4_of (56320 + (cp - 65536) mod 1024)).

Fixpoint json_escape_chars (cps : list N) : string :=
  match cps with
  | [] => ""
  | cp :: cps' => json_escape_char cp ++ json_escape_chars cps'
  end.

Definition json_escape (s : string) : string := json_escape_chars (chars s).

Definition json_string (s : string) : string :=
  String dquote (json_escape s ++ String dquote "").

(** [json.dumps] with the default separators. *)
Fixpoint json_dumps (v : value) : string :=
  match v with
  | VNone => "null"
  | VBool b => if b then "true" else "false"
  | VInt z => pretty z
  | VStr s => json_string s
  | VList l =>
      "[" ++
      (fix items (l : list value) : string :=
         match l with
         | [] => ""
         | x :: l' =>
             match l' with
             | [] => json_dumps x
             | _ => json_dumps x ++ ", " ++ items l'
             end
         end) l ++ "]"
  | VDict d =>
      "{" ++
      (fix members (d : pydict) : string :=
         match d with
         | [] => ""
         | (k, x) :: d' =>
             match d' with
             | [] => json_string k ++ ": " ++ json_dumps x
             | _ => json_string k ++ ": " ++ json_dumps x ++ ", " ++ members d'
             end
         end) d ++ "}"
  end.

(** [str.encode('utf-8')]: the bytes of the characters. *)
Definition encode_utf8 (s : string) : string := utf8 (chars s).

(** [bytes.decode('utf-8')]: the text, [None] when it raises. *)
Definition decode_utf8 (b : string) : option string := utf8 <$> code_points b.

(** ** Paths *)

Fixpoint split_slash (cur : string) (s : string) : list string :=
  match s with
  | "" => [cur]
  | String c s' =>
      if Ascii.eqb c "/" then cur :: split_slash "" s'
      else split_slash (cur ++ String c "") s'
  end.

(** [Path(p).name]: the last component, empty and [.] components dropped. *)
Definition path_name (p : string) : string :=
  List.last
    (List.filter (fun x => negb (String.eqb x "") && negb (String.eqb x "."))
       (split_slash "" p)) "".

(** [os.path.basename]: everything after the last slash. *)
Definition os_path_basename (p : string) : string :=
  List.last (split_slash "" p) "".

(** [str(TEMP_DIR / name)] for a file name without separators. *)
Definition path_join (dir name : string) : string := dir ++ "/" ++ name.

(** [open(path, 'rb').read()] *)
Definition read_file (path : string) (w : world) : result string :=
  match disk w !! path with
  | Some (File data _) => Return data
  | _ => Raise OSError
  end.

(** ** utils/oracle_storage.py *)

Record OracleCloudStorage : Type := {
  namespace : option string;      (* os.getenv("OCI_NAMESPACE") *)
  bucket_name : option string     (* os.getenv("OCI_BUCKET_NAME") *)
}.

Definition OracleCloudStorage_init (environ : gmap string string) : OracleCloudStorage :=
  {| namespace := environ !! "OCI_NAMESPACE";
     bucket_name := environ !! "OCI_BUCKET_NAME" |}.

(** [object_storage.put_object]: [accepted] tells whether the service
    takes this call (reachable, authorised); a namespace or bucket that
    was never configured is refused by the client library. *)
Definition put_object (st : OracleCloudStorage) (accepted : bool)
    (object_name body : string) (w : world) : result unit * world :=
  match namespace st, bucket_name st with
  | Some ns, Some b =>
      if accepted
      then (Return tt, set_objects (<[(ns, b, object_name) := body]> (objects w)) w)
      else (Raise ServiceError, w)
  | _, _ => (Raise ValueError, w)
  end.

(** [object_storage.get_object(...).data.content], as the browsers call it. *)
Definition get_object (st : OracleCloudStorage) (object_name : string) (w : world)
    : result string :=
  match namespace st, bucket_name st with
  | Some ns, Some b =>
      match objects w !! (ns, b, object_name) with
      | Some body => Return body
      | None => Raise ServiceError
      end
  | _, _ => Raise ValueError
  end.

(** [upload_image(file_path, object_name=None)]; the result is the object
    name or [None]. *)
Definition upload_image (st : OracleCloudStorage) (accepted : bool)
    (file_path : string) (object_name : option string) (w : world) : value * world :=
  (* try: *)
  let object_name :=
    match object_name with
    | Some name => if truthy (VStr name) then name else path_name file_path
    | None => path_name file_path
    end in
  match read_file file_path w with
  | Raise _ => (VNone, w)
  | Return data =>
      match put_object st accepted object_name data w with
      | (Raise _, w) => (VNone, w)
      | (Return _, w) => (VStr object_name, w)
      end
  end.

(** [save_metadata] *)
Definition save_metadata (st : OracleCloudStorage) (accepted : bool)
    (object_name : value) (metadata : pydict) (w : world) : bool * world :=
  (* try: *)
  let metadata_object_name := py_str object_name ++ ".metadata.json" in
  let metadata_json := encode_utf8 (json_dumps (VDict metadata)) in
  match put_object st accepted metadata_object_name metadata_json w with
  | (Raise _, w) => (false, w)
  | (Return _, w) => (true, w)
  end.

(** ** utils/llm_service.py *)

Record LLMService : Type := {
  api_url : string;
  api_key : string
}.

(** [LLMService.__init__]: the only inputs are two environment variables. *)
Definition LLMService_init (environ : gmap string string) : LLMService :=
  {| api_url := default "https://api.example.com/analyze" (environ !! "LLM_API_URL");
     api_key := default "" (environ !! "LLM_API_KEY") |}.

Definition prompt : string :=
  "Describe the uploaded image in full detail, applying your expertise as a highly scrupulous image analysis agent. Carefully observe and report every visible element, no matter how small, and provide a thorough, context-aware description. Analyze the relationships, interactions, and possible intentions of objects and subjects in the image. Ensure your description is precise, comprehensive, and avoids assumptions not supported by the image content.".

Definition system_prompt : string :=
  "You are an expert image analysis agent. Your task is to provide extremely detailed, accurate, and context-aware descriptions of images. You never miss any detail, no matter how small, and you always strive to understand and explain the context, relationships, and concepts present in the image. Your analysis should be thorough, objective, and insightful, covering not only visible objects but also their arrangement, interactions, possible intentions, emotions, and any relevant background information. Always avoid assumptions not supported by the image, and ensure your description is clear, precise, and comprehensive.".

(** One part of an [aiohttp.FormData]. *)
Inductive part_body : Type :=
  | Text (s : string)
  | Binary (data : string).

Record form_field : Type := {
  field_name : string;
  field_body : part_body;
  field_filename : option string;
  field_content_type : option string
}.

Record http_request : Type := {
  req_url : string;
  req_form : list form_field;
  req_headers : list (string * string)
}.

(** What [session.post] can come back with: an exception, or a response
    with a status and a body; the body is [None] when [response.json()]
    cannot decode it. *)
Inductive http_outcome : Type :=
  | NetworkError
  | Response (status : Z) (json : option value).

Definition text_field (name s : string) : form_field :=
  {| field_name := name; field_body := Text s;
     field_filename := None; field_content_type := None |}.

(** The form and headers that [analyze_image] builds for an image whose
    bytes are [file]. *)
Definition describe_request (svc : LLMService) (image_path file : string) : http_request :=
  let data :=
    [ text_field "prompt" prompt;
      text_field "system_prompt" system_prompt;
      text_field "max_tokens" "4000";
      text_field "temperature" "0.5";
      {| field_name := "images"; field_body := Binary file;
         field_filename := Some (os_path_basename image_path);
         field_content_type := Some "image/png" |} ] in
  let headers := [("X-API-Key", api_key svc)] in
  {| req_url := api_url svc; req_form := data; req_headers := headers |}.

(** [analyze_image]; [post] is the endpoint's answer to a request. *)
Definition analyze_image (svc : LLMService) (post : http_request -> http_outcome)
    (image_path : string) (w : world) : value :=
  (* try: *)
  match read_file image_path w with
  | Raise _ => VNone
  | Return file =>
      match post (describe_request svc image_path file) with
      | NetworkError => VNone
      | Response status json =>
          if (status =? 200)%Z then
            match json with
            | Some (VDict result) => default (VStr "") (dict_get "output" result)
            | _ => VNone   (* json() raised, or the result has no [get] *)
            end
          else VNone
      end
  end.

(** ** app.py *)

(** The module-level objects of app.py and the [TEMP_DIR] of config.py. *)
Record services : Type := {
  oracle_storage : OracleCloudStorage;
  llm_service : LLMService;
  TEMP_DIR : string
}.

(** A PIL image: the bytes [save] writes for it as JPEG, or [None] when
    its mode cannot be written as JPEG and [save] raises. *)
Record image : Type := { jpeg : option string }.

(** [image.save(path)].  Pillow opens the file for writing before it
    encodes the image: a path that is a directory cannot be opened; a file
    already at the path is emptied by the opening, and stays empty when the
    encoding fails; a file that the call itself has created is removed
    again when the encoding fails.  The directory of [path] is taken to
    exist: the only caller saves into [TEMP_DIR], which app.py creates when
    it is loaded (line 35), and nothing in the program removes a
    directory. *)
Definition image_save (img : image) (path : string) (w : world) : result unit * world :=
  match disk w !! path with
  | Some Dir => (Raise OSError, w)
  | Some (File _ r) =>
      match jpeg img with
      | Some data => (Return tt, set_disk (<[path := File data r]> (disk w)) w)
      | None => (Raise OSError, set_disk (<[path := File "" r]> (disk w)) w)
      end
  | None =>
      match jpeg img with
      | Some data => (Return tt, set_disk (<[path := File data true]> (disk w)) w)
      | None => (Raise OSError, w)
      end
  end.

(** [description[:50]], evaluated for the log line 91. *)
Definition slice_prefix (n : nat) (v : value) : result value :=
  match v with
  | VStr s => Return (VStr (text_prefix n s))
  | VList l => Return (VList (take n l))
  | _ => Raise TypeError
  end.

(** What one run of [process_image] takes from outside the program. *)
Record process_env : Type := {
  pe_uuid4 : string;                           (* uuid.uuid4() in create_request *)
  pe_now : datetime;                           (* datetime.now() *)
  pe_put_accepted : bool;                      (* the storage service takes the upload *)
  pe_post : http_request -> http_outcome       (* the inference endpoint *)
}.

Definition process_image (sv : services) (env : process_env) (img : option image)
    (w : world) : result (value * value) * world :=
  match img with
  | None => (Return (VNone, VStr "Please upload an image or take a photo."), w)
  | Some img =>
      (* Create request ID *)
      let '(request_id, w) := create_request (pe_uuid4 env) w in
      (* Generate a new filename with timestamp *)
      let timestamp := strftime_stamp (pe_now env) in
      let new_filename := timestamp ++ "_" ++ request_id ++ ".jpg" in
      let temp_path := path_join (TEMP_DIR sv) new_filename in
      (* Save PIL image to temporary file *)
      match image_save img temp_path w with
      | (Raise e, w) => (Raise e, w)
      | (Return _, w) =>
          (* Update request with temporary file path *)
          let '(_, w) :=
            update_request request_id
              [("status", VStr "image_received"); ("temp_path", VStr temp_path)] w in
          (* Upload to Oracle Cloud Storage *)
          let '(object_name, w) :=
            upload_image (oracle_storage sv) (pe_put_accepted env)
              temp_path (Some new_filename) w in
          if negb (truthy object_name)
          then (Return (VNone, VStr "Failed to upload image to cloud storage."), w)
          else
            (* Update request with cloud storage path *)
            let '(_, w) :=
              update_request request_id
                [("status", VStr "uploaded_to_cloud"); ("cloud_path", object_name)] w in
            (* Get image description from LLM *)
            let description := analyze_image (llm_service sv) (pe_post env) temp_path w in
            if negb (truthy description)
            then (Return (VNone, VStr "Failed to analyze image."), w)
            else
              match slice_prefix 50 description with
              | Raise e => (Raise e, w)
              | Return _ =>
                  (* Update request with LLM description *)
                  let '(_, w) :=
                    update_request request_id
                      [("status", VStr "analyzed"); ("llm_description", description)] w in
                  (Return (VStr request_id, description), w)
              end
      end
  end.

(** What one run of [save_feedback] takes from outside the program. *)
Record feedback_env : Type := {
  fe_now : datetime;               (* datetime.now() *)
  fe_put_accepted : bool           (* the storage service takes the metadata *)
}.

(** The dictionary literal [metadata] of [save_feedback]. *)
Definition feedback_metadata (now : datetime) (description : value)
    (approved : bool) (note : string) : pydict :=
  [ ("timestamp", VStr (isoformat now));
    ("description", description);
    ("approved", VBool approved);
    ("note", VStr note) ].

Definition save_feedback (sv : services) (env : feedback_env)
    (request_id : string) (approved : bool) (note : string) (w : world)
    : result string * world :=
  if negb (truthy (VStr request_id))
  then (Return "No active request. Please upload an image first.", w)
  else
    let '(request, w) := get_request request_id w in
    match request with
    | None => (Return "Invalid request ID.", w)
    | Some r =>
        if bool_decide (r = ∅) then (Return "Invalid request ID.", w) else
        (* Update request with user feedback *)
        let '(_, w) :=
          update_request request_id
            [("status", VStr "feedback_received");
             ("user_feedback", VBool approved);
             ("user_note", VStr note)] w in
        (* Save metadata to Oracle Cloud Storage *)
        match request_field request_id "llm_description" w with
        | Raise e => (Raise e, w)
        | Return description =>
            let metadata := feedback_metadata (fe_now env) description approved note in
            match request_field request_id "cloud_path" w with
            | Raise e => (Raise e, w)
            | Return cloud_path =>
                let '(success, w) :=
                  save_metadata (oracle_storage sv) (fe_put_accepted env)
                    cloud_path metadata w in
                if negb success
                then (Return "Failed to save feedback to cloud storage.", w)
                else
                  (* Clean up temporary file *)
                  match clean_temp_file request_id w with
                  | (Raise e, w) => (Raise e, w)
                  | (Return _, w) =>
                      (* Update request status *)
                      let '(_, w) := update_request request_id [("status", VStr "completed")] w in
                      (Return (if approved
                               then "Thank you for your feedback!"
                               else "Thank you for your feedback. We'll improve our descriptions."),
                       w)
                  end
            end
        end
    end.

(** ** json.loads

    The browsers read a metadata object back with
    [json.loads(content.decode('utf-8'))].  The decoder below follows the
    scanner of the [json] module: objects, arrays, strings with their
    escapes (a surrogate pair of [\u] escapes is one character), integers
    and the three literals, with white space between tokens.  Its answer
    is [None] where [json.loads] raises, and also where the result is
    outside the values of the model: a floating-point number
    ([1.5], [1e3], [NaN]), a string with a lone surrogate, an integer of
    more than 4300 digits (which CPython refuses from 3.11 on). *)

Definition is_ws (c : ascii) : bool :=
  Ascii.eqb c " " || Ascii.eqb c "009" || Ascii.eqb c "010" || Ascii.eqb c "013".

Fixpoint skip_ws (s : string) : string :=
  match s with
  | "" => ""
  | String c s' => if is_ws c then skip_ws s' else s
  end.

Definition hexval (c : ascii) : option N :=
  let n := N_of_ascii c in
  if ((48 <=? n) && (n <=? 57))%N then Some (n - 48)%N
  else if ((97 <=? n) && (n <=? 102))%N then Some (n - 87)%N
  else if ((65 <=? n) && (n <=? 70))%N then Some (n - 55)%N
  else None.

Definition hex4 (a b c d : ascii) : option N :=
  match hexval a, hexval b, hexval c, hexval d with
  | Some x, Some y, Some z, Some t => Some (((x * 16 + y) * 16 + z) * 16 + t)%N
  | _, _, _, _ => None
  end.

Definition prepend (t : string) (r : option (string * string)) : option (string * string) :=
  match r with
  | Some (text, rest) => Some (t ++ text, rest)
  | None => None
  end.

(** The characters of a string literal after its opening quote: the text
    and what follows the closing quote. *)
Fixpoint parse_string_body (s : string) : option (string * string) :=
  match s with
  | "" => None
  | String c s' =>
      if Ascii.eqb c dquote then Some ("", s')
      else if Ascii.eqb c backslash then
        match s' with
        | "" => None
        | String e s'' =>
            if Ascii.eqb e dquote || Ascii.eqb e backslash || Ascii.eqb e "/"
            then prepend (String e "") (parse_string_body s'')
            else if Ascii.eqb e "b" then prepend (String "008" "") (parse_string_body s'')
            else if Ascii.eqb e "f" then prepend (String "012" "") (parse_string_body s'')
            else if Ascii.eqb e "n" then prepend (String "010" "") (parse_string_body s'')
            else if Ascii.eqb e "r" then prepend (String "013" "") (parse_string_body s'')
            else if Ascii.eqb e "t" then prepend (String "009" "") (parse_string_body s'')
            else if Ascii.eqb e "u" then
              match s'' with
              | String h1 (String h2 (String h3 (String h4 s3))) =>
                  match hex4 h1 h2 h3 h4 with
                  | Some n =>
                      if scalar_value n
                      then prepend (utf8_of n) (parse_string_body s3)
                      else if (n <? 56320)%N then
                        (* a high surrogate: the low one must follow *)
                        match s3 with
                        | String b (String u (String l1 (String l2 (String l3 (String l4 s4))))) =>
                            if Ascii.eqb b backslash && Ascii.eqb u "u" then
                              match hex4 l1 l2 l3 l4 with
                              | Some m =>
                                  if ((56320 <=? m) && (m <? 57344))%N
                                  then prepend
                                         (utf8_of (65536 + (n - 55296) * 1024 + (m - 56320)))
                                         (parse_string_body s4)
                                  else None
                              | None => None
                              end
                            else None
                        | _ => None
                        end
                      else None
                  | None => None
                  end
              | _ => None
              end
            else None
        end
      else if (N_of_ascii c <? 32)%N then None
      else prepend (String c "") (parse_string_body s')
  end.

Fixpoint strip_prefix (p s : string) : option string :=
  match p, s with
  | "", _ => Some s
  | String a p', String b s' => if Ascii.eqb a b then strip_prefix p' s' else None
  | _, "" => None
  end.

(** The digits of an integer literal: [0], or a numeral that does not
    start with [0]. *)
Definition parse_natural (s : string) : option (N * string) :=
  let '(count, n, rest) := read_digits 0 0 s in
  if (count =? 0)%nat then None
  else if (1 <? count)%nat && bool_decide (is_Some (strip_prefix "0" s)) then None
  else if (4300 <? count)%nat then None
  else Some (n, rest).

(** A value, the members of an object from a key on, and the items of an
    array; each gives what it has read and what follows it. *)
Fixpoint parse_value (fuel : nat) (s : string) : option (value * string) :=
  match fuel with
  | O => None
  | S fuel =>
      match s with
      | "" => None
      | String c s' =>
          if Ascii.eqb c dquote then
            match parse_string_body s' with
            | Some (text, rest) => Some (VStr text, rest)
            | None => None
            end
          else if Ascii.eqb c "{" then
            match skip_ws s' with
            | String e s1 =>
                if Ascii.eqb e "}" then Some (VDict [], s1)
                else parse_members fuel [] (String e s1)
            | "" => None
            end
          else if Ascii.eqb c "[" then
            match skip_ws s' with
            | String e s1 =>
                if Ascii.eqb e "]" then Some (VList [], s1)
                else parse_items fuel [] (String e s1)
            | "" => None
            end
          else if Ascii.eqb c "-" then
            match parse_natural s' with
            | Some (n, rest) => Some (VInt (- Z.of_N n), rest)
            | None => None
            end
          else
            match strip_prefix "null" s, strip_prefix "true" s, strip_prefix "false" s with
            | Some rest, _, _ => Some (VNone, rest)
            | _, Some rest, _ => Some (VBool true, rest)
            | _, _, Some rest => Some (VBool false, rest)
            | _, _, _ =>
                match parse_natural s with
                | Some (n, rest) => Some (VInt (Z.of_N n), rest)
                | None => None
                end
            end
      end
  end
with parse_members (fuel : nat) (acc : pydict) (s : string) : option (value * string) :=
  match fuel with
  | O => None
  | S fuel =>
      match s with
      | String q s1 =>
          if Ascii.eqb q dquote then
            match parse_string_body s1 with
            | Some (key, s2) =>
                match skip_ws s2 with
                | String colon s3 =>
                    if Ascii.eqb colon ":" then
                      match parse_value fuel (skip_ws s3) with
                      | Some (v, s4) =>
                          let acc := dict_set key v acc in
                          match skip_ws s4 with
                          | String d s5 =>
                              if Ascii.eqb d "," then parse_members fuel acc (skip_ws s5)
                              else if Ascii.eqb d "}" then Some (VDict acc, s5)
                              else None
                          | "" => None
                          end
                      | None => None
                      end
                    else None
                | "" => None
                end
            | None => None
            end
          else None
      | "" => None
      end
  end
with parse_items (fuel : nat) (acc : list value) (s : string) : option (value * string) :=
  match fuel with
  | O => None
  | S fuel =>
      match parse_value fuel s with
      | Some (v, s1) =>
          match skip_ws s1 with
          | String d s2 =>
              if Ascii.eqb d "," then parse_items fuel (acc ++ [v]) (skip_ws s2)
              else if Ascii.eqb d "]" then Some (VList (acc ++ [v]), s2)
              else None
          | "" => None
          end
      | None => None
      end
  end.

(** [json.loads]: one value, with nothing but white space around it.  No
    value takes more steps than the text has characters. *)
Definition json_loads (s : string) : option value :=
  match parse_value (S (String.length s)) (skip_ws s) with
  | Some (v, rest) => if String.eqb (skip_ws rest) "" then Some v else None
  | None => None
  end.

(** ** Runs of the program

    The calls the presentation layer and other clients of the tracker can
    make, each with what it takes from outside the program. *)

Inductive call : Type :=
  | CreateRequest (uuid4 : string)
  | UpdateRequest (request_id : string) (kwargs : pydict)
  | GetRequest (request_id : string)
  | CleanTempFile (request_id : string)
  | ProcessImage (env : process_env) (img : option image)
  | SaveFeedback (env : feedback_env) (request_id : string) (approved : bool) (note : string).

Definition step (sv : services) (w : world) (c : call) : world :=
  match c with
  | CreateRequest uuid4 => snd (create_request uuid4 w)
  | UpdateRequest request_id kwargs => snd (update_request request_id kwargs w)
  | GetRequest request_id => snd (get_request request_id w)
  | CleanTempFile request_id => snd (clean_temp_file request_id w)
  | ProcessImage env img => snd (process_image sv env img w)
  | SaveFeedback env request_id approved note =>
      snd (save_feedback sv env request_id approved note w)
  end.

Definition run (sv : services) (cs : list call) (w : world) : world :=
  foldl (step sv) w cs.

(** The values [uuid.uuid4()] yields during a call. *)
Definition draws (c : call) : list string :=
  match c with
  | CreateRequest uuid4 => [uuid4]
  | ProcessImage env (Some _) => [pe_uuid4 env]
  | _ => []
  end.

Definition all_draws (cs : list call) : list string := concat (map draws cs).

(** The two entry points of the orchestrator. *)
Definition is_flow (c : call) : bool :=
  match c with
  | ProcessImage _ _ | SaveFeedback _ _ _ _ => true
  | _ => false
  end.

(** The identifiers [create_request] has returned, read off its log line. *)
Fixpoint created_ids (log : list log_event) : list string :=
  match log with
  | [] => []
  | LogCreated request_id :: log' => request_id :: created_ids log'
  | _ :: log' => created_ids log'
  end.

(** The files [clean_temp_file] has deleted, read off its log line. *)
Fixpoint deleted_files (log : list log_event) : list string :=
  match log with
  | [] => []
  | LogDeleted temp_path :: log' => temp_path :: deleted_files log'
  | _ :: log' => deleted_files log'
  end.

(** ** Names used in the statements *)

(** The file name and the local path [process_image] generates. *)
Definition image_filename (env : process_env) : string :=
  strftime_stamp (pe_now env) ++ "_" ++ pe_uuid4 env ++ ".jpg".

Definition image_temp_path (sv : services) (env : process_env) : string :=
  path_join (TEMP_DIR sv) (image_filename env).

(** The storage service refuses a [put_object] call. *)
Definition put_refused (st : OracleCloudStorage) (accepted : bool) : Prop :=
  accepted = false \/ namespace st = None \/ bucket_name st = None.

(** The response from which [analyze_image] extracts no text. *)
Definition no_text (o : http_outcome) : Prop :=
  match o with
  | NetworkError => True
  | Response status json =>
      status <> 200%Z \/
      exists result, json = Some (VDict result) /\ dict_get "output" result = None
  end.

(** The text part of a form under a given name. *)
Definition form_text (name : string) (req : http_request) : option string :=
  match List.find (fun f => String.eqb (field_name f) name) (req_form req) with
  | Some f => match field_body f with Text s => Some s | Binary _ => None end
  | None => None
  end.

Definition form_binary (name : string) (req : http_request) : option string :=
  match List.find (fun f => String.eqb (field_name f) name) (req_form req) with
  | Some f => match field_body f with Binary b => Some b | Text _ => None end
  | None => None
  end.

Definition header (name : string) (req : http_request) : option string :=
  snd <$> List.find (fun h => String.eqb (fst h) name) (req_headers req).

(** The fields the specification calls write-once. *)
Definition write_once_fields : list string := ["cloud_path"; "llm_description"].

(** [r'] still holds every non-empty write-once field of [r]. *)
Definition record_keeps (r r' : gmap string value) : Prop :=
  forall key v,
    key ∈ write_once_fields -> r !! key = Some v -> truthy v = true ->
    r' !! key = Some v.

(** Every record of [m] is still in [m'], with its non-empty write-once
    fields unchanged. *)
Definition keeps (m m' : gmap string (gmap string value)) : Prop :=
  forall request_id r,
    m !! request_id = Some r ->
    exists r', m' !! request_id = Some r' /\ record_keeps r r'.

(** The recorded history is consistent: it ends in the current contents of
    the tracker, and later snapshots keep what earlier ones hold. *)
Definition history_ok (w : world) : Prop :=
  last (snapshots w) = Some (requests w) /\
  forall i j m m',
    (i <= j)%nat -> snapshots w !! i = Some m -> snapshots w !! j = Some m' ->
    keeps m m'.

(** ** Auxiliary notions for the proofs *)

(** The members of an object and the items of an array as [json_dumps]
    writes them. *)
Fixpoint dump_members (d : pydict) : string :=
  match d with
  | [] => ""
  | (k, x) :: d' =>
      match d' with
      | [] => json_string k ++ ": " ++ json_dumps x
      | _ => json_string k ++ ": " ++ json_dumps x ++ ", " ++ dump_members d'
      end
  end.

Fixpoint dump_items (l : list value) : string :=
  match l with
  | [] => ""
  | x :: l' =>
      match l' with
      | [] => json_dumps x
      | _ => json_dumps x ++ ", " ++ dump_items l'
      end
  end.

(** The number of decimal digits of a positive number (none for 0). *)
Definition ndigits (x : N) : nat := String.length (pretty_N_go x "").

(** The string does not go on with a digit. *)
Definition no_digit_ahead (s : string) : Prop :=
  match s with
  | "" => True
  | String c _ => digit_value c = None
  end.

(** All bytes are below 128. *)
Fixpoint ascii_only (s : string) : bool :=
  match s with
  | "" => true
  | String c s' => (N_of_ascii c <? 128)%N && ascii_only s'
  end.

(** The number of values in a value. *)
Fixpoint size (v : value) : nat :=
  match v with
  | VList l => S (list_sum (map (fun x => S (size x)) l))
  | VDict d =>
      S ((fix members (d : pydict) : nat :=
            match d with
            | [] => O
            | (_, x) :: d' => S (size x + members d')
            end) d)
  | _ => 1
  end.

(** The decoder, given enough steps, reads back the text written for a
    value. *)
Definition reads_back (x : value) : Prop :=
  forall fuel rest,
    (size x <= fuel)%nat -> no_digit_ahead rest ->
    parse_value fuel (json_dumps x ++ rest) = Some (x, rest).

(** The values that [json.loads] gives back as [json.dumps] wrote them:
    every string in them is a text, every dictionary has distinct keys,
    and every integer has at most 4300 digits. *)
Fixpoint json_value (v : value) : bool :=
  match v with
  | VNone | VBool _ => true
  | VInt z => (String.length (pretty (Z.abs_N z)) <=? 4300)%nat
  | VStr s => is_text s
  | VList l => forallb json_value l
  | VDict d =>
      (fix members (d : pydict) : bool :=
         match d with
         | [] => true
         | (k, x) :: d' => is_text k && json_value x && members d'
         end) d
      && bool_decide (NoDup d.*1)
  end.

(** The identifiers handed out so far are [used], and every record of the
    tracker was created under one of them. *)
Definition ids_accounted (used : list string) (w : world) : Prop :=
  created_ids (tracker_log w) = used /\
  forall request_id, is_Some (requests w !! request_id) -> request_id ∈ used.

(** [w'] differs from [w] in nothing that concerns the tracker's records. *)
Definition same_tracker (w w' : world) : Prop :=
  requests w' = requests w /\
  snapshots w' = snapshots w /\
  created_ids (tracker_log w') = created_ids (tracker_log w).

(** The history is consistent and the record under [request_id] is [r]. *)
Definition tracked (request_id : string) (r : gmap string value) (w : world) : Prop :=
  history_ok w /\ requests w !! request_id = Some r.

(** ** Example inputs *)

Definition demo_services : services :=
  {| oracle_storage := {| namespace := Some "tenancy"; bucket_name := Some "images" |};
     llm_service := {| api_url := "https://llm.example.com/analyze"; api_key := "secret" |};
     TEMP_DIR := "/srv/app/temp" |}.

Definition demo_now : datetime :=
  {| year := 2024; month := 3; day := 7;
     hour := 9; minute := 5; second := 1; microsecond := 250 |}.

Definition demo_id : string := "3f2b8c1e-5d4a-4e6f-9a7b-1c2d3e4f5a6b".

Definition demo_image : image := {| jpeg := Some "JFIF-bytes" |}.

(** A machine with an empty disk, no open descriptors and an empty bucket. *)
Definition demo_start : world := init_world ∅ ∅ ∅.

(** Every service answers. *)
Definition demo_env : process_env :=
  {| pe_uuid4 := demo_id; pe_now := demo_now; pe_put_accepted := true;
     pe_post := fun _ => Response 200 (Some (VDict [("output", VStr "A cat on a sofa.")])) |}.

(** The storage service is unavailable. *)
Definition demo_env_storage_down : process_env :=
  {| pe_uuid4 := demo_id; pe_now := demo_now; pe_put_accepted := false;
     pe_post := fun _ => Response 200 (Some (VDict [("output", VStr "A cat on a sofa.")])) |}.

(** The inference endpoint answers 503. *)
Definition demo_env_llm_down : process_env :=
  {| pe_uuid4 := demo_id; pe_now := demo_now; pe_put_accepted := true;
     pe_post := fun _ => Response 503 None |}.

Definition demo_feedback_env : feedback_env :=
  {| fe_now := demo_now; fe_put_accepted := true |}.

(** The world after one successful [process_image]. *)
Definition demo_analyzed : world :=
  snd (process_image demo_services demo_env (Some demo_image) demo_start).

Definition demo_record : gmap string value :=
  default ∅ (requests demo_analyzed !! demo_id).

Definition demo_run : list call :=
  [ ProcessImage demo_env (Some demo_image);
    SaveFeedback demo_feedback_env demo_id true "looks good";
    SaveFeedback demo_feedback_env demo_id false "" ].

Definition demo_filename : string := "20240307_090501_3f2b8c1e-5d4a-4e6f-9a7b-1c2d3e4f5a6b.jpg".

Definition demo_temp_path : string :=
  "/srv/app/temp/20240307_090501_3f2b8c1e-5d4a-4e6f-9a7b-1c2d3e4f5a6b.jpg".

(** The same world, with the temp file in a directory that has become
    read-only: [os.remove] raises. *)
Definition demo_locked : world :=
  set_disk (<[demo_temp_path := File "JFIF-bytes" false]> (disk demo_analyzed))
    demo_analyzed.

(** ** utils/image_browser.py *)

(** [s.endswith(suffix)] *)
Definition endswith (suffix s : string) : bool :=
  let n := String.length s in
  let m := String.length suffix in
  if (m <=? n)%nat then String.eqb (String.substring (n - m) m s) suffix else false.

(** The dictionary the browsers fall back on when the metadata of an
    image cannot be read. *)
Definition empty_metadata : pydict :=
  [ ("timestamp", VStr ""); ("description", VStr "");
    ("approved", VStr ""); ("note", VStr "") ].

(** The [try] block of [list_images]: fetch [name.metadata.json] and
    decode it.  [loads] stands for
    [json.loads(content.decode('utf-8'))], [None] when it raises. *)
Definition read_metadata (loads : string -> option value) (st : OracleCloudStorage)
    (name : string) (w : world) : value :=
  let metadata_name := name ++ ".metadata.json" in
  match get_object st metadata_name w with
  | Raise _ => VDict empty_metadata
  | Return content =>
      match loads content with
      | Some metadata => metadata
      | None => VDict empty_metadata
      end
  end.

(** [metadata.get(key, "")]; only dictionaries have [get]. *)
Definition metadata_get (metadata : value) (key : string) : result value :=
  match metadata with
  | VDict d => Return (default (VStr "") (dict_get key d))
  | _ => Raise AttributeError
  end.

(** The dictionary appended to [images] for one object. *)
Definition image_entry (name : string) (metadata : value) : result pydict :=
  match metadata_get metadata "description", metadata_get metadata "note",
        metadata_get metadata "approved", metadata_get metadata "timestamp" with
  | Return description, Return note, Return approved, Return timestamp =>
      Return [ ("name", VStr name);
               ("url", VStr ("/image/" ++ name));
               ("description", description);
               ("note", note);
               ("approved", approved);
               ("timestamp", timestamp) ]
  | Raise e, _, _, _ => Raise e
  | _, Raise e, _, _ => Raise e
  | _, _, Raise e, _ => Raise e
  | _, _, _, Raise e => Raise e
  end.

(** The loop of [list_images] (lines 29 to 59): the list [images] it
    builds.  [listing] is the sequence of object names that
    [list_objects(...).data.objects] came back with. *)
Fixpoint collect_images (loads : string -> option value) (st : OracleCloudStorage)
    (listing : list string) (w : world) : result (list pydict) :=
  match listing with
  | [] => Return []
  | name :: listing' =>
      if endswith ".metadata.json" name then collect_images loads st listing' w
      else
        match image_entry name (read_metadata loads st name w) with
        | Raise e => Raise e
        | Return entry =>
            match collect_images loads st listing' w with
            | Raise e => Raise e
            | Return images => Return (entry :: images)
            end
        end
  end.

(** Flask writes the objects of a response with their keys sorted
    ([sort_keys] is on by default), at every depth.  Keys are compared
    character by character, which on UTF-8 encodings is byte by byte. *)
Fixpoint insert_sorted (k : string) (v : value) (d : pydict) : pydict :=
  match d with
  | [] => [(k, v)]
  | (k', v') :: d' =>
      if String.ltb k' k then (k', v') :: insert_sorted k v d' else (k, v) :: d
  end.

Fixpoint sort_keys (v : value) : value :=
  match v with
  | VList l => VList (map sort_keys l)
  | VDict d =>
      VDict ((fix members (d : pydict) : pydict :=
                match d with
                | [] => []
                | (k, x) :: d' => insert_sorted k (sort_keys x) (members d')
                end) d)
  | _ => v
  end.

(** [jsonify(x)]: the JSON document that the response carries, which is
    what a client of the route decodes.  (How the text of the body is laid
    out, compact or indented, depends on the mode Flask runs in and is not
    modelled.) *)
Definition jsonify (v : value) : value := sort_keys v.

(** [list_images] *)
Definition list_images (loads : string -> option value) (st : OracleCloudStorage)
    (listing : list string) (w : world) : result value :=
  match collect_images loads st listing w with
  | Raise e => Raise e
  | Return images => Return (jsonify (VList (VDict <$> images)))
  end.

(** [get_image]: the content and the MIME type of the response. *)
Definition get_image (st : OracleCloudStorage) (object_name : string) (w : world)
    : result (string * string) :=
  match get_object st object_name w with
  | Raise e => Raise e
  | Return content => Return (content, "image/webp")
  end.

(** ** More names used in the statements *)

(** What [analyze_image] makes of the endpoint's answer. *)
Definition response_text (o : http_outcome) : value :=
  match o with
  | NetworkError => VNone
  | Response status json =>
      if (status =? 200)%Z then
        match json with
        | Some (VDict result) => default (VStr "") (dict_get "output" result)
        | _ => VNone
        end
      else VNone
  end.

(** The answer [process_image] gets for its image, once the image is saved. *)
Definition image_description (sv : services) (env : process_env) (data : string) : value :=
  response_text
    (pe_post env (describe_request (llm_service sv) (image_temp_path sv env) data)).

(** The three updates of [process_image]. *)
Definition received_record (sv : services) (env : process_env) : gmap string value :=
  apply_kwargs [("status", VStr "image_received");
                ("temp_path", VStr (image_temp_path sv env))] new_request.

Definition uploaded_record (sv : services) (env : process_env) : gmap string value :=
  apply_kwargs [("status", VStr "uploaded_to_cloud");
                ("cloud_path", VStr (image_filename env))] (received_record sv env).

Definition analyzed_record (sv : services) (env : process_env) (description : value)
    : gmap string value :=
  apply_kwargs [("status", VStr "analyzed"); ("llm_description", description)]
    (uploaded_record sv env).

(** ** More auxiliary notions for the proofs *)

(** A property of the tracker's contents that no update of an existing
    record can break. *)
Definition update_closed (P : gmap string (gmap string value) -> Prop) : Prop :=
  forall m request_id r kwargs,
    m !! request_id = Some r -> P m -> P (<[request_id := apply_kwargs kwargs r]> m).

(** The keys of the dictionary literal of [create_request]. *)
Definition record_fields : list string :=
  ["status"; "temp_path"; "cloud_path"; "llm_description"; "user_feedback"; "user_note"].

(** Every record has all the keys it was created with. *)
Definition records_complete (m : gmap string (gmap string value)) : Prop :=
  forall request_id r key,
    m !! request_id = Some r -> key ∈ record_fields -> is_Some (r !! key).

(** The two updates of [save_feedback]. *)
Definition feedback_record (approved : bool) (note : string) (r : gmap string value)
    : gmap string value :=
  apply_kwargs [("status", VStr "feedback_received");
                ("user_feedback", VBool approved);
                ("user_note", VStr note)] r.

Definition completed_record (approved : bool) (note : string) (r : gmap string value)
    : gmap string value :=
  apply_kwargs [("status", VStr "completed")] (feedback_record approved note r).

(** A file name proper: not empty, not [.], and without a slash. *)
Fixpoint has_slash (s : string) : bool :=
  match s with
  | "" => false
  | String c s' => Ascii.eqb c "/" || has_slash s'
  end.

Definition simple_name (name : string) : Prop :=
  name <> "" /\ name <> "." /\ has_slash name = false.

(** The object name [upload_image] settles on. *)
Definition upload_name (file_path : string) (object_name : option string) : string :=
  match object_name with
  | Some name => if truthy (VStr name) then name else path_name file_path
  | None => path_name file_path
  end.

(** The entry of [list_images] for an image and the dictionary read as
    its metadata. *)
Definition entry_of (name : string) (metadata : pydict) : pydict :=
  [ ("name", VStr name);
    ("url", VStr ("/image/" ++ name));
    ("description", default (VStr "") (dict_get "description" metadata));
    ("note", default (VStr "") (dict_get "note" metadata));
    ("approved", default (VStr "") (dict_get "approved" metadata));
    ("timestamp", default (VStr "") (dict_get "timestamp" metadata)) ].

(** The same entry as the response of [list_images] carries it. *)
Definition shown_entry (name : string) (metadata : pydict) : pydict :=
  [ ("approved", sort_keys (default (VStr "") (dict_get "approved" metadata)));
    ("description", sort_keys (default (VStr "") (dict_get "description" metadata)));
    ("name", VStr name);
    ("note", sort_keys (default (VStr "") (dict_get "note" metadata)));
    ("timestamp", sort_keys (default (VStr "") (dict_get "timestamp" metadata)));
    ("url", VStr ("/image/" ++ name)) ].

(** The keys of an entry, in the order of the response. *)
Definition entry_keys : list string :=
  ["approved"; "description"; "name"; "note"; "timestamp"; "url"].

(** The object is an image for the browsers: not a metadata object. *)
Definition is_image_name (name : string) : bool :=
  negb (endswith ".metadata.json" name).

(** The metadata of an image cannot be read: the object is missing, or its
    content does not decode. *)
Definition metadata_unreadable (loads : string -> option value)
    (st : OracleCloudStorage) (name : string) (w : world) : Prop :=
  match get_object st (name ++ ".metadata.json") w with
  | Raise _ => True
  | Return content => loads content = None
  end.

(** Whether the file [image.save] leaves at [path] can be removed: a file
    that was already there keeps its directory, a new one is in a
    directory that has just been written to. *)
Definition saved_removable (w : world) (path : string) : bool :=
  match disk w !! path with
  | Some (File _ removable) => removable
  | _ => true
  end.

(** The world after [image.save] has failed on [path]: a file that was
    there has been emptied, and nothing else has changed. *)
Definition emptied (path : string) (w : world) : world :=
  match disk w !! path with
  | Some (File _ removable) => set_disk (<[path := File "" removable]> (disk w)) w
  | _ => w
  end.

(** [loads] decodes at least what the model's decoder decodes, and to the
    same value. *)
Definition decodes_metadata (loads : string -> option value) : Prop :=
  forall bytes v, decode_utf8 bytes ≫= json_loads = Some v -> loads bytes = Some v.

(** The entry of [list_images] for an image with feedback, as the
    response shows it. *)
Definition feedback_entry (name : string) (now : datetime) (description : value)
    (approved : bool) (note : string) : pydict :=
  [ ("approved", VBool approved);
    ("description", description);
    ("name", VStr name);
    ("note", VStr note);
    ("timestamp", VStr (isoformat now));
    ("url", VStr ("/image/" ++ name)) ].

(** The entry of the response for an image without readable metadata. *)
Definition bare_entry (name : string) : pydict :=
  [ ("approved", VStr "");
    ("description", VStr "");
    ("name", VStr name);
    ("note", VStr "");
    ("timestamp", VStr "");
    ("url", VStr ("/image/" ++ name)) ].

(** ** The life cycle of a record *)

(** The records the two flows can leave in the tracker. *)
Inductive lifecycle : gmap string value -> Prop :=
  | lc_created : lifecycle new_request
  | lc_received sv env : lifecycle (received_record sv env)
  | lc_uploaded sv env : lifecycle (uploaded_record sv env)
  | lc_analyzed sv env description :
      truthy description = true -> lifecycle (analyzed_record sv env description)
  | lc_feedback approved note r :
      lifecycle r -> lifecycle (feedback_record approved note r)
  | lc_completed approved note r :
      lifecycle r -> lifecycle (completed_record approved note r).

Definition records_in_lifecycle (m : gmap string (gmap string value)) : Prop :=
  forall request_id r, m !! request_id = Some r -> lifecycle r.

(** The values of [status] in the code. *)
Definition statuses : list string :=
  ["created"; "image_received"; "uploaded_to_cloud"; "analyzed";
   "feedback_received"; "completed"].

(** What the status of a record says about its other fields. *)
Definition status_matches_fields (r : gmap string value) : Prop :=
  exists status temp_path cloud_path description feedback note,
    r !! "status" = Some (VStr status) /\
    r !! "temp_path" = Some temp_path /\
    r !! "cloud_path" = Some cloud_path /\
    r !! "llm_description" = Some description /\
    r !! "user_feedback" = Some feedback /\
    r !! "user_note" = Some note /\
    status ∈ statuses /\
    (truthy description = true -> truthy cloud_path = true) /\
    (truthy cloud_path = true -> truthy temp_path = true) /\
    (status = "created" ->
       temp_path = VNone /\ cloud_path = VNone /\ description = VNone /\
       feedback = VNone /\ note = VNone) /\
    (status = "image_received" ->
       truthy temp_path = true /\ cloud_path = VNone /\ description = VNone /\
       feedback = VNone) /\
    (status = "uploaded_to_cloud" ->
       truthy cloud_path = true /\ description = VNone /\ feedback = VNone) /\
    (status = "analyzed" -> truthy description = true /\ feedback = VNone) /\
    (status = "feedback_received" \/ status = "completed" ->
       exists approved text, feedback = VBool approved /\ note = VStr text).

(** A clock reading as [datetime.now()] gives it in any year of four
    digits: every other field has at most two. *)
Definition four_digit_year (t : datetime) : Prop :=
  (1000 <= year t < 10000)%N /\
  (month t < 100)%N /\ (day t < 100)%N /\
  (hour t < 100)%N /\ (minute t < 100)%N /\ (second t < 100)%N.

(** ** ISO 8601

    What the specification calls an ISO-8601 string: a date and a time of
    day in the extended format [YYYY-MM-DDThh:mm:ss], optionally followed
    by a decimal fraction of the second. *)

Definition expect (c : ascii) (s : string) : option string :=
  match s with
  | String c' s' => if Ascii.eqb c c' then Some s' else None
  | "" => None
  end.

(** A number of exactly [width] digits between [lo] and [hi]. *)
Definition field (width : nat) (lo hi : N) (s : string) : option string :=
  let '(count, n, rest) := read_digits 0 0 s in
  if (count =? width)%nat && (lo <=? n)%N && (n <=? hi)%N then Some rest else None.

Definition iso8601 (s : string) : bool :=
  match
    s ← field 4 0 9999 s; s ← expect "-" s;
    s ← field 2 1 12 s; s ← expect "-" s;
    s ← field 2 1 31 s; s ← expect "T" s;
    s ← field 2 0 23 s; s ← expect ":" s;
    s ← field 2 0 59 s; s ← expect ":" s;
    field 2 0 59 s
  with
  | Some "" => true
  | Some fraction =>
      match expect "." fraction with
      | Some digits =>
          let '(count, _, rest) := read_digits 0 0 digits in
          (0 <? count)%nat && String.eqb rest ""
      | None => false
      end
  | None => false
  end.

(** The fields of a [datetime] object are in these ranges. *)
Definition valid_datetime (t : datetime) : Prop :=
  (1 <= year t <= 9999)%N /\ (1 <= month t <= 12)%N /\ (1 <= day t <= 31)%N /\
  (hour t < 24)%N /\ (minute t < 60)%N /\ (second t < 60)%N /\
  (microsecond t < 1000000)%N.

(** ** More example inputs *)

(** The model's decoder, for [json.loads] after [decode('utf-8')]. *)
Definition demo_loads (bytes : string) : option value :=
  decode_utf8 bytes ≫= json_loads.

(** The endpoint answers with a number where text is expected. *)
Definition demo_env_number : process_env :=
  {| pe_uuid4 := demo_id; pe_now := demo_now; pe_put_accepted := true;
     pe_post := fun _ => Response 200 (Some (VDict [("output", VInt 7)])) |}.

(** An image whose mode cannot be written as JPEG. *)
Definition demo_unsaveable : image := {| jpeg := None |}.

(** Another submission, a second later. *)
Definition demo_env_next : process_env :=
  {| pe_uuid4 := "0b7c2f9a-1d3e-4f5a-8b6c-7d8e9f0a1b2c";
     pe_now := {| year := 2024; month := 3; day := 7;
                  hour := 9; minute := 5; second := 2; microsecond := 0 |};
     pe_put_accepted := true;
     pe_post := fun _ => Response 200 (Some (VDict [("output", VStr "A dog.")])) |}.

(** The storage service refuses the metadata. *)
Definition demo_feedback_env_down : feedback_env :=
  {| fe_now := demo_now; fe_put_accepted := false |}.

(** The world after the submission and an approving feedback. *)
Definition demo_completed : world :=
  snd (save_feedback demo_services demo_feedback_env demo_id true "looks good"
         demo_analyzed).

(** What the bucket lists then, and what the browser makes of it. *)
Definition demo_listing : list string :=
  [demo_filename; demo_filename ++ ".metadata.json"].

Definition demo_images : value :=
  match list_images demo_loads (oracle_storage demo_services) demo_listing demo_completed with
  | Return images => images
  | Raise _ => VNone
  end.

(** The record at the end of the example run. *)
Definition demo_final_record : gmap string value :=
  default ∅ (requests (run demo_services demo_run demo_start) !! demo_id).

(** A bucket in which the metadata object of [demo_filename] holds a
    JSON list, and a decoder that says so. *)
Definition demo_bad_bucket : world :=
  set_objects (<[("tenancy", "images", demo_filename ++ ".metadata.json") := "[]"]>
                 (objects demo_analyzed)) demo_analyzed.

Definition demo_loads_list (bytes : string) : option value := Some (VList []).

(** A description and a note beyond ASCII. *)
Definition demo_text : string := "Café — a “cat” asleep on the sofa 🐈".

Definition demo_note : string := "très bien — merci".

Definition demo_env_text : process_env :=
  {| pe_uuid4 := demo_id; pe_now := demo_now; pe_put_accepted := true;
     pe_post := fun _ => Response 200 (Some (VDict [("output", VStr demo_text)])) |}.

(** The world after a submission that was described by [demo_text]. *)
Definition demo_described : world :=
  snd (process_image demo_services demo_env_text (Some demo_image) demo_start).

Definition demo_described_record : gmap string value :=
  default ∅ (requests demo_described !! demo_id).

(** The endpoint answers with a list of strings where one string is
    expected. *)
Definition demo_parts : value := VList [VStr "a cat"; VStr "a sofa"].

Definition demo_env_list : process_env :=
  {| pe_uuid4 := demo_id; pe_now := demo_now; pe_put_accepted := true;
     pe_post := fun _ => Response 200 (Some (VDict [("output", demo_parts)])) |}.

(** A file is already at the path of the example submission. *)
Definition demo_occupied : world :=
  set_disk (<[demo_temp_path := File "old bytes" true]> ∅) demo_start.

(** The world after an approving feedback on that submission, with
    [demo_note], and what the browser then answers. *)
Definition demo_shown : world :=
  snd (save_feedback demo_services demo_feedback_env demo_id true demo_note
         demo_described).

Definition demo_response : value :=
  match list_images demo_loads (oracle_storage demo_services) demo_listing demo_shown with
  | Return response => response
  | Raise _ => VNone
  end.

(** A metadata dictionary with text beyond ASCII, a number and a list. *)
Definition demo_metadata : pydict :=
  [ ("note", VStr demo_note); ("approved", VBool false); ("by", VNone);
    ("tags", VList [VStr "猫"; VInt (-3)]) ].

(* ===================================================================== *)
(** * Part II: properties                                                *)
(* ===================================================================== *)

(** ** The tracker *)

Section tracker.
Implicit Types (w : world) (r : gmap string value) (kwargs : pydict).

Lemma apply_kwargs_frame kwargs r key :
  key ∉ kwargs.*1 -> apply_kwargs kwargs r !! key = r !! key.
Proof.
  unfold apply_kwargs. revert r.
  induction kwargs as [|[k v] kwargs IH]; intros r Hkey; [done|].
  cbn in *. apply not_elem_of_cons in Hkey as [Hne Hrest].
  rewrite IH by done. by rewrite lookup_insert_ne.
Qed.

Lemma update_request_found w request_id kwargs r :
  requests w !! request_id = Some r ->
  update_request request_id kwargs w =
    (true,
     logging (LogUpdated request_id kwargs)
       (set_requests (<[request_id := apply_kwargs kwargs r]> (requests w)) w)).
Proof. intros H. unfold update_request. by rewrite H. Qed.

Lemma get_request_found w request_id r :
  requests w !! request_id = Some r -> get_request request_id w = (Some r, w).
Proof. intros H. unfold get_request. by rewrite H. Qed.

Lemma clean_temp_file_requests w request_id :
  requests (snd (clean_temp_file request_id w)) = requests w.
Proof.
  unfold clean_temp_file, get_request.
  destruct (requests w !! request_id) as [r|]; [|done].
  case_bool_decide; [done|].
  destruct (r !! "temp_path") as [p|]; [|done].
  destruct (truthy p); [|done]. cbn.
  destruct (os_path_exists p w) as [[]|]; [|done|done].
  unfold os_remove. destruct p; try done.
  destruct (disk w !! s) as [[? []|]|]; done.
Qed.

End tracker.

(** C2.  Partial-update semantics: on an existing record, [update_request]
    succeeds and the record afterwards agrees with the record before on
    every field that the update does not name; no other record changes. *)
Theorem update_request_partial (w : world) (request_id : string) (kwargs : pydict)
    (r : gmap string value) :
  requests w !! request_id = Some r ->
  exists r',
    fst (update_request request_id kwargs w) = true /\
    requests (snd (update_request request_id kwargs w)) !! request_id = Some r' /\
    (forall key, key ∉ kwargs.*1 -> r' !! key = r !! key) /\
    (forall other, other <> request_id ->
       requests (snd (update_request request_id kwargs w)) !! other =
       requests w !! other).
Proof.
  intros Hr. rewrite (update_request_found _ _ _ _ Hr). cbn.
  exists (apply_kwargs kwargs r). split; [done|]. split.
  - apply lookup_insert_eq.
  - split.
    + intros key. apply apply_kwargs_frame.
    + intros other Hne. by rewrite lookup_insert_ne.
Qed.

Section cleanup.
Implicit Types (w : world) (r : gmap string value).

Lemma truthy_VStr p : p <> "" -> truthy (VStr p) = true.
Proof.
  intros Hp. cbn. destruct (String.eqb_spec p ""); [done|done].
Qed.

Lemma deleted_files_app l1 l2 :
  deleted_files (l1 ++ l2) = (deleted_files l1 ++ deleted_files l2)%list.
Proof.
  induction l1 as [|e l1 IH]; [done|]. destruct e; cbn; by rewrite ?IH.
Qed.

Lemma created_ids_app l1 l2 :
  created_ids (l1 ++ l2) = (created_ids l1 ++ created_ids l2)%list.
Proof.
  induction l1 as [|e l1 IH]; [done|]. destruct e; cbn; by rewrite ?IH.
Qed.

(** The file is not on disk: success, and nothing happens. *)
Lemma clean_temp_file_absent w request_id r p :
  requests w !! request_id = Some r ->
  r !! "temp_path" = Some (VStr p) -> p <> "" ->
  disk w !! p = None ->
  clean_temp_file request_id w = (Return true, w).
Proof.
  intros Hr Hp Hne Hd. unfold clean_temp_file.
  rewrite (get_request_found _ _ _ Hr).
  rewrite bool_decide_eq_false_2 by (intros ->; by rewrite lookup_empty in Hp).
  rewrite Hp, truthy_VStr by done. cbn [negb os_path_exists].
  rewrite bool_decide_eq_false_2 by (rewrite Hd; by intros [? ?]). done.
Qed.

(** The file is on disk and can be removed: it is removed and logged. *)
Lemma clean_temp_file_present w request_id r p data :
  requests w !! request_id = Some r ->
  r !! "temp_path" = Some (VStr p) -> p <> "" ->
  disk w !! p = Some (File data true) ->
  clean_temp_file request_id w =
    (Return true, logging (LogDeleted p) (set_disk (delete p (disk w)) w)).
Proof.
  intros Hr Hp Hne Hd. unfold clean_temp_file.
  rewrite (get_request_found _ _ _ Hr).
  rewrite bool_decide_eq_false_2 by (intros ->; by rewrite lookup_empty in Hp).
  rewrite Hp, truthy_VStr by done. cbn [negb os_path_exists].
  rewrite bool_decide_eq_true_2 by (rewrite Hd; eauto).
  cbn [os_remove]. by rewrite Hd.
Qed.

(** The path was never set: a failure report, and nothing happens. *)
Lemma clean_temp_file_unset w request_id r :
  requests w !! request_id = Some r ->
  r !! "temp_path" = Some VNone ->
  clean_temp_file request_id w = (Return false, w).
Proof.
  intros Hr Hp. unfold clean_temp_file.
  rewrite (get_request_found _ _ _ Hr).
  rewrite bool_decide_eq_false_2 by (intros ->; by rewrite lookup_empty in Hp).
  by rewrite Hp.
Qed.

End cleanup.

(** C1, as the code has it.  On a record whose [temp_path] was never set
    [clean_temp_file] reports failure and touches nothing.  On a record
    whose [temp_path] is set, with the file absent or removable, two calls
    in a row both report success, the file is gone afterwards, at most one
    deletion happens and the second call changes nothing; a file that is
    missing from disk is already clean: success and no change at all. *)
Theorem clean_temp_file_idempotent (w : world) (request_id : string)
    (r : gmap string value) :
  requests w !! request_id = Some r ->
  (r !! "temp_path" = Some VNone ->
     clean_temp_file request_id w = (Return false, w)) /\
  (forall p, r !! "temp_path" = Some (VStr p) -> p <> "" ->
     (disk w !! p = None \/ exists data, disk w !! p = Some (File data true)) ->
     let w1 := snd (clean_temp_file request_id w) in
     let w2 := snd (clean_temp_file request_id w1) in
     fst (clean_temp_file request_id w) = Return true /\
     fst (clean_temp_file request_id w1) = Return true /\
     disk w2 !! p = None /\
     w2 = w1 /\
     (disk w !! p = None -> w1 = w) /\
     (exists deleted, deleted_files (tracker_log w2) =
                        (deleted_files (tracker_log w) ++ deleted)%list /\
                      (length deleted <= 1)%nat /\
                      forall q, q ∈ deleted -> q = p)).
Proof.
  intros Hr. split; [by apply clean_temp_file_unset|].
  intros p Hp Hne [Hd|[data Hd]]; cbn zeta.
  - rewrite (clean_temp_file_absent _ _ _ _ Hr Hp Hne Hd). cbn.
    rewrite (clean_temp_file_absent _ _ _ _ Hr Hp Hne Hd). cbn.
    split_and!; try done.
    exists []. rewrite app_nil_r. split_and!; [done|cbn; lia|]. by intros q ?%elem_of_nil.
  - rewrite (clean_temp_file_present _ _ _ _ _ Hr Hp Hne Hd). cbn.
    assert (Hgone : disk (logging (LogDeleted p) (set_disk (delete p (disk w)) w)) !! p = None)
      by (cbn; apply lookup_delete_eq).
    rewrite (clean_temp_file_absent _ _ r p); [|done..]. cbn.
    split_and!; try done.
    + by rewrite Hd.
    + exists [p]. rewrite deleted_files_app. split_and!; [done|cbn; lia|].
      by intros q ->%list_elem_of_singleton.
Qed.

(** C10.  A successful [clean_temp_file] leaves every record as it was: the
    record still carries its [temp_path], [get_request] hands that stale
    path back, and nothing exists under it any more.  Whatever its result,
    [clean_temp_file] never changes a record. *)
Theorem clean_temp_file_keeps_temp_path (w : world) (request_id : string) :
  fst (clean_temp_file request_id w) = Return true ->
  let w' := snd (clean_temp_file request_id w) in
  (forall request_id' (w0 : world),
     requests (snd (clean_temp_file request_id' w0)) = requests w0) /\
  exists r p,
    requests w !! request_id = Some r /\
    fst (get_request request_id w') = Some r /\
    r !! "temp_path" = Some p /\
    truthy p = true /\
    os_path_exists p w' = Return false.
Proof.
  intros Hok. cbn zeta. split; [intros; apply clean_temp_file_requests|].
  revert Hok. unfold clean_temp_file, get_request.
  destruct (requests w !! request_id) as [r|] eqn:Hr; [|done].
  case_bool_decide; [done|].
  destruct (r !! "temp_path") as [p|] eqn:Hp; [|done].
  destruct (truthy p) eqn:Ht; [|done]. cbn [negb].
  destruct (os_path_exists p w) as [[]|] eqn:Hex; [| |done].
  - (* the file was there *)
    destruct p as [| | |s| |]; cbn [os_remove]; try done.
    destruct (disk w !! s) as [[data []|]|] eqn:Hd; try done.
    intros _. exists r, (VStr s). cbn. rewrite Hr.
    repeat split; try done.
    f_equal. apply bool_decide_eq_false_2. rewrite lookup_delete_eq. by intros [? ?].
  - (* nothing was there *)
    intros _. exists r, p. cbn. by rewrite Hr.
Qed.

(** ** The service clients *)

Section clients.
Implicit Types (w : world) (st : OracleCloudStorage) (svc : LLMService).

Lemma put_object_refused st accepted name body w :
  put_refused st accepted ->
  exists e, put_object st accepted name body w = (Raise e, w).
Proof.
  unfold put_refused, put_object.
  intros [->|[->| ->]]; destruct (namespace st), (bucket_name st); eauto.
Qed.

Lemma put_object_accepted st name body w ns b :
  namespace st = Some ns -> bucket_name st = Some b ->
  put_object st true name body w =
    (Return tt, set_objects (<[(ns, b, name) := body]> (objects w)) w).
Proof. intros Hns Hb. unfold put_object. by rewrite Hns, Hb. Qed.

Lemma image_save_ok (img : image) data path w :
  jpeg img = Some data -> disk w !! path <> Some Dir ->
  exists stored,
    image_save img path w =
      (Return tt, set_disk (<[path := File data stored]> (disk w)) w).
Proof.
  intros Hj Hd. unfold image_save. rewrite Hj.
  destruct (disk w !! path) as [[? r|]|]; [by exists r|done|by exists true].
Qed.

Lemma upload_image_refused st accepted path name data w :
  read_file path w = Return data ->
  put_refused st accepted ->
  upload_image st accepted path name w = (VNone, w).
Proof.
  intros Hf Href. unfold upload_image. rewrite Hf.
  match goal with
  | |- context [put_object st accepted ?n data w] =>
      destruct (put_object_refused st accepted n data w Href) as [e ->]
  end. done.
Qed.

Lemma upload_image_accepted st path name data w ns b :
  read_file path w = Return data ->
  truthy (VStr name) = true ->
  namespace st = Some ns -> bucket_name st = Some b ->
  upload_image st true path (Some name) w =
    (VStr name, set_objects (<[(ns, b, name) := data]> (objects w)) w).
Proof.
  intros Hf Ht Hns Hb. unfold upload_image. rewrite Hf, Ht.
  by rewrite (put_object_accepted _ _ _ _ _ _ Hns Hb).
Qed.

Lemma analyze_image_network_error svc post path w file :
  read_file path w = Return file ->
  post (describe_request svc path file) = NetworkError ->
  analyze_image svc post path w = VNone.
Proof. intros Hf Hp. unfold analyze_image. by rewrite Hf, Hp. Qed.

Lemma analyze_image_bad_status svc post path w file status json :
  read_file path w = Return file ->
  post (describe_request svc path file) = Response status json ->
  status <> 200%Z ->
  analyze_image svc post path w = VNone.
Proof.
  intros Hf Hp Hs. unfold analyze_image. rewrite Hf, Hp.
  by destruct (Z.eqb_spec status 200).
Qed.

Lemma analyze_image_no_output svc post path w file result :
  read_file path w = Return file ->
  post (describe_request svc path file) = Response 200 (Some (VDict result)) ->
  dict_get "output" result = None ->
  analyze_image svc post path w = VStr "".
Proof.
  intros Hf Hp Hg. unfold analyze_image. rewrite Hf, Hp. cbn. by rewrite Hg.
Qed.

(** Without text from the endpoint the client's result is falsy. *)
Lemma analyze_image_no_text svc post path w file :
  read_file path w = Return file ->
  no_text (post (describe_request svc path file)) ->
  truthy (analyze_image svc post path w) = false.
Proof.
  intros Hf Hn. destruct (post (describe_request svc path file)) as [|status json] eqn:Hp.
  - by rewrite (analyze_image_network_error _ _ _ _ _ Hf Hp).
  - destruct (decide (status = 200%Z)) as [->|Hs].
    + destruct Hn as [?|(result & -> & Hg)]; [done|].
      by rewrite (analyze_image_no_output _ _ _ _ _ _ Hf Hp Hg).
    + by rewrite (analyze_image_bad_status _ _ _ _ _ _ _ Hf Hp Hs).
Qed.

End clients.

(** ** The orchestrator *)

#[local] Arguments new_request : simpl never.
#[local] Arguments String.append : simpl never.
#[local] Arguments strftime_stamp : simpl never.

(** Reading a field of a record built by successive updates of
    [new_request]. *)
Ltac record_lookup :=
  unfold apply_kwargs; cbn [foldl fst snd];
  repeat first
    [ rewrite lookup_insert_eq
    | rewrite lookup_insert_ne by discriminate ];
  try reflexivity.

(** Projections of a world built by the setters. *)
Ltac world_simpl :=
  cbn [disk set_disk set_requests set_objects logging requests objects
       open_fds tracker_log snapshots fst snd].

Ltac read_saved_file :=
  unfold read_file; world_simpl; by rewrite lookup_insert_eq.

(** The first steps of [process_image] on an image that can be saved:
    create the record, save the file, register the path. *)
Ltac process_image_saved sv env Hjpeg Hnodir stored :=
  unfold process_image, create_request;
  fold (image_filename env); fold (image_temp_path sv env);
  match goal with
  | |- context [image_save ?i ?p ?w0] =>
      let H := fresh "Hsave" in
      destruct (image_save_ok i _ p w0 Hjpeg Hnodir) as [stored H];
      rewrite H; clear H
  end;
  erewrite update_request_found by (world_simpl; apply lookup_insert_eq).

Section process_image.
Variables (sv : services) (env : process_env) (img : image) (data : string).
Variable w : world.
Hypothesis Hjpeg : jpeg img = Some data.
Hypothesis Hnodir : disk w !! image_temp_path sv env <> Some Dir.

Lemma image_filename_truthy : truthy (VStr (image_filename env)) = true.
Proof.
  apply truthy_VStr. unfold image_filename.
  destruct (strftime_stamp (pe_now env)); done.
Qed.

Lemma process_image_upload_refused :
  put_refused (oracle_storage sv) (pe_put_accepted env) ->
  exists stored w',
    process_image sv env (Some img) w =
      (Return (VNone, VStr "Failed to upload image to cloud storage."), w') /\
    requests w' =
      <[pe_uuid4 env :=
          apply_kwargs [("status", VStr "image_received");
                        ("temp_path", VStr (image_temp_path sv env))] new_request]>
        (requests w) /\
    disk w' = <[image_temp_path sv env := File data stored]> (disk w) /\
    objects w' = objects w /\
    tracker_log w' =
      (tracker_log w ++
       [LogCreated (pe_uuid4 env);
        LogUpdated (pe_uuid4 env)
          [("status", VStr "image_received");
           ("temp_path", VStr (image_temp_path sv env))]])%list.
Proof.
  intros Href.
  process_image_saved sv env Hjpeg Hnodir stored.
  erewrite upload_image_refused by first [exact Href | read_saved_file].
  cbn [truthy negb]. eexists stored, _. split; [reflexivity|].
  world_simpl. split_and!; try done.
  - by rewrite insert_insert_eq.
  - by rewrite <- app_assoc.
Qed.

Lemma process_image_no_text ns b :
  namespace (oracle_storage sv) = Some ns ->
  bucket_name (oracle_storage sv) = Some b ->
  pe_put_accepted env = true ->
  no_text (pe_post env
             (describe_request (llm_service sv) (image_temp_path sv env) data)) ->
  exists stored w',
    process_image sv env (Some img) w =
      (Return (VNone, VStr "Failed to analyze image."), w') /\
    requests w' =
      <[pe_uuid4 env :=
          apply_kwargs [("status", VStr "uploaded_to_cloud");
                        ("cloud_path", VStr (image_filename env))]
            (apply_kwargs [("status", VStr "image_received");
                           ("temp_path", VStr (image_temp_path sv env))]
               new_request)]>
        (requests w) /\
    disk w' = <[image_temp_path sv env := File data stored]> (disk w) /\
    objects w' = <[(ns, b, image_filename env) := data]> (objects w).
Proof.
  intros Hns Hb Hacc Hno.
  process_image_saved sv env Hjpeg Hnodir stored.
  rewrite Hacc.
  erewrite upload_image_accepted
    by first [exact Hns | exact Hb | exact image_filename_truthy | read_saved_file].
  rewrite image_filename_truthy. cbn [negb].
  erewrite update_request_found by (world_simpl; apply lookup_insert_eq).
  erewrite analyze_image_no_text by first [exact Hno | read_saved_file].
  cbn [negb]. eexists stored, _. split; [reflexivity|].
  world_simpl. split_and!; try done.
  by rewrite !insert_insert_eq.
Qed.

End process_image.

(** ** Text *)

Section text.

Lemma string_app_cons c a b : String c a ++ b = String c (a ++ b).
Proof. reflexivity. Qed.

Lemma string_app_assoc a b c : (a ++ b) ++ c = a ++ (b ++ c).
Proof.
  induction a as [|x a IH]; [done|]. by rewrite !string_app_cons, IH.
Qed.

Lemma string_app_nil_l s : "" ++ s = s.
Proof. reflexivity. Qed.

Lemma string_app_nil_r s : s ++ "" = s.
Proof. induction s as [|c s IH]; [done|]. by rewrite string_app_cons, IH. Qed.

Lemma string_length_app a b :
  String.length (a ++ b) = (String.length a + String.length b)%nat.
Proof.
  induction a as [|x a IH]; [done|]. rewrite string_app_cons. cbn. by rewrite IH.
Qed.

Lemma utf8_app l1 l2 : utf8 (l1 ++ l2)%list = utf8 l1 ++ utf8 l2.
Proof.
  induction l1 as [|cp l1 IH]; [done|]. cbn [utf8 app].
  by rewrite IH, string_app_assoc.
Qed.

(** Decoding undoes encoding, one character at a time. *)
Lemma code_points_utf8_of cp rest :
  scalar_value cp = true ->
  code_points (utf8_of cp ++ rest) = cons cp <$> code_points rest.
Proof.
  unfold scalar_value. intros Hcp.
  assert (cp < 55296 \/ 57344 <= cp < 1114112)%N as Hrange.
  { apply orb_true_iff in Hcp as [H|H]; [left; by apply N.ltb_lt|right].
    apply andb_true_iff in H as [H1 H2].
    apply N.leb_le in H1. apply N.ltb_lt in H2. lia. }
  clear Hcp. unfold utf8_of.
  replace (cp / 262144)%N with (cp / 64 / 64 / 64)%N by (by rewrite !N.Div0.div_div).
  replace (cp / 4096)%N with (cp / 64 / 64)%N by (by rewrite !N.Div0.div_div).
  pose proof (N.Div0.div_mod cp 64) as Hd1.
  pose proof (N.mod_lt cp 64 ltac:(lia)) as Hm1.
  pose proof (N.Div0.div_mod (cp / 64) 64) as Hd2.
  pose proof (N.mod_lt (cp / 64) 64 ltac:(lia)) as Hm2.
  pose proof (N.Div0.div_mod (cp / 64 / 64) 64) as Hd3.
  pose proof (N.mod_lt (cp / 64 / 64) 64 ltac:(lia)) as Hm3.
  set (q3 := (cp / 64 / 64 / 64)%N) in *.
  set (m3 := ((cp / 64 / 64) mod 64)%N) in *.
  set (q2 := (cp / 64 / 64)%N) in *.
  set (m2 := ((cp / 64) mod 64)%N) in *.
  set (q1 := (cp / 64)%N) in *.
  set (m1 := (cp mod 64)%N) in *.
  clearbody q3 m3 q2 m2 q1 m1.
  repeat match goal with
  | |- context [(cp <? ?b)%N] => destruct (N.ltb_spec cp b)
  end;
  rewrite ?string_app_cons, ?string_app_nil_l; cbn [code_points];
  unfold continuation, scalar_value;
  rewrite !N_ascii_embedding by lia;
  repeat first
    [ progress cbn [andb orb]
    | match goal with
      | |- context [(?a <? ?b)%N] => destruct (N.ltb_spec a b); try lia
      | |- context [(?a <=? ?b)%N] => destruct (N.leb_spec a b); try lia
      end ];
  do 2 f_equal; lia.
Qed.

Lemma code_points_utf8 l :
  Forall (fun cp => scalar_value cp = true) l -> code_points (utf8 l) = Some l.
Proof.
  induction 1 as [|cp l Hcp _ IH]; [done|].
  cbn [utf8]. by rewrite code_points_utf8_of, IH.
Qed.

Lemma div_64 a b : (b < 64)%N -> ((a * 64 + b) / 64)%N = a.
Proof. intros. symmetry. apply (N.div_unique _ 64 a b); lia. Qed.

Lemma mod_64 a b : (b < 64)%N -> ((a * 64 + b) mod 64)%N = b.
Proof. intros. symmetry. apply (N.mod_unique _ 64 a b); lia. Qed.

Lemma continuation_Some c x :
  continuation c = Some x -> (x < 64)%N /\ c = ascii_of_N (128 + x).
Proof.
  unfold continuation. pose proof (N_ascii_bounded c).
  destruct (N.leb_spec 128 (N_of_ascii c)); [|done].
  destruct (N.ltb_spec (N_of_ascii c) 192); [|done].
  cbn [andb]. intros [= <-]. split; [lia|].
  replace (128 + (N_of_ascii c - 128))%N with (N_of_ascii c) by lia.
  by rewrite ascii_N_embedding.
Qed.

(** Encoding undoes decoding: a text is the encoding of its characters,
    and these are characters indeed. *)
Lemma utf8_code_points_bounded n : forall s l,
  (String.length s <= n)%nat -> code_points s = Some l ->
  utf8 l = s /\ Forall (fun cp => scalar_value cp = true) l.
Proof.
  induction n as [|n IH]; intros s l Hlen Hs.
  { destruct s; [|cbn in Hlen; lia]. cbn in Hs. by injection Hs as <-. }
  destruct s as [|c0 b1]; [cbn in Hs; by injection Hs as <-|].
  cbn [String.length] in Hlen.
  pose proof (N_ascii_bounded c0) as Hb0.
  pose proof (ascii_N_embedding c0) as He0.
  unfold code_points in Hs; fold code_points in Hs.
  set (n0 := N_of_ascii c0) in *. clearbody n0.
  destruct (N.ltb_spec n0 128) as [H1|H1].
  { destruct (code_points b1) as [l'|] eqn:Hl'; [|done]. injection Hs as <-.
    destruct (IH b1 l' ltac:(lia) Hl') as [Hu Hf]. split.
    - cbn [utf8]. unfold utf8_of. rewrite (proj2 (N.ltb_lt _ _) H1).
      by rewrite string_app_cons, string_app_nil_l, Hu, He0.
    - constructor; [|done]. unfold scalar_value.
      by rewrite (proj2 (N.ltb_lt n0 55296)) by lia. }
  destruct (N.ltb_spec n0 192) as [H2|H2]; [done|].
  destruct (N.ltb_spec n0 224) as [H3|H3].
  { destruct b1 as [|c1 b2]; [done|].
    destruct (continuation c1) as [x1|] eqn:Hc1; [|done].
    apply continuation_Some in Hc1 as [Hx1 ->].
    destruct (N.leb_spec 128 ((n0 - 192) * 64 + x1)) as [H4|H4]; [|done].
    destruct (code_points b2) as [l'|] eqn:Hl'; [|done]. injection Hs as <-.
    cbn [String.length] in Hlen.
    destruct (IH b2 l' ltac:(lia) Hl') as [Hu Hf]. split.
    - cbn [utf8]. unfold utf8_of.
      rewrite (proj2 (N.ltb_ge _ 128)) by lia.
      rewrite (proj2 (N.ltb_lt _ 2048)) by lia.
      rewrite div_64, mod_64 by done.
      rewrite !string_app_cons, string_app_nil_l, Hu.
      replace (192 + (n0 - 192))%N with n0 by lia. by rewrite He0.
    - constructor; [|done]. unfold scalar_value.
      by rewrite (proj2 (N.ltb_lt _ 55296)) by lia. }
  destruct (N.ltb_spec n0 240) as [H4|H4].
  { destruct b1 as [|c1 [|c2 b3]]; [done|done|].
    destruct (continuation c1) as [x1|] eqn:Hc1; [|done].
    destruct (continuation c2) as [x2|] eqn:Hc2; [|done].
    apply continuation_Some in Hc1 as [Hx1 ->].
    apply continuation_Some in Hc2 as [Hx2 ->].
    set (cp := ((n0 - 224) * 4096 + x1 * 64 + x2)%N) in *.
    destruct (N.leb_spec 2048 cp) as [H5|H5]; [|done].
    destruct (scalar_value cp) eqn:Hsc; [|done]. cbn [andb] in Hs.
    destruct (code_points b3) as [l'|] eqn:Hl'; [|done]. injection Hs as <-.
    cbn [String.length] in Hlen.
    destruct (IH b3 l' ltac:(lia) Hl') as [Hu Hf]. split; [|by constructor].
    cbn [utf8]. unfold utf8_of.
    rewrite (proj2 (N.ltb_ge cp 128)) by lia.
    rewrite (proj2 (N.ltb_ge cp 2048)) by lia.
    rewrite (proj2 (N.ltb_lt cp 65536)) by (unfold cp; lia).
    replace (cp / 4096)%N with (cp / 64 / 64)%N by (by rewrite N.Div0.div_div).
    assert (Hq : (cp / 64 = (n0 - 224) * 64 + x1)%N).
    { unfold cp. replace ((n0 - 224) * 4096 + x1 * 64 + x2)%N
        with (((n0 - 224) * 64 + x1) * 64 + x2)%N by lia. by apply div_64. }
    assert (Hm : (cp mod 64 = x2)%N).
    { unfold cp. replace ((n0 - 224) * 4096 + x1 * 64 + x2)%N
        with (((n0 - 224) * 64 + x1) * 64 + x2)%N by lia. by apply mod_64. }
    rewrite Hq, Hm, div_64, mod_64 by done.
    rewrite !string_app_cons, string_app_nil_l, Hu.
    replace (224 + (n0 - 224))%N with n0 by lia. by rewrite He0. }
  destruct (N.ltb_spec n0 248) as [H5|H5]; [|done].
  destruct b1 as [|c1 [|c2 [|c3 b4]]]; [done|done|done|].
  destruct (continuation c1) as [x1|] eqn:Hc1; [|done].
  destruct (continuation c2) as [x2|] eqn:Hc2; [|done].
  destruct (continuation c3) as [x3|] eqn:Hc3; [|done].
  apply continuation_Some in Hc1 as [Hx1 ->].
  apply continuation_Some in Hc2 as [Hx2 ->].
  apply continuation_Some in Hc3 as [Hx3 ->].
  set (cp := ((n0 - 240) * 262144 + x1 * 4096 + x2 * 64 + x3)%N) in *.
  destruct (N.leb_spec 65536 cp) as [H6|H6]; [|done].
  destruct (N.ltb_spec cp 1114112) as [H7|H7]; [|done]. cbn [andb] in Hs.
  destruct (code_points b4) as [l'|] eqn:Hl'; [|done]. injection Hs as <-.
  cbn [String.length] in Hlen.
  destruct (IH b4 l' ltac:(lia) Hl') as [Hu Hf]. split.
  - cbn [utf8]. unfold utf8_of.
    rewrite (proj2 (N.ltb_ge cp 128)) by lia.
    rewrite (proj2 (N.ltb_ge cp 2048)) by lia.
    rewrite (proj2 (N.ltb_ge cp 65536)) by lia.
    replace (cp / 262144)%N with (cp / 64 / 64 / 64)%N by (by rewrite !N.Div0.div_div).
    replace (cp / 4096)%N with (cp / 64 / 64)%N by (by rewrite N.Div0.div_div).
    assert (Hq : (cp / 64 = ((n0 - 240) * 64 + x1) * 64 + x2)%N).
    { unfold cp. replace ((n0 - 240) * 262144 + x1 * 4096 + x2 * 64 + x3)%N
        with ((((n0 - 240) * 64 + x1) * 64 + x2) * 64 + x3)%N by lia. by apply div_64. }
    assert (Hm : (cp mod 64 = x3)%N).
    { unfold cp. replace ((n0 - 240) * 262144 + x1 * 4096 + x2 * 64 + x3)%N
        with ((((n0 - 240) * 64 + x1) * 64 + x2) * 64 + x3)%N by lia. by apply mod_64. }
    rewrite Hq, Hm, !div_64, !mod_64 by done.
    rewrite !string_app_cons, string_app_nil_l, Hu.
    replace (240 + (n0 - 240))%N with n0 by lia. by rewrite He0.
  - constructor; [|done]. unfold scalar_value.
    rewrite (proj2 (N.leb_le 57344 cp)) by lia.
    rewrite (proj2 (N.ltb_lt cp 1114112)) by lia. apply orb_true_r.
Qed.

Lemma utf8_code_points s l :
  code_points s = Some l ->
  utf8 l = s /\ Forall (fun cp => scalar_value cp = true) l.
Proof. by apply (utf8_code_points_bounded (String.length s)). Qed.

(** A text is the encoding of its characters. *)
Lemma utf8_chars s : is_text s = true -> utf8 (chars s) = s.
Proof.
  unfold is_text, chars. destruct (code_points s) as [l|] eqn:Hl; [|done].
  intros _. by destruct (utf8_code_points s l Hl).
Qed.

Lemma chars_scalar s :
  is_text s = true -> Forall (fun cp => scalar_value cp = true) (chars s).
Proof.
  unfold is_text, chars. destruct (code_points s) as [l|] eqn:Hl; [|done].
  intros _. by destruct (utf8_code_points s l Hl).
Qed.

Lemma encode_utf8_text s : is_text s = true -> encode_utf8 s = s.
Proof. apply utf8_chars. Qed.

Lemma decode_utf8_text s : is_text s = true -> decode_utf8 s = Some s.
Proof.
  unfold is_text, decode_utf8. destruct (code_points s) as [l|] eqn:Hl; [|done].
  intros _. cbn. f_equal. by destruct (utf8_code_points s l Hl).
Qed.

Lemma decode_utf8_Some b s : decode_utf8 b = Some s -> s = b /\ is_text s = true.
Proof.
  unfold decode_utf8. destruct (code_points b) as [l|] eqn:Hl; [|done].
  intros [= <-]. destruct (utf8_code_points b l Hl) as [-> _].
  split; [done|]. unfold is_text. by rewrite Hl.
Qed.

End text.

(** ** Numerals *)

Section numerals.

Lemma pretty_N_go_app x : forall s, pretty_N_go x s = pretty_N_go x "" ++ s.
Proof.
  induction (N.lt_wf_0 x) as [x _ IH]; intros s.
  destruct (decide (x = 0)%N) as [->|Hx]; [done|].
  rewrite !(pretty_N_go_step x) by lia.
  rewrite (IH (x / 10)%N) by (apply N.div_lt; lia).
  rewrite (IH (x / 10)%N ltac:(apply N.div_lt; lia) (String _ "")).
  by rewrite string_app_assoc.
Qed.

Lemma ndigits_0 : ndigits 0 = 0%nat.
Proof. reflexivity. Qed.

Lemma ndigits_step x : (0 < x)%N -> ndigits x = S (ndigits (x / 10)).
Proof.
  intros Hx. unfold ndigits. rewrite pretty_N_go_step by done.
  rewrite pretty_N_go_app, string_length_app. cbn. lia.
Qed.

Lemma pretty_N_go_length x s :
  String.length (pretty_N_go x s) = (ndigits x + String.length s)%nat.
Proof. by rewrite pretty_N_go_app, string_length_app. Qed.

Lemma digit_value_pretty d : (d < 10)%N -> digit_value (pretty_N_char d) = Some d.
Proof.
  intros Hd.
  assert (d = 0 \/ d = 1 \/ d = 2 \/ d = 3 \/ d = 4 \/ d = 5 \/ d = 6 \/ d = 7 \/
          d = 8 \/ d = 9)%N as H by lia.
  by destruct H as [->|[->|[->|[->|[->|[->|[->|[->|[->| ->]]]]]]]]].
Qed.

Lemma pretty_N_char_ascii d : (N_of_ascii (pretty_N_char d) <? 128)%N = true.
Proof. unfold pretty_N_char. by repeat case_match. Qed.

(** Reading back what [pretty] wrote. *)
Lemma read_digits_pretty_go x : forall count acc s,
  read_digits count acc (pretty_N_go x s) =
  read_digits (count + ndigits x) (acc * 10 ^ N.of_nat (ndigits x) + x) s.
Proof.
  induction (N.lt_wf_0 x) as [x _ IH]; intros count acc s.
  destruct (decide (x = 0)%N) as [->|Hx].
  { rewrite pretty_N_go_0, ndigits_0. f_equal; [lia|]. cbn. lia. }
  rewrite pretty_N_go_step by lia.
  rewrite IH by (apply N.div_lt; lia).
  cbn [read_digits]. rewrite digit_value_pretty by (apply N.mod_lt; lia).
  rewrite (ndigits_step x) by lia. f_equal; [lia|].
  rewrite Nat2N.inj_succ, N.pow_succ_r'.
  pose proof (N.Div0.div_mod x 10). lia.
Qed.

Lemma read_digits_stop count acc s :
  no_digit_ahead s -> read_digits count acc s = (count, acc, s).
Proof. destruct s as [|c s]; [done|]. cbn. by intros ->. Qed.

Lemma ndigits_bound x : forall w : nat, (x < 10 ^ N.of_nat w)%N -> (ndigits x <= w)%nat.
Proof.
  induction (N.lt_wf_0 x) as [x _ IH]; intros w Hw.
  destruct (decide (x = 0)%N) as [->|Hx]; [rewrite ndigits_0; lia|].
  rewrite ndigits_step by lia.
  destruct w as [|w]; [cbn in Hw; lia|].
  rewrite Nat2N.inj_succ, N.pow_succ_r' in Hw.
  assert (ndigits (x / 10) <= w)%nat; [|lia].
  apply IH; [apply N.div_lt; lia|].
  apply N.Div0.div_lt_upper_bound. lia.
Qed.

Lemma pretty_N_go_head x s :
  (0 < x)%N ->
  exists c t, pretty_N_go x s = String c t /\ c <> "0"%char /\ digit_value c <> None.
Proof.
  revert s. induction (N.lt_wf_0 x) as [x _ IH]; intros s Hx.
  rewrite pretty_N_go_step by done.
  destruct (decide (x / 10 = 0)%N) as [Hq|Hq].
  - rewrite Hq, pretty_N_go_0. eexists _, _. split; [done|].
    assert (x < 10)%N.
    { pose proof (N.Div0.div_mod x 10) as Hd.
      pose proof (N.mod_lt x 10 ltac:(lia)). rewrite Hq in Hd. lia. }
    rewrite N.mod_small by done.
    assert (x = 1 \/ x = 2 \/ x = 3 \/ x = 4 \/ x = 5 \/ x = 6 \/ x = 7 \/
            x = 8 \/ x = 9)%N as H' by lia.
    by destruct H' as [->|[->|[->|[->|[->|[->|[->|[->| ->]]]]]]]].
  - apply IH; [apply N.div_lt; lia|by apply N.neq_0_lt_0].
Qed.

Lemma pretty_N_go_ascii x : forall s,
  ascii_only s = true -> ascii_only (pretty_N_go x s) = true.
Proof.
  induction (N.lt_wf_0 x) as [x _ IH]; intros s Hs.
  destruct (decide (x = 0)%N) as [->|Hx]; [done|].
  rewrite pretty_N_go_step by lia. apply IH; [apply N.div_lt; lia|].
  cbn [ascii_only]. by rewrite pretty_N_char_ascii.
Qed.

Lemma pretty_N_unfold (n : N) :
  pretty n = if decide (n = 0)%N then "0" else pretty_N_go n "".
Proof. reflexivity. Qed.

Lemma pretty_N_length n : (0 < n)%N -> String.length (pretty n) = ndigits n.
Proof. intros. rewrite pretty_N_unfold. by case_decide; [lia|]. Qed.

(** A run of zeros counts but adds nothing. *)
Lemma read_digits_zeros k : forall count acc s,
  read_digits count acc (String.concat "" (replicate k "0") ++ s) =
  read_digits (count + k) (acc * 10 ^ N.of_nat k) s.
Proof.
  induction k as [|k IH]; intros count acc s.
  { cbn. f_equal; lia. }
  replace (String.concat "" (replicate (S k) "0") ++ s)
    with (String "0" (String.concat "" (replicate k "0") ++ s)).
  2: { cbn [replicate]. destruct k; reflexivity. }
  cbn [read_digits]. change (digit_value "0") with (Some 0%N). cbv iota.
  rewrite IH. f_equal; [lia|]. rewrite Nat2N.inj_succ, N.pow_succ_r'. lia.
Qed.

(** A number padded to [width] digits is read back as [width] digits
    with the same value. *)
Lemma read_digits_zero_pad width n count acc s :
  (0 < width)%nat -> (n < 10 ^ N.of_nat width)%N ->
  read_digits count acc (zero_pad width n ++ s) =
  read_digits (count + width) (acc * 10 ^ N.of_nat width + n) s.
Proof.
  intros Hw Hn. unfold zero_pad. rewrite string_app_assoc, read_digits_zeros.
  rewrite pretty_N_unfold. case_decide as H0.
  - subst n. change (String.length "0") with 1%nat.
    rewrite string_app_cons, string_app_nil_l. cbn [read_digits].
    change (digit_value "0") with (Some 0%N). cbv iota. f_equal; [lia|].
    replace width with (S (width - 1)) at 2 by lia.
    rewrite Nat2N.inj_succ, N.pow_succ_r'. lia.
  - rewrite <- pretty_N_go_app, pretty_N_go_length. cbn [String.length].
    rewrite read_digits_pretty_go.
    pose proof (ndigits_bound n width Hn).
    f_equal; [lia|].
    rewrite <- N.mul_assoc, <- N.pow_add_r.
    by replace (N.of_nat (width - (ndigits n + 0)) + N.of_nat (ndigits n))%N
      with (N.of_nat width) by lia.
Qed.

End numerals.

(** ** String literals of JSON *)

Ltac string_norm :=
  repeat first [rewrite string_app_cons | rewrite string_app_nil_l].

Section literals.

Lemma hexval_hexdigit d : (d < 16)%N -> hexval (hexdigit d) = Some d.
Proof.
  intros Hd.
  assert (d = 0 \/ d = 1 \/ d = 2 \/ d = 3 \/ d = 4 \/ d = 5 \/ d = 6 \/ d = 7 \/
          d = 8 \/ d = 9 \/ d = 10 \/ d = 11 \/ d = 12 \/ d = 13 \/ d = 14 \/
          d = 15)%N as H by lia.
  by destruct H as
    [->|[->|[->|[->|[->|[->|[->|[->|[->|[->|[->|[->|[->|[->|[->| ->]]]]]]]]]]]]]]].
Qed.

Lemma hexdigit_ascii d : (N_of_ascii (hexdigit d) <? 128)%N = true.
Proof. unfold hexdigit. by repeat case_match. Qed.

(** The four digits that [hex4_of] writes spell the number. *)
Lemma hex4_hex4_of n :
  (n < 65536)%N ->
  hex4 (hexdigit (n / 4096)) (hexdigit ((n / 256) mod 16))
       (hexdigit ((n mod 256) / 16)) (hexdigit ((n mod 256) mod 16)) = Some n.
Proof.
  intros Hn.
  replace (n / 4096)%N with (n / 256 / 16)%N by (by rewrite N.Div0.div_div).
  pose proof (N.Div0.div_mod n 256) as Hd1.
  pose proof (N.mod_lt n 256 ltac:(lia)) as Hm1.
  pose proof (N.Div0.div_mod (n / 256) 16) as Hd2.
  pose proof (N.mod_lt (n / 256) 16 ltac:(lia)) as Hm2.
  pose proof (N.Div0.div_mod (n mod 256) 16) as Hd3.
  pose proof (N.mod_lt (n mod 256) 16 ltac:(lia)) as Hm3.
  set (a := (n / 256 / 16)%N) in *. set (b := ((n / 256) mod 16)%N) in *.
  set (c := ((n mod 256) / 16)%N) in *. set (d := ((n mod 256) mod 16)%N) in *.
  set (q := (n / 256)%N) in *. set (r := (n mod 256)%N) in *.
  clearbody a b c d q r.
  unfold hex4. rewrite !hexval_hexdigit by lia. f_equal. lia.
Qed.

(** What the decoder makes of a [\u] escape that [json_escape_char] wrote. *)
Lemma parse_u_escape n rest :
  (n < 65536)%N ->
  parse_string_body (String backslash ("u" ++ hex4_of n) ++ rest) =
  if scalar_value n then prepend (utf8_of n) (parse_string_body rest)
  else if (n <? 56320)%N then
    match rest with
    | String b (String u (String l1 (String l2 (String l3 (String l4 s4))))) =>
        if Ascii.eqb b backslash && Ascii.eqb u "u" then
          match hex4 l1 l2 l3 l4 with
          | Some m =>
              if ((56320 <=? m) && (m <? 57344))%N
              then prepend (utf8_of (65536 + (n - 55296) * 1024 + (m - 56320)))
                     (parse_string_body s4)
              else None
          | None => None
          end
        else None
    | _ => None
    end
  else None.
Proof.
  intros Hn. unfold hex4_of, hex2. string_norm.
  unfold parse_string_body at 1; fold parse_string_body.
  change (Ascii.eqb backslash dquote) with false.
  change (Ascii.eqb backslash backslash) with true. cbv iota.
  change (Ascii.eqb "u" dquote || Ascii.eqb "u" backslash || Ascii.eqb "u" "/") with false.
  change (Ascii.eqb "u" "b") with false. change (Ascii.eqb "u" "f") with false.
  change (Ascii.eqb "u" "n") with false. change (Ascii.eqb "u" "r") with false.
  change (Ascii.eqb "u" "t") with false. change (Ascii.eqb "u" "u") with true.
  cbv iota. by rewrite hex4_hex4_of.
Qed.

Lemma parse_escape_ascii (c : ascii) rest :
  (N_of_ascii c < 128)%N ->
  parse_string_body (json_escape_char (N_of_ascii c) ++ rest) =
  prepend (utf8_of (N_of_ascii c)) (parse_string_body rest).
Proof.
  destruct c as [[] [] [] [] [] [] [] []]; intros H;
    try (by vm_compute in H); reflexivity.
Qed.

(** The decoder reads back the character that [json_escape_char] wrote. *)
Lemma parse_escape_char cp rest :
  scalar_value cp = true ->
  parse_string_body (json_escape_char cp ++ rest) =
  prepend (utf8_of cp) (parse_string_body rest).
Proof.
  intros Hcp.
  destruct (N.ltb_spec cp 128) as [H1|H1].
  { pose proof (parse_escape_ascii (ascii_of_N cp) rest) as H.
    rewrite N_ascii_embedding in H by lia. apply H. lia. }
  assert (Hesc : json_escape_char cp =
    if (cp <? 65536)%N then String backslash ("u" ++ hex4_of cp)
    else String backslash ("u" ++ hex4_of (55296 + (cp - 65536) / 1024)) ++
         String backslash ("u" ++ hex4_of (56320 + (cp - 65536) mod 1024))).
  { unfold json_escape_char.
    repeat match goal with
    | |- context [(cp =? ?k)%N] => destruct (N.eqb_spec cp k); [lia|]
    end.
    destruct (N.leb_spec 32 cp); [|lia].
    by destruct (N.ltb_spec cp 127); [lia|]. }
  rewrite Hesc. clear Hesc.
  destruct (N.ltb_spec cp 65536) as [H2|H2].
  { by rewrite parse_u_escape, Hcp. }
  assert (cp < 1114112)%N as H3.
  { unfold scalar_value in Hcp.
    destruct (N.ltb_spec cp 55296); [lia|].
    destruct (N.leb_spec 57344 cp); [|done].
    by destruct (N.ltb_spec cp 1114112). }
  pose proof (N.Div0.div_mod (cp - 65536) 1024) as Hd.
  pose proof (N.mod_lt (cp - 65536) 1024 ltac:(lia)) as Hm.
  set (q := ((cp - 65536) / 1024)%N) in *. set (r := ((cp - 65536) mod 1024)%N) in *.
  clearbody q r.
  rewrite string_app_assoc, parse_u_escape by lia.
  unfold scalar_value.
  rewrite (proj2 (N.ltb_ge (55296 + q) 55296)) by lia.
  rewrite (proj2 (N.leb_gt 57344 (55296 + q))) by lia.
  rewrite (proj2 (N.ltb_lt (55296 + q) 56320)) by lia.
  cbn [orb andb].
  unfold hex4_of at 1, hex2. string_norm.
  change (Ascii.eqb backslash backslash && Ascii.eqb "u" "u") with true. cbv iota.
  rewrite hex4_hex4_of by lia.
  rewrite (proj2 (N.leb_le 56320 (56320 + r))) by lia.
  rewrite (proj2 (N.ltb_lt (56320 + r) 57344)) by lia.
  cbn [andb].
  by replace (65536 + (55296 + q - 55296) * 1024 + (56320 + r - 56320))%N with cp by lia.
Qed.

Lemma prepend_Some t text rest : prepend t (Some (text, rest)) = Some (t ++ text, rest).
Proof. reflexivity. Qed.

Lemma parse_json_escape_chars l rest :
  Forall (fun cp => scalar_value cp = true) l ->
  parse_string_body (json_escape_chars l ++ String dquote rest) = Some (utf8 l, rest).
Proof.
  induction 1 as [|cp l Hcp _ IH].
  { rewrite string_app_nil_l. cbn [parse_string_body json_escape_chars utf8].
    by change (Ascii.eqb dquote dquote) with true. }
  cbn [json_escape_chars utf8].
  by rewrite string_app_assoc, parse_escape_char, IH.
Qed.

(** A string literal is read back as the text it was written from. *)
Lemma parse_json_escape s rest :
  is_text s = true ->
  parse_string_body (json_escape s ++ String dquote rest) = Some (s, rest).
Proof.
  intros Hs. unfold json_escape.
  rewrite parse_json_escape_chars by by apply chars_scalar.
  by rewrite utf8_chars.
Qed.

Lemma json_string_app s rest :
  json_string s ++ rest = String dquote (json_escape s ++ String dquote rest).
Proof.
  unfold json_string. by rewrite string_app_cons, string_app_assoc.
Qed.

(** *** What [json.dumps] writes is ASCII *)

Lemma ascii_only_app a b : ascii_only (a ++ b) = ascii_only a && ascii_only b.
Proof.
  induction a as [|c a IH]; [done|].
  rewrite string_app_cons. cbn [ascii_only]. by rewrite IH, andb_assoc.
Qed.

Lemma hex4_of_ascii n : ascii_only (hex4_of n) = true.
Proof. unfold hex4_of, hex2. cbn [ascii_only]. by rewrite !hexdigit_ascii. Qed.

Lemma u_escape_ascii n : ascii_only (String backslash ("u" ++ hex4_of n)) = true.
Proof. string_norm. cbn [ascii_only]. by rewrite hex4_of_ascii. Qed.

Lemma json_escape_char_ascii cp : ascii_only (json_escape_char cp) = true.
Proof.
  unfold json_escape_char.
  repeat match goal with
  | |- context [(cp =? ?k)%N] => destruct (N.eqb_spec cp k); [done|]
  end.
  destruct ((32 <=? cp)%N && (cp <? 127)%N) eqn:Hp.
  - apply andb_true_iff in Hp as [_ Hp%N.ltb_lt].
    cbn [ascii_only]. rewrite N_ascii_embedding by lia.
    by rewrite (proj2 (N.ltb_lt cp 128)) by lia.
  - destruct (cp <? 65536)%N; [apply u_escape_ascii|].
    by rewrite ascii_only_app, !u_escape_ascii.
Qed.

Lemma json_string_ascii s : ascii_only (json_string s) = true.
Proof.
  unfold json_string, json_escape. cbn [ascii_only]. rewrite ascii_only_app.
  cbn [ascii_only]. rewrite andb_true_r. change (N_of_ascii dquote <? 128)%N with true.
  cbn [andb]. induction (chars s) as [|cp l IH]; [done|].
  cbn [json_escape_chars]. by rewrite ascii_only_app, json_escape_char_ascii, IH.
Qed.

(** ASCII bytes are a text, one character per byte. *)
Lemma code_points_ascii s :
  ascii_only s = true -> code_points s = Some (N_of_ascii <$> list_ascii_of_string s).
Proof.
  induction s as [|c s IH]; [done|]. cbn [ascii_only].
  intros [Hc Hs]%andb_true_iff. cbn [code_points].
  by rewrite Hc, IH.
Qed.

Lemma ascii_is_text s : ascii_only s = true -> is_text s = true.
Proof. intros Hs. unfold is_text. by rewrite code_points_ascii. Qed.

End literals.

(** ** JSON values *)

Section value_induction.
Variable P : value -> Prop.
Hypothesis HNone : P VNone.
Hypothesis HBool : forall b, P (VBool b).
Hypothesis HInt : forall z, P (VInt z).
Hypothesis HStr : forall s, P (VStr s).
Hypothesis HList : forall l, Forall P l -> P (VList l).
Hypothesis HDict : forall d : pydict, Forall (fun kv => P kv.2) d -> P (VDict d).

(** Induction on values, with the property at hand for the items of a
    list and the values of a dictionary. *)
Lemma value_nested_ind : forall v, P v.
Proof.
  fix IH 1. intros [|b|z|s|l|d].
  - apply HNone.
  - apply HBool.
  - apply HInt.
  - apply HStr.
  - apply HList. induction l as [|x l IHl]; constructor; [apply IH|apply IHl].
  - apply HDict. induction d as [|[k x] d IHd]; constructor; [apply IH|apply IHd].
Qed.

End value_induction.

Section values.

Lemma json_dumps_list l : json_dumps (VList l) = "[" ++ dump_items l ++ "]".
Proof. reflexivity. Qed.

Lemma json_dumps_dict d : json_dumps (VDict d) = "{" ++ dump_members d ++ "}".
Proof. reflexivity. Qed.

Lemma json_value_list l :
  json_value (VList l) = true <-> Forall (fun x => json_value x = true) l.
Proof.
  change (json_value (VList l)) with (forallb json_value l).
  rewrite forallb_forall, Forall_forall. by setoid_rewrite list_elem_of_In.
Qed.

Lemma json_value_dict d :
  json_value (VDict d) = true <->
  Forall (fun kv => is_text kv.1 = true /\ json_value kv.2 = true) d /\ NoDup d.*1.
Proof.
  cbn [json_value]. rewrite andb_true_iff, bool_decide_eq_true.
  apply and_iff_compat_r.
  induction d as [|[k x] d IH]; [by split; [constructor|]|].
  rewrite Forall_cons, !andb_true_iff, IH. cbn. tauto.
Qed.

Lemma size_list l : size (VList l) = S (list_sum (map (fun x => S (size x)) l)).
Proof. reflexivity. Qed.

Lemma size_dict_cons k x d : size (VDict ((k, x) :: d)) = S (size x + size (VDict d)).
Proof. cbn [size]. lia. Qed.

Lemma size_pos v : (1 <= size v)%nat.
Proof. destruct v; cbn [size]; lia. Qed.

(** *** Dictionaries built by the decoder *)

Lemma dict_set_fresh k v d :
  k ∉ d.*1 -> dict_set k v d = (d ++ [(k, v)])%list.
Proof.
  induction d as [|[k' v'] d IH]; [done|]. cbn.
  intros [Hne Hd]%not_elem_of_cons.
  destruct (String.eqb_spec k k'); [done|]. by rewrite IH.
Qed.

(** *** Dispatch on the first character *)

Lemma parse_value_string fuel t :
  parse_value (S fuel) (String dquote t) =
  match parse_string_body t with
  | Some (text, rest) => Some (VStr text, rest)
  | None => None
  end.
Proof. reflexivity. Qed.

Lemma parse_value_list fuel t :
  parse_value (S fuel) (String "[" t) =
  match skip_ws t with
  | String e s1 =>
      if Ascii.eqb e "]" then Some (VList [], s1) else parse_items fuel [] (String e s1)
  | "" => None
  end.
Proof. reflexivity. Qed.

Lemma parse_value_dict fuel t :
  parse_value (S fuel) (String "{" t) =
  match skip_ws t with
  | String e s1 =>
      if Ascii.eqb e "}" then Some (VDict [], s1) else parse_members fuel [] (String e s1)
  | "" => None
  end.
Proof. reflexivity. Qed.

Lemma parse_value_minus fuel t :
  parse_value (S fuel) (String "-" t) =
  match parse_natural t with
  | Some (n, rest) => Some (VInt (- Z.of_N n), rest)
  | None => None
  end.
Proof. reflexivity. Qed.

Lemma digit_value_char c d :
  digit_value c = Some d -> (d < 10)%N /\ c = pretty_N_char d.
Proof.
  unfold digit_value. pose proof (ascii_N_embedding c) as Hc.
  destruct (N.leb_spec 48 (N_of_ascii c)); [|done].
  destruct (N.leb_spec (N_of_ascii c) 57); [|done].
  cbn [andb]. intros [= <-]. split; [lia|].
  assert (N_of_ascii c = 48 \/ N_of_ascii c = 49 \/ N_of_ascii c = 50 \/
          N_of_ascii c = 51 \/ N_of_ascii c = 52 \/ N_of_ascii c = 53 \/
          N_of_ascii c = 54 \/ N_of_ascii c = 55 \/ N_of_ascii c = 56 \/
          N_of_ascii c = 57)%N as H' by lia.
  rewrite <- Hc.
  by destruct H' as [->|[->|[->|[->|[->|[->|[->|[->|[->| ->]]]]]]]]].
Qed.

Lemma parse_value_digit fuel c d t :
  digit_value c = Some d ->
  parse_value (S fuel) (String c t) =
  match parse_natural (String c t) with
  | Some (n, rest) => Some (VInt (Z.of_N n), rest)
  | None => None
  end.
Proof.
  intros [Hd ->]%digit_value_char.
  assert (d = 0 \/ d = 1 \/ d = 2 \/ d = 3 \/ d = 4 \/ d = 5 \/ d = 6 \/ d = 7 \/
          d = 8 \/ d = 9)%N as H by lia.
  by destruct H as [->|[->|[->|[->|[->|[->|[->|[->|[->| ->]]]]]]]]].
Qed.

Lemma is_ws_digit c d : digit_value c = Some d -> is_ws c = false.
Proof.
  intros [Hd ->]%digit_value_char.
  assert (d = 0 \/ d = 1 \/ d = 2 \/ d = 3 \/ d = 4 \/ d = 5 \/ d = 6 \/ d = 7 \/
          d = 8 \/ d = 9)%N as H by lia.
  by destruct H as [->|[->|[->|[->|[->|[->|[->|[->|[->| ->]]]]]]]]].
Qed.

Lemma closing_digit c d :
  digit_value c = Some d -> Ascii.eqb c "]" = false /\ Ascii.eqb c "}" = false.
Proof.
  intros [Hd ->]%digit_value_char.
  assert (d = 0 \/ d = 1 \/ d = 2 \/ d = 3 \/ d = 4 \/ d = 5 \/ d = 6 \/ d = 7 \/
          d = 8 \/ d = 9)%N as H by lia.
  by destruct H as [->|[->|[->|[->|[->|[->|[->|[->|[->| ->]]]]]]]]].
Qed.

(** *** Integers *)

Lemma parse_natural_pretty (n : N) rest :
  (String.length (pretty n) <= 4300)%nat -> no_digit_ahead rest ->
  parse_natural (pretty n ++ rest) = Some (n, rest).
Proof.
  intros Hlen Hrest. rewrite pretty_N_unfold in *. case_decide as Hn.
  { subst n. rewrite string_app_cons, string_app_nil_l. unfold parse_natural.
    cbn [read_digits]. change (digit_value "0") with (Some 0%N). cbv iota.
    by rewrite read_digits_stop. }
  assert (0 < n)%N as Hpos by lia.
  rewrite pretty_N_go_length in Hlen. cbn [String.length] in Hlen.
  rewrite <- pretty_N_go_app. unfold parse_natural.
  rewrite read_digits_pretty_go, read_digits_stop by done.
  rewrite (ndigits_step n) in * by done.
  destruct (pretty_N_go_head n rest Hpos) as (c & t & -> & Hc & _).
  cbn [Nat.eqb strip_prefix].
  rewrite (proj2 (Ascii.eqb_neq "0" c)) by done.
  rewrite andb_false_r.
  rewrite (proj2 (Nat.ltb_ge _ _)) by lia.
  reflexivity.
Qed.

Lemma pretty_Z_head (z : Z) rest :
  exists c t, pretty z ++ rest = String c t /\
    (c = "-"%char \/ exists d, digit_value c = Some d).
Proof.
  destruct z as [|p|p].
  - exists "0"%char, rest. split; [done|right]. by exists 0%N.
  - change (pretty (Z.pos p)) with (pretty (N.pos p)).
    rewrite pretty_N_unfold. case_decide; [done|]. rewrite <- pretty_N_go_app.
    destruct (pretty_N_go_head (N.pos p) rest ltac:(lia)) as (c & t & -> & _ & Hd).
    exists c, t. split; [done|right].
    destruct (digit_value c) as [d|]; [by exists d|done].
  - exists "-"%char, (pretty (N.pos p) ++ rest). split; [done|by left].
Qed.

Lemma parse_value_int fuel (z : Z) rest :
  (String.length (pretty (Z.abs_N z)) <= 4300)%nat -> no_digit_ahead rest ->
  parse_value (S fuel) (pretty z ++ rest) = Some (VInt z, rest).
Proof.
  intros Hlen Hrest. destruct z as [|p|p].
  - change (pretty 0%Z) with (pretty 0%N).
    destruct (pretty_Z_head 0 rest) as (c & t & Heq & [->|[d Hd]]); [done|].
    change (pretty 0%Z) with (pretty 0%N) in Heq.
    rewrite Heq, (parse_value_digit _ _ _ _ Hd), <- Heq.
    by rewrite parse_natural_pretty.
  - change (pretty (Z.pos p)) with (pretty (N.pos p)).
    destruct (pretty_Z_head (Z.pos p) rest) as (c & t & Heq & [->|[d Hd]]).
    { change (pretty (Z.pos p)) with (pretty (N.pos p)) in Heq.
      rewrite pretty_N_unfold in Heq. case_decide; [done|].
      rewrite <- pretty_N_go_app in Heq.
      destruct (pretty_N_go_head (N.pos p) rest ltac:(lia)) as (c' & t' & Heq' & _ & Hd).
      rewrite Heq' in Heq. by injection Heq as -> _. }
    change (pretty (Z.pos p)) with (pretty (N.pos p)) in Heq.
    rewrite Heq, (parse_value_digit _ _ _ _ Hd), <- Heq.
    by rewrite parse_natural_pretty.
  - change (pretty (Z.neg p)) with ("-" ++ pretty (N.pos p)).
    rewrite string_app_assoc, string_app_cons, string_app_nil_l, parse_value_minus.
    by rewrite parse_natural_pretty.
Qed.

(** *** The first character of what [json_dumps] writes *)

Lemma json_dumps_head v rest :
  exists c t, json_dumps v ++ rest = String c t /\
    is_ws c = false /\ Ascii.eqb c "]" = false /\ Ascii.eqb c "}" = false.
Proof.
  destruct v as [|[]|z|s|l|d]; try by eexists _, _.
  - destruct (pretty_Z_head z rest) as (c & t & Heq & [->|[d Hd]]).
    + by exists "-"%char, t.
    + exists c, t. split_and!; [done|by eapply is_ws_digit|..];
        by eapply closing_digit.
Qed.

Lemma skip_ws_dumps v rest : skip_ws (json_dumps v ++ rest) = json_dumps v ++ rest.
Proof.
  destruct (json_dumps_head v rest) as (c & t & -> & Hc & _).
  cbn [skip_ws]. by rewrite Hc.
Qed.

Lemma dump_items_head x l rest :
  exists c t, dump_items (x :: l) ++ rest = String c t /\
    is_ws c = false /\ Ascii.eqb c "]" = false.
Proof.
  destruct l as [|y l].
  - cbn [dump_items]. destruct (json_dumps_head x rest) as (c & t & ? & ? & ? & ?). eauto.
  - change (dump_items (x :: y :: l)) with (json_dumps x ++ ", " ++ dump_items (y :: l)).
    rewrite string_app_assoc.
    destruct (json_dumps_head x ((", " ++ dump_items (y :: l)) ++ rest))
      as (c & t & ? & ? & ? & ?). eauto.
Qed.

Lemma dump_members_head k x d rest :
  exists t, dump_members ((k, x) :: d) ++ rest = String dquote t.
Proof.
  destruct d as [|kv d]; [cbn [dump_members]|
    change (dump_members ((k, x) :: kv :: d))
      with (json_string k ++ ": " ++ json_dumps x ++ ", " ++ dump_members (kv :: d))];
    rewrite json_string_app; eauto.
Qed.

End values.

(** ** Reading back what [json.dumps] wrote *)

Section round_trip.

Lemma dict_set_all d acc :
  NoDup (acc.*1 ++ d.*1) ->
  foldl (fun a kv => dict_set kv.1 kv.2 a) acc d = (acc ++ d)%list.
Proof.
  revert acc. induction d as [|[k v] d IH]; intros acc Hnd.
  { by rewrite app_nil_r. }
  cbn in *. apply NoDup_app in Hnd as (Hacc & Hdisj & [Hk Hd]%NoDup_cons).
  rewrite dict_set_fresh.
  - rewrite IH; [by rewrite <- app_assoc|].
    rewrite fmap_app. cbn. rewrite <- app_assoc. cbn.
    apply NoDup_app. split_and!; [done| |by apply NoDup_cons].
    done.
  - intros Hin. by apply (Hdisj k); [|left].
Qed.

Lemma skip_ws_space s : skip_ws (String " " s) = skip_ws s.
Proof. reflexivity. Qed.

Lemma comma_space t : ", " ++ t = String "," (String " " t).
Proof. reflexivity. Qed.

Lemma colon_space t : ": " ++ t = String ":" (String " " t).
Proof. reflexivity. Qed.

Lemma skip_ws_comma t : skip_ws (String "," t) = String "," t.
Proof. reflexivity. Qed.

Lemma skip_ws_colon t : skip_ws (String ":" t) = String ":" t.
Proof. reflexivity. Qed.

Lemma parse_items_dumps l :
  Forall reads_back l -> l <> [] ->
  forall fuel acc rest,
    (list_sum (map (fun x => S (size x)) l) <= fuel)%nat ->
    parse_items fuel acc (dump_items l ++ "]" ++ rest) = Some (VList (acc ++ l), rest).
Proof.
  induction 1 as [|x l Hx Hl IH]; [done|]. intros _ fuel acc rest Hfuel.
  cbn [map] in Hfuel.
  change (list_sum (?a :: ?b)) with (a + list_sum b)%nat in Hfuel. destruct fuel as [|fuel]; [lia|].
  change (parse_items (S fuel) acc ?s) with
    (match parse_value fuel s with
     | Some (v, s1) =>
         match skip_ws s1 with
         | String d s2 =>
             if Ascii.eqb d "," then parse_items fuel (acc ++ [v]) (skip_ws s2)
             else if Ascii.eqb d "]" then Some (VList (acc ++ [v]), s2)
             else None
         | "" => None
         end
     | None => None
     end).
  destruct l as [|y l].
  - cbn [dump_items]. rewrite Hx by (done || lia). reflexivity.
  - change (dump_items (x :: y :: l)) with (json_dumps x ++ ", " ++ dump_items (y :: l)).
    rewrite !string_app_assoc, Hx by (done || lia).
    rewrite comma_space, skip_ws_comma.
    change (Ascii.eqb "," ",") with true. cbv iota.
    rewrite skip_ws_space.
    destruct (dump_items_head y l ("]" ++ rest)) as (c & t & Heq & Hc & _).
    rewrite Heq. cbn [skip_ws]. rewrite Hc, <- Heq.
    rewrite IH by (done || lia). by rewrite <- app_assoc.
Qed.

Lemma parse_members_dumps d :
  Forall (fun kv => is_text kv.1 = true /\ reads_back kv.2) d -> d <> [] ->
  forall fuel acc rest,
    (size (VDict d) <= S fuel)%nat ->
    parse_members fuel acc (dump_members d ++ "}" ++ rest) =
    Some (VDict (foldl (fun a kv => dict_set kv.1 kv.2 a) acc d), rest).
Proof.
  induction 1 as [|[k x] d [Hk Hx] Hd IH]; [done|]. intros _ fuel acc rest Hfuel.
  cbn [fst snd] in Hk, Hx. rewrite size_dict_cons in Hfuel.
  pose proof (size_pos x). pose proof (size_pos (VDict d)).
  destruct fuel as [|fuel]; [lia|].
  destruct (dump_members_head k x d ("}" ++ rest)) as [t Ht].
  assert (Hstep : forall tail,
    skip_ws tail = tail ->
    no_digit_ahead tail ->
    parse_members (S fuel) acc (json_string k ++ ": " ++ json_dumps x ++ tail) =
    match tail with
    | String c s5 =>
        if Ascii.eqb c ","
        then parse_members fuel (dict_set k x acc) (skip_ws s5)
        else if Ascii.eqb c "}" then Some (VDict (dict_set k x acc), s5) else None
    | "" => None
    end).
  { intros tail Hws Hnd.
    rewrite json_string_app.
    change (parse_members (S fuel) acc (String dquote ?s1)) with
      (match parse_string_body s1 with
       | Some (key, s2) =>
           match skip_ws s2 with
           | String colon s3 =>
               if Ascii.eqb colon ":" then
                 match parse_value fuel (skip_ws s3) with
                 | Some (v, s4) =>
                     match skip_ws s4 with
                     | String c s5 =>
                         if Ascii.eqb c ","
                         then parse_members fuel (dict_set key v acc) (skip_ws s5)
                         else if Ascii.eqb c "}"
                              then Some (VDict (dict_set key v acc), s5) else None
                     | "" => None
                     end
                 | None => None
                 end
               else None
           | "" => None
           end
       | None => None
       end).
    rewrite parse_json_escape by done.
    rewrite colon_space, skip_ws_colon.
    change (Ascii.eqb ":" ":") with true. cbv iota.
    rewrite skip_ws_space, skip_ws_dumps, Hx by (done || lia).
    by rewrite Hws. }
  destruct d as [|[k' x'] d].
  - cbn [dump_members]. rewrite !string_app_assoc, Hstep by done. reflexivity.
  - change (dump_members ((k, x) :: (k', x') :: d))
      with (json_string k ++ ": " ++ json_dumps x ++ ", " ++ dump_members ((k', x') :: d)).
    rewrite !string_app_assoc, Hstep by done.
    rewrite comma_space.
    change (Ascii.eqb "," ",") with true. cbv iota.
    rewrite skip_ws_space.
    destruct (dump_members_head k' x' d ("}" ++ rest)) as [t' Ht'].
    rewrite Ht'. change (skip_ws (String dquote t')) with (String dquote t').
    rewrite <- Ht'. rewrite IH; [done|done|]. lia.
Qed.

(** The decoder reads back every value it can hold. *)
Lemma parse_value_dumps v : json_value v = true -> reads_back v.
Proof.
  induction v as [|b|z|s|l IH|d IH] using value_nested_ind;
    intros Hv fuel rest Hfuel Hrest;
    (destruct fuel as [|fuel];
     [match type of Hfuel with (size ?v <= _)%nat => pose proof (size_pos v) end; lia|]).
  - reflexivity.
  - by destruct b.
  - cbn [json_dumps json_value] in *. apply Nat.leb_le in Hv. by apply parse_value_int.
  - cbn [json_dumps]. rewrite json_string_app, parse_value_string.
    by rewrite parse_json_escape.
  - rewrite json_dumps_list, !string_app_assoc.
    change ("[" ++ ?t) with (String "[" t). rewrite parse_value_list.
    apply json_value_list in Hv.
    destruct l as [|x l]; [reflexivity|].
    destruct (dump_items_head x l ("]" ++ rest)) as (c & t & Heq & Hc & Hclose).
    rewrite Heq. cbn [skip_ws]. rewrite Hc, Hclose, <- Heq.
    rewrite size_list in Hfuel.
    rewrite parse_items_dumps; [done| |done|lia].
    rewrite Forall_forall in IH, Hv. apply Forall_forall. intros y Hy. auto.
  - rewrite json_dumps_dict, !string_app_assoc.
    change ("{" ++ ?t) with (String "{" t). rewrite parse_value_dict.
    apply json_value_dict in Hv as [Hv Hnd].
    destruct d as [|[k x] d]; [reflexivity|].
    destruct (dump_members_head k x d ("}" ++ rest)) as [t Heq].
    rewrite Heq. change (skip_ws (String dquote t)) with (String dquote t).
    change (Ascii.eqb dquote "}") with false. cbv iota. rewrite <- Heq.
    rewrite parse_members_dumps; [|  |done|done].
    + by rewrite dict_set_all.
    + rewrite Forall_forall in IH, Hv. apply Forall_forall.
      intros kv Hkv. destruct (Hv kv Hkv). split; [done|]. by apply (IH kv).
Qed.

(** *** Length of the text *)

Lemma pretty_Z_length (z : Z) : (1 <= String.length (pretty z))%nat.
Proof.
  destruct (pretty_Z_head z "") as (c & t & Heq & _).
  rewrite string_app_nil_r in Heq. rewrite Heq. cbn. lia.
Qed.

Lemma dump_items_size l :
  Forall (fun x => (size x <= String.length (json_dumps x))%nat) l ->
  (list_sum (map (fun x => S (size x)) l) <= S (String.length (dump_items l)))%nat.
Proof.
  induction 1 as [|x l Hx Hl IH]; [cbn; lia|].
  cbn [map]. change (list_sum (?a :: ?b)) with (a + list_sum b)%nat.
  destruct l as [|y l]; [cbn; lia|].
  change (dump_items (x :: y :: l)) with (json_dumps x ++ ", " ++ dump_items (y :: l)).
  rewrite !string_length_app. cbn [String.length]. lia.
Qed.

Lemma dump_members_size d :
  Forall (fun kv : string * value => (size kv.2 <= String.length (json_dumps kv.2))%nat) d ->
  (size (VDict d) <= S (S (String.length (dump_members d))))%nat.
Proof.
  induction 1 as [|[k x] d Hx Hd IH]; [cbn; lia|].
  rewrite size_dict_cons. cbn [snd] in Hx.
  destruct d as [|kv d]; [cbn [dump_members size]; rewrite !string_length_app; lia|].
  change (dump_members ((k, x) :: kv :: d))
    with (json_string k ++ ": " ++ json_dumps x ++ ", " ++ dump_members (kv :: d)).
  rewrite !string_length_app. cbn [String.length]. lia.
Qed.

Lemma size_le_length v : (size v <= String.length (json_dumps v))%nat.
Proof.
  induction v as [|b|z|s|l IH|d IH] using value_nested_ind.
  - cbn. lia.
  - destruct b; cbn; lia.
  - cbn [size json_dumps]. apply pretty_Z_length.
  - cbn [size json_dumps]. unfold json_string. cbn [String.length]. lia.
  - rewrite json_dumps_list, size_list, !string_length_app.
    pose proof (dump_items_size l IH). cbn [String.length]. lia.
  - rewrite json_dumps_dict, !string_length_app.
    pose proof (dump_members_size d IH). cbn [String.length]. lia.
Qed.

(** [json.loads] gives back the value that [json.dumps] was given. *)
Lemma json_loads_dumps v : json_value v = true -> json_loads (json_dumps v) = Some v.
Proof.
  intros Hv. unfold json_loads.
  rewrite <- (string_app_nil_r (json_dumps v)) at 2.
  rewrite skip_ws_dumps, (parse_value_dumps v Hv); [done| |done].
  pose proof (size_le_length v). lia.
Qed.

(** *** The text is ASCII *)

Lemma pretty_Z_ascii (z : Z) : ascii_only (pretty z) = true.
Proof.
  destruct z as [|p|p]; [done|..].
  - change (pretty (Z.pos p)) with (pretty (N.pos p)). rewrite pretty_N_unfold.
    case_decide; [done|]. by apply pretty_N_go_ascii.
  - change (pretty (Z.neg p)) with ("-" ++ pretty (N.pos p)).
    rewrite ascii_only_app, pretty_N_unfold. case_decide; [done|].
    by rewrite pretty_N_go_ascii.
Qed.

Lemma json_dumps_ascii v : ascii_only (json_dumps v) = true.
Proof.
  induction v as [|b|z|s|l IH|d IH] using value_nested_ind.
  - done.
  - by destruct b.
  - apply pretty_Z_ascii.
  - apply json_string_ascii.
  - rewrite json_dumps_list, !ascii_only_app.
    assert (ascii_only (dump_items l) = true) as ->; [|done].
    induction IH as [|x l Hx Hl IHl]; [done|].
    destruct l as [|y l]; [done|].
    change (dump_items (x :: y :: l)) with (json_dumps x ++ ", " ++ dump_items (y :: l)).
    by rewrite !ascii_only_app, Hx, IHl.
  - rewrite json_dumps_dict, !ascii_only_app.
    assert (ascii_only (dump_members d) = true) as ->; [|done].
    induction IH as [|[k x] d Hx Hd IHd]; [done|]. cbn [snd] in Hx.
    destruct d as [|kv d].
    + cbn [dump_members]. by rewrite !ascii_only_app, json_string_ascii, Hx.
    + change (dump_members ((k, x) :: kv :: d))
        with (json_string k ++ ": " ++ json_dumps x ++ ", " ++ dump_members (kv :: d)).
      by rewrite !ascii_only_app, json_string_ascii, Hx, IHd.
Qed.

(** The bytes written for a value are its text, and decode to it. *)
Lemma encode_utf8_dumps v : encode_utf8 (json_dumps v) = json_dumps v.
Proof. apply encode_utf8_text, ascii_is_text, json_dumps_ascii. Qed.

Lemma decode_encode_dumps v :
  decode_utf8 (encode_utf8 (json_dumps v)) = Some (json_dumps v).
Proof.
  rewrite encode_utf8_dumps. apply decode_utf8_text, ascii_is_text, json_dumps_ascii.
Qed.

(** What is written for a value is read back as that value. *)
Lemma dumps_round_trip v :
  json_value v = true ->
  decode_utf8 (encode_utf8 (json_dumps v)) ≫= json_loads = Some v.
Proof.
  intros Hv. rewrite decode_encode_dumps. cbn [mbind option_bind].
  by apply json_loads_dumps.
Qed.

End round_trip.

(** ** Timestamps *)

Section timestamps.

Lemma field_zero_pad width lo hi n rest :
  (0 < width)%nat -> (n < 10 ^ N.of_nat width)%N -> (lo <= n <= hi)%N ->
  no_digit_ahead rest ->
  field width lo hi (zero_pad width n ++ rest) = Some rest.
Proof.
  intros Hw Hn [Hlo Hhi] Hrest. unfold field.
  rewrite read_digits_zero_pad, read_digits_stop by done.
  cbn [Nat.add]. rewrite Nat.eqb_refl.
  replace (0 * 10 ^ N.of_nat width + n)%N with n by lia.
  by rewrite (proj2 (N.leb_le lo n)), (proj2 (N.leb_le n hi)).
Qed.

Lemma expect_head c t : expect c (String c t) = Some t.
Proof. cbn. by rewrite Ascii.eqb_refl. Qed.

(** What [isoformat] writes is an ISO-8601 string. *)
Lemma isoformat_iso8601 t : valid_datetime t -> iso8601 (isoformat t) = true.
Proof.
  intros (Hy & Hmo & Hd & Hh & Hmi & Hs & Hus).
  unfold isoformat, iso8601.
  rewrite ?string_app_assoc.
  repeat match goal with
  | |- context [String.append (String ?c "") ?t] =>
      change (String.append (String c "") t) with (String c t)
  end.
  rewrite field_zero_pad by (done || cbn; lia). cbn [mbind option_bind].
  rewrite expect_head. cbn [mbind option_bind].
  rewrite field_zero_pad by (done || cbn; lia). cbn [mbind option_bind].
  rewrite expect_head. cbn [mbind option_bind].
  rewrite field_zero_pad by (done || cbn; lia). cbn [mbind option_bind].
  rewrite expect_head. cbn [mbind option_bind].
  rewrite field_zero_pad by (done || cbn; lia). cbn [mbind option_bind].
  rewrite expect_head. cbn [mbind option_bind].
  rewrite field_zero_pad by (done || cbn; lia). cbn [mbind option_bind].
  rewrite expect_head. cbn [mbind option_bind].
  destruct (N.eqb_spec (microsecond t) 0) as [H0|H0].
  - by rewrite field_zero_pad by (done || cbn; lia).
  - rewrite field_zero_pad by (done || cbn; lia).
    change ("." ++ ?u) with (String "." u). rewrite expect_head.
    rewrite <- (string_app_nil_r (zero_pad 6 (microsecond t))).
    rewrite read_digits_zero_pad, read_digits_stop by (done || cbn; lia).
    reflexivity.
Qed.

End timestamps.

(** ** The metadata of a feedback *)

Section metadata.

Lemma zeros_ascii k : ascii_only (String.concat "" (replicate k "0")) = true.
Proof.
  induction k as [|k IH]; [done|].
  replace (String.concat "" (replicate (S k) "0"))
    with (String "0" (String.concat "" (replicate k "0")))
    by (cbn [replicate]; destruct k; reflexivity).
  cbn [ascii_only]. by rewrite IH.
Qed.

Lemma pretty_N_ascii (n : N) : ascii_only (pretty n) = true.
Proof.
  rewrite pretty_N_unfold. case_decide; [done|]. by apply pretty_N_go_ascii.
Qed.

Lemma zero_pad_ascii width n : ascii_only (zero_pad width n) = true.
Proof. unfold zero_pad. by rewrite ascii_only_app, zeros_ascii, pretty_N_ascii. Qed.

Lemma isoformat_ascii t : ascii_only (isoformat t) = true.
Proof.
  unfold isoformat. rewrite !ascii_only_app, !zero_pad_ascii.
  destruct (microsecond t =? 0)%N; [done|].
  by rewrite ascii_only_app, zero_pad_ascii.
Qed.

Lemma isoformat_text t : is_text (isoformat t) = true.
Proof. apply ascii_is_text, isoformat_ascii. Qed.

Lemma feedback_metadata_json_value now description approved note :
  json_value description = true -> is_text note = true ->
  json_value (VDict (feedback_metadata now description approved note)) = true.
Proof.
  intros Hd Hn. apply json_value_dict. split.
  - unfold feedback_metadata. repeat constructor; cbn [fst snd json_value]; try done.
    apply isoformat_text.
  - unfold feedback_metadata. cbn. compute_done.
Qed.

(** The bytes [save_metadata] writes for a feedback decode to its
    metadata. *)
Lemma metadata_round_trip now description approved note :
  json_value description = true -> is_text note = true ->
  decode_utf8 (encode_utf8
    (json_dumps (VDict (feedback_metadata now description approved note))))
    ≫= json_loads
  = Some (VDict (feedback_metadata now description approved note)).
Proof.
  intros Hd Hn. by apply dumps_round_trip, feedback_metadata_json_value.
Qed.

End metadata.

Section frames.
Implicit Types (w : world).

Lemma update_request_objects request_id kwargs w :
  objects (snd (update_request request_id kwargs w)) = objects w.
Proof. unfold update_request. by destruct (requests w !! request_id). Qed.

Lemma clean_temp_file_objects request_id w :
  objects (snd (clean_temp_file request_id w)) = objects w.
Proof.
  unfold clean_temp_file, get_request.
  destruct (requests w !! request_id) as [r|]; [|done].
  case_bool_decide; [done|].
  destruct (r !! "temp_path") as [p|]; [|done].
  destruct (truthy p); [|done]. cbn [negb].
  destruct (os_path_exists p w) as [[]|]; [|done|done].
  unfold os_remove. destruct p; try done.
  destruct (disk w !! s) as [[? []|]|]; done.
Qed.

Lemma request_field_updated request_id kwargs key r v w :
  requests w !! request_id = Some r ->
  key ∉ kwargs.*1 ->
  r !! key = Some v ->
  request_field request_id key (snd (update_request request_id kwargs w)) = Return v.
Proof.
  intros Hr Hkey Hv. rewrite (update_request_found _ _ _ _ Hr).
  unfold request_field. world_simpl.
  by rewrite lookup_insert_eq, apply_kwargs_frame, Hv.
Qed.

End frames.

Section save_feedback.
Variables (sv : services) (env : feedback_env).
Variables (request_id : string) (approved : bool) (note : string).
Variable w : world.
Variables (r : gmap string value) (cloud_path description : value) (ns b : string).
Hypothesis Hid : request_id <> "".
Hypothesis Hr : requests w !! request_id = Some r.
Hypothesis Hkey : r !! "cloud_path" = Some cloud_path.
Hypothesis Hdesc : r !! "llm_description" = Some description.
Hypothesis Hns : namespace (oracle_storage sv) = Some ns.
Hypothesis Hb : bucket_name (oracle_storage sv) = Some b.
Hypothesis Hacc : fe_put_accepted env = true.

(** When the storage service takes the call, [save_feedback] leaves the
    encoded metadata under the derived object name. *)
Lemma save_feedback_persists :
  objects (snd (save_feedback sv env request_id approved note w)) =
    <[(ns, b, py_str cloud_path ++ ".metadata.json") :=
        encode_utf8 (json_dumps (VDict
          (feedback_metadata (fe_now env) description approved note)))]>
      (objects w).
Proof.
  unfold save_feedback. rewrite truthy_VStr by done. cbn [negb].
  rewrite (get_request_found _ _ _ Hr).
  rewrite bool_decide_eq_false_2 by (intros ->; by rewrite lookup_empty in Hkey).
  destruct (update_request request_id _ w) as [ok w1] eqn:Hupd.
  assert (Hw1 : w1 = snd (update_request request_id
            [("status", VStr "feedback_received");
             ("user_feedback", VBool approved);
             ("user_note", VStr note)] w)) by (by rewrite Hupd).
  rewrite Hw1 at 1.
  erewrite request_field_updated; [|exact Hr|compute_done|exact Hdesc].
  rewrite Hw1 at 1.
  erewrite request_field_updated; [|exact Hr|compute_done|exact Hkey].
  unfold save_metadata. rewrite Hacc.
  rewrite (put_object_accepted _ _ _ _ _ _ Hns Hb). cbn [negb].
  match goal with
  | |- context [clean_temp_file request_id ?w2] =>
      pose proof (clean_temp_file_objects request_id w2) as Hclean;
      destruct (clean_temp_file request_id w2) as [[res|e] w3]
  end; cbn [snd] in *.
  - match goal with
    | |- context [update_request request_id ?k w3] =>
        pose proof (update_request_objects request_id k w3) as Hfin;
        destruct (update_request request_id k w3) as [ok' w4]
    end. cbn [snd] in *. rewrite Hfin, Hclean. world_simpl.
    by rewrite Hw1, update_request_objects.
  - rewrite Hclean. world_simpl. by rewrite Hw1, update_request_objects.
Qed.

End save_feedback.

(** C4.  On a record of an image stored under key [K], feedback that the
    storage service accepts leaves, in the bucket of the image and under
    the name [K.metadata.json], bytes that decode to a JSON object with
    exactly the keys [timestamp], [description], [approved] and [note], in
    this order: [timestamp] is what [isoformat] gives for the moment of
    the feedback, an ISO-8601 string; [approved] is the decision as a
    boolean; [note] is the note as a string; and [description] is the
    value the record holds as [llm_description], whatever it is.  The
    image itself stays as it was.  (The description and the note are any
    values that [json.loads] can give back: any text, and any list or
    dictionary built from texts, integers, booleans and [None].) *)
Theorem metadata_persisted_round_trip (sv : services) (env : feedback_env)
    (request_id : string) (approved : bool) (note : string) (w : world)
    (r : gmap string value) (K ns b : string) (description : value) :
  request_id <> "" ->
  requests w !! request_id = Some r ->
  r !! "cloud_path" = Some (VStr K) ->
  r !! "llm_description" = Some description ->
  json_value description = true ->
  is_text note = true ->
  valid_datetime (fe_now env) ->
  namespace (oracle_storage sv) = Some ns ->
  bucket_name (oracle_storage sv) = Some b ->
  fe_put_accepted env = true ->
  let w' := snd (save_feedback sv env request_id approved note w) in
  exists bytes timestamp,
    objects w' !! (ns, b, K ++ ".metadata.json") = Some bytes /\
    get_object (oracle_storage sv) (K ++ ".metadata.json") w' = Return bytes /\
    decode_utf8 bytes ≫= json_loads =
      Some (VDict [ ("timestamp", VStr timestamp);
                    ("description", description);
                    ("approved", VBool approved);
                    ("note", VStr note) ]) /\
    timestamp = isoformat (fe_now env) /\
    iso8601 timestamp = true /\
    (forall other, other <> K ++ ".metadata.json" ->
       objects w' !! (ns, b, other) = objects w !! (ns, b, other)).
Proof.
  intros Hid Hr HK Hd Hjson Hnote Hnow Hns Hb Hacc w'.
  assert (Hobjs : objects w' =
    <[(ns, b, K ++ ".metadata.json") :=
        encode_utf8 (json_dumps (VDict
          (feedback_metadata (fe_now env) description approved note)))]> (objects w)).
  { subst w'.
    by rewrite (save_feedback_persists sv env request_id approved note w r
                  (VStr K) description ns b). }
  assert (Hobj : objects w' !! (ns, b, K ++ ".metadata.json") =
    Some (encode_utf8 (json_dumps (VDict
            (feedback_metadata (fe_now env) description approved note))))).
  { rewrite Hobjs. apply lookup_insert_eq. }
  eexists _, (isoformat (fe_now env)). split_and!.
  - exact Hobj.
  - unfold get_object. by rewrite Hns, Hb, Hobj.
  - by apply (metadata_round_trip (fe_now env) description approved note).
  - reflexivity.
  - by apply isoformat_iso8601.
  - intros other Hne. rewrite Hobjs. apply lookup_insert_ne. congruence.
Qed.

(** ** Histories *)

Section history.
Implicit Types (w : world) (m : gmap string (gmap string value))
  (r : gmap string value).

Lemma record_keeps_refl r : record_keeps r r.
Proof. by intros key v _ H _. Qed.

Lemma record_keeps_trans r1 r2 r3 :
  record_keeps r1 r2 -> record_keeps r2 r3 -> record_keeps r1 r3.
Proof. intros H12 H23 key v Hk Hv Ht. eauto. Qed.

Lemma keeps_refl m : keeps m m.
Proof. intros id r Hr. eauto using record_keeps_refl. Qed.

Lemma keeps_trans m1 m2 m3 : keeps m1 m2 -> keeps m2 m3 -> keeps m1 m3.
Proof.
  intros H12 H23 id r Hr.
  destruct (H12 _ _ Hr) as (r2 & Hr2 & Hk2).
  destruct (H23 _ _ Hr2) as (r3 & Hr3 & Hk3).
  eauto using record_keeps_trans.
Qed.

(** A new record under a fresh id disturbs nothing. *)
Lemma keeps_insert_fresh m request_id r :
  m !! request_id = None -> keeps m (<[request_id := r]> m).
Proof.
  intros Hfresh id r0 Hr0. exists r0. split; [|apply record_keeps_refl].
  rewrite lookup_insert_ne; [done|]. intros ->. congruence.
Qed.

(** Replacing a record by one that keeps its write-once fields. *)
Lemma keeps_insert_record m request_id r r' :
  m !! request_id = Some r -> record_keeps r r' ->
  keeps m (<[request_id := r']> m).
Proof.
  intros Hr Hk id r0 Hr0. destruct (decide (id = request_id)) as [->|Hne].
  - exists r'. rewrite lookup_insert_eq. by simplify_eq.
  - exists r0. rewrite lookup_insert_ne by done. eauto using record_keeps_refl.
Qed.

(** An update keeps a write-once field that it does not name, or that
    is still empty. *)
Lemma record_keeps_apply_kwargs kwargs r :
  (forall key, key ∈ write_once_fields -> key ∈ kwargs.*1 ->
     forall v, r !! key = Some v -> truthy v = false) ->
  record_keeps r (apply_kwargs kwargs r).
Proof.
  intros Hempty key v Hk Hv Ht.
  destruct (decide (key ∈ kwargs.*1)) as [Hin|Hnot].
  - specialize (Hempty key Hk Hin v Hv). congruence.
  - by rewrite apply_kwargs_frame.
Qed.

Lemma history_ok_set_requests w m :
  history_ok w -> keeps (requests w) m -> history_ok (set_requests m w).
Proof.
  intros [Hlast Hchain] Hk. split; cbn.
  - by rewrite last_snoc.
  - intros i j m1 m2 Hij H1 H2.
    apply lookup_snoc_Some in H2 as [[Hj H2]|[Hj <-]].
    + rewrite lookup_app_l in H1 by lia. eauto.
    + apply lookup_snoc_Some in H1 as [[Hi H1]|[Hi <-]]; [|apply keeps_refl].
      apply keeps_trans with (requests w); [|done].
      apply last_Some in Hlast as [l' Hl'].
      apply (Hchain i (length l') m1 (requests w)); [|done|].
      * rewrite Hl', length_app in Hi. cbn in Hi. lia.
      * rewrite Hl'. by apply list_lookup_middle.
Qed.

(** Only [requests] and [snapshots] matter. *)
Lemma history_ok_same w w' :
  requests w' = requests w -> snapshots w' = snapshots w ->
  history_ok w -> history_ok w'.
Proof. unfold history_ok. by intros -> ->. Qed.

Lemma history_ok_init d fds o : history_ok (init_world d fds o).
Proof.
  split; [done|]. intros i j m m' _ Hi Hj. cbn in *.
  apply list_lookup_singleton_Some in Hi as [_ <-].
  apply list_lookup_singleton_Some in Hj as [_ <-]. apply keeps_refl.
Qed.

End history.

(** ** Effects of the primitives on the tracker *)

Section effects.
Implicit Types (w : world) (r : gmap string value) (used : list string).

Lemma same_tracker_refl w : same_tracker w w.
Proof. by repeat split. Qed.

Lemma same_tracker_trans w1 w2 w3 :
  same_tracker w1 w2 -> same_tracker w2 w3 -> same_tracker w1 w3.
Proof. intros (?&?&?) (?&?&?). repeat split; congruence. Qed.

Lemma same_tracker_logging e w :
  created_ids [e] = [] -> same_tracker w (logging e w).
Proof.
  intros He. repeat split. cbn. by rewrite created_ids_app, He, app_nil_r.
Qed.

Lemma ids_accounted_same used w w' :
  same_tracker w w' -> ids_accounted used w -> ids_accounted used w'.
Proof. intros (Hr & _ & Hl) [Hu Hd]. split; [congruence|]. by rewrite Hr. Qed.

Lemma history_ok_same_tracker w w' :
  same_tracker w w' -> history_ok w -> history_ok w'.
Proof. intros (Hr & Hs & _). by apply history_ok_same. Qed.

Lemma get_request_same request_id w :
  same_tracker w (snd (get_request request_id w)).
Proof.
  unfold get_request. destruct (requests w !! request_id).
  - apply same_tracker_refl.
  - by apply same_tracker_logging.
Qed.

Lemma clean_temp_file_same request_id w :
  same_tracker w (snd (clean_temp_file request_id w)).
Proof.
  unfold clean_temp_file, get_request.
  destruct (requests w !! request_id) as [r|]; [|by apply same_tracker_logging].
  case_bool_decide; [apply same_tracker_refl|].
  destruct (r !! "temp_path") as [p|]; [|apply same_tracker_refl].
  destruct (truthy p); [|apply same_tracker_refl]. cbn [negb].
  destruct (os_path_exists p w) as [[]|];
    [|apply same_tracker_refl|by apply same_tracker_logging].
  unfold os_remove.
  destruct p as [| | |s| |]; try by apply same_tracker_logging.
  destruct (disk w !! s) as [[? []|]|]; try by apply same_tracker_logging.
  repeat split. cbn. by rewrite created_ids_app, app_nil_r.
Qed.

Lemma image_save_same (img : image) path w :
  same_tracker w (snd (image_save img path w)).
Proof.
  unfold image_save.
  destruct (disk w !! path) as [[]|], (jpeg img); by repeat split.
Qed.

Lemma put_object_same st accepted name body w :
  same_tracker w (snd (put_object st accepted name body w)).
Proof.
  unfold put_object. destruct (namespace st), (bucket_name st), accepted;
    by repeat split.
Qed.

Lemma upload_image_same st accepted path name w :
  same_tracker w (snd (upload_image st accepted path name w)).
Proof.
  unfold upload_image. destruct (read_file path w); [|apply same_tracker_refl].
  match goal with
  | |- context [put_object st accepted ?n ?d w] =>
      pose proof (put_object_same st accepted n d w) as H;
      destruct (put_object st accepted n d w) as [[] ?]
  end; exact H.
Qed.

Lemma save_metadata_same st accepted name metadata w :
  same_tracker w (snd (save_metadata st accepted name metadata w)).
Proof.
  unfold save_metadata.
  match goal with
  | |- context [put_object st accepted ?n ?d w] =>
      pose proof (put_object_same st accepted n d w) as H;
      destruct (put_object st accepted n d w) as [[] ?]
  end; exact H.
Qed.

Lemma create_request_accounted used uuid4 w :
  ids_accounted used w ->
  ids_accounted (used ++ [uuid4]) (snd (create_request uuid4 w)).
Proof.
  intros [Hu Hd]. split; cbn.
  - by rewrite created_ids_app, Hu.
  - intros id. rewrite elem_of_app, list_elem_of_singleton.
    destruct (decide (id = uuid4)) as [->|Hne]; [by right|].
    rewrite lookup_insert_ne by done. auto.
Qed.

Lemma update_request_accounted used request_id kwargs w :
  ids_accounted used w ->
  ids_accounted used (snd (update_request request_id kwargs w)).
Proof.
  intros [Hu Hd]. unfold update_request.
  destruct (requests w !! request_id) as [r|] eqn:Hr; split; cbn.
  - by rewrite created_ids_app, app_nil_r.
  - intros id. destruct (decide (id = request_id)) as [->|Hne].
    + intros _. apply Hd. by rewrite Hr.
    + rewrite lookup_insert_ne by done. auto.
  - by rewrite created_ids_app, app_nil_r.
  - done.
Qed.

Lemma create_request_history uuid4 w :
  requests w !! uuid4 = None ->
  history_ok w -> history_ok (snd (create_request uuid4 w)).
Proof.
  intros Hfresh Hok. cbn.
  apply (history_ok_same (set_requests (<[uuid4 := new_request]> (requests w)) w));
    [done..|].
  apply history_ok_set_requests; [done|]. by apply keeps_insert_fresh.
Qed.

Lemma update_request_history request_id kwargs w :
  (forall r, requests w !! request_id = Some r ->
     record_keeps r (apply_kwargs kwargs r)) ->
  history_ok w -> history_ok (snd (update_request request_id kwargs w)).
Proof.
  intros Hk Hok. unfold update_request.
  destruct (requests w !! request_id) as [r|] eqn:Hr; cbn.
  - apply (history_ok_same
             (set_requests (<[request_id := apply_kwargs kwargs r]> (requests w)) w));
      [done..|].
    apply history_ok_set_requests; [done|].
    eapply keeps_insert_record; eauto.
  - by apply (history_ok_same w).
Qed.

(** An update that names no write-once field. *)
Lemma update_request_history_other request_id kwargs w :
  Forall (fun key => key ∉ write_once_fields) kwargs.*1 ->
  history_ok w -> history_ok (snd (update_request request_id kwargs w)).
Proof.
  intros Hnot. apply update_request_history. intros r _.
  apply record_keeps_apply_kwargs. intros key Hw Hin.
  rewrite Forall_forall in Hnot. by destruct (Hnot key Hin).
Qed.

End effects.

(** ** Runs: identifiers *)

(** One primitive call further along a flow, carrying [ids_accounted]. *)
Ltac accounted_step :=
  cbn [snd fst negb];
  match goal with
  | |- context [negb (truthy ?v)] => destruct (truthy v)
  | |- context [match slice_prefix ?n ?v with _ => _ end] =>
      destruct (slice_prefix n v)
  | |- context [match request_field ?id ?k ?w0 with _ => _ end] =>
      destruct (request_field id k w0)
  | |- context [if bool_decide ?P then _ else _] => destruct (bool_decide P)
  | H : ids_accounted _ ?w0 |- context [image_save ?i ?p ?w0] =>
      apply (ids_accounted_same _ _ _ (image_save_same i p w0)) in H;
      destruct (image_save i p w0) as [[[]|?] ?]; cbn [snd] in H
  | H : ids_accounted _ ?w0 |- context [upload_image ?st ?a ?p ?n ?w0] =>
      apply (ids_accounted_same _ _ _ (upload_image_same st a p n w0)) in H;
      destruct (upload_image st a p n w0) as [? ?]; cbn [snd] in H
  | H : ids_accounted _ ?w0 |- context [save_metadata ?st ?a ?n ?m ?w0] =>
      apply (ids_accounted_same _ _ _ (save_metadata_same st a n m w0)) in H;
      destruct (save_metadata st a n m w0) as [[] ?]; cbn [snd] in H
  | H : ids_accounted _ ?w0 |- context [clean_temp_file ?id ?w0] =>
      apply (ids_accounted_same _ _ _ (clean_temp_file_same id w0)) in H;
      destruct (clean_temp_file id w0) as [[?|?] ?]; cbn [snd] in H
  | H : ids_accounted _ ?w0 |- context [get_request ?id ?w0] =>
      apply (ids_accounted_same _ _ _ (get_request_same id w0)) in H;
      destruct (get_request id w0) as [[?|] ?]; cbn [snd] in H
  | H : ids_accounted _ ?w0 |- context [update_request ?id ?kw ?w0] =>
      apply (update_request_accounted _ id kw) in H;
      destruct (update_request id kw w0) as [? ?]; cbn [snd] in H
  end.

Section accounted.
Variable sv : services.
Implicit Types (w : world) (used : list string).

Lemma process_image_accounted used env img w :
  ids_accounted used w ->
  ids_accounted (used ++ draws (ProcessImage env img))
    (snd (process_image sv env img w)).
Proof.
  intros H. destruct img as [img|]; cbn [draws]; [|by rewrite app_nil_r].
  unfold process_image.
  apply (create_request_accounted _ (pe_uuid4 env)) in H.
  destruct (create_request (pe_uuid4 env) w) as [request_id w1]; cbn [snd] in H.
  repeat accounted_step; exact H.
Qed.

Lemma save_feedback_accounted used env request_id approved note w :
  ids_accounted used w ->
  ids_accounted used (snd (save_feedback sv env request_id approved note w)).
Proof.
  intros H. unfold save_feedback.
  repeat accounted_step; exact H.
Qed.

Lemma step_accounted used w c :
  ids_accounted used w -> ids_accounted (used ++ draws c) (step sv w c).
Proof.
  intros H. destruct c; cbn [step draws]; rewrite ?app_nil_r.
  - by apply create_request_accounted.
  - by apply update_request_accounted.
  - eapply ids_accounted_same; [apply get_request_same|done].
  - eapply ids_accounted_same; [apply clean_temp_file_same|done].
  - by apply process_image_accounted.
  - by apply save_feedback_accounted.
Qed.

Lemma run_accounted cs : forall used w,
  ids_accounted used w -> ids_accounted (used ++ all_draws cs) (run sv cs w).
Proof.
  induction cs as [|c cs IH]; intros used w H.
  - cbn. by rewrite app_nil_r.
  - cbn [run foldl]. unfold all_draws. cbn [map concat].
    rewrite app_assoc. apply IH. by apply step_accounted.
Qed.

Lemma init_accounted d fds o : ids_accounted [] (init_world d fds o).
Proof. split; [done|]. intros id [r Hr]. cbn in Hr. by rewrite lookup_empty in Hr. Qed.

End accounted.

(** ** Runs: histories *)

Section tracked.
Implicit Types (w : world) (r : gmap string value).

Lemma tracked_same request_id r w w' :
  same_tracker w w' -> tracked request_id r w -> tracked request_id r w'.
Proof.
  intros Hs [Hok Hr]. split; [by eapply history_ok_same_tracker|].
  destruct Hs as (-> & _). done.
Qed.

Lemma tracked_update request_id kwargs r w :
  record_keeps r (apply_kwargs kwargs r) ->
  tracked request_id r w ->
  tracked request_id (apply_kwargs kwargs r) (snd (update_request request_id kwargs w)).
Proof.
  intros Hk [Hok Hr]. split.
  - apply update_request_history; [|done]. intros r0 Hr0. by simplify_eq.
  - rewrite (update_request_found _ _ _ _ Hr). cbn. apply lookup_insert_eq.
Qed.

End tracked.

(** The side condition of [tracked_update] for the updates of
    [process_image]: a write-once field that the update names is still
    [None] in the record. *)
Ltac still_empty :=
  let key := fresh "key" in
  let Hw := fresh "Hw" in
  let Hin := fresh "Hin" in
  let v := fresh "v" in
  let Hv := fresh "Hv" in
  apply record_keeps_apply_kwargs; intros key Hw Hin v Hv;
  unfold write_once_fields in Hw; cbn [fmap list_fmap fst] in Hin;
  rewrite !elem_of_cons, elem_of_nil in Hw, Hin;
  destruct Hw as [->|[->|[]]]; destruct Hin as [Hin|[Hin|[]]];
  try discriminate Hin;
  unfold apply_kwargs in Hv; cbn [foldl fst snd] in Hv;
  repeat first
    [ rewrite lookup_insert_eq in Hv
    | rewrite lookup_insert_ne in Hv by discriminate ];
  vm_compute in Hv; injection Hv as <-; reflexivity.

Ltac tracked_step :=
  cbn [snd fst negb];
  match goal with
  | |- context [negb (truthy ?v)] => destruct (truthy v)
  | |- context [match slice_prefix ?n ?v with _ => _ end] =>
      destruct (slice_prefix n v)
  | H : tracked _ _ ?w0 |- context [image_save ?i ?p ?w0] =>
      apply (tracked_same _ _ _ _ (image_save_same i p w0)) in H;
      destruct (image_save i p w0) as [[[]|?] ?]; cbn [snd] in H
  | H : tracked _ _ ?w0 |- context [upload_image ?st ?a ?p ?n ?w0] =>
      apply (tracked_same _ _ _ _ (upload_image_same st a p n w0)) in H;
      destruct (upload_image st a p n w0) as [? ?]; cbn [snd] in H
  | H : tracked ?id _ ?w0 |- context [update_request ?id ?kw ?w0] =>
      apply (tracked_update id kw) in H; [|still_empty];
      destruct (update_request id kw w0) as [? ?]; cbn [snd] in H
  end.

Ltac history_step :=
  cbn [snd fst negb];
  match goal with
  | |- context [negb (truthy ?v)] => destruct (truthy v)
  | |- context [match request_field ?id ?k ?w0 with _ => _ end] =>
      destruct (request_field id k w0)
  | |- context [if bool_decide ?P then _ else _] => destruct (bool_decide P)
  | H : history_ok ?w0 |- context [save_metadata ?st ?a ?n ?m ?w0] =>
      apply (history_ok_same_tracker _ _ (save_metadata_same st a n m w0)) in H;
      destruct (save_metadata st a n m w0) as [[] ?]; cbn [snd] in H
  | H : history_ok ?w0 |- context [clean_temp_file ?id ?w0] =>
      apply (history_ok_same_tracker _ _ (clean_temp_file_same id w0)) in H;
      destruct (clean_temp_file id w0) as [[?|?] ?]; cbn [snd] in H
  | H : history_ok ?w0 |- context [get_request ?id ?w0] =>
      apply (history_ok_same_tracker _ _ (get_request_same id w0)) in H;
      destruct (get_request id w0) as [[?|] ?]; cbn [snd] in H
  | H : history_ok ?w0 |- context [update_request ?id ?kw ?w0] =>
      apply (update_request_history_other id kw) in H; [|compute_done];
      destruct (update_request id kw w0) as [? ?]; cbn [snd] in H
  end.

Section histories.
Variable sv : services.
Implicit Types (w : world) (used : list string).

Lemma process_image_history env img w :
  (forall u, u ∈ draws (ProcessImage env img) -> requests w !! u = None) ->
  history_ok w -> history_ok (snd (process_image sv env img w)).
Proof.
  intros Hfresh Hok. destruct img as [img|]; [|done].
  assert (Hf : requests w !! pe_uuid4 env = None).
  { apply Hfresh. cbn. by left. }
  assert (H : tracked (pe_uuid4 env) new_request
                (snd (create_request (pe_uuid4 env) w))).
  { split; [by apply create_request_history|]. cbn. apply lookup_insert_eq. }
  unfold process_image.
  unfold create_request in *. cbn [fst snd] in H. cbv zeta.
  repeat tracked_step; apply H.
Qed.

Lemma save_feedback_history env request_id approved note w :
  history_ok w -> history_ok (snd (save_feedback sv env request_id approved note w)).
Proof.
  intros H. unfold save_feedback.
  repeat history_step; exact H.
Qed.

Lemma step_history w c :
  is_flow c = true ->
  (forall u, u ∈ draws c -> requests w !! u = None) ->
  history_ok w -> history_ok (step sv w c).
Proof.
  destruct c; try done; intros _ Hfresh Hok; cbn [step].
  - by apply process_image_history.
  - by apply save_feedback_history.
Qed.

Lemma run_history cs : forall used w,
  Forall (fun c => is_flow c = true) cs ->
  NoDup (used ++ all_draws cs) ->
  ids_accounted used w ->
  history_ok w -> history_ok (run sv cs w).
Proof.
  induction cs as [|c cs IH]; intros used w Hflow Hnd Hacc Hok; [done|].
  apply Forall_cons in Hflow as [Hc Hflow].
  unfold all_draws in Hnd. cbn [map concat] in Hnd. rewrite app_assoc in Hnd.
  cbn [run foldl]. apply (IH (used ++ draws c)%list); [done|done|..].
  - by apply step_accounted.
  - apply step_history; [done| |done].
    intros u Hu. destruct (requests w !! u) eqn:Hr; [|done].
    destruct Hacc as [_ Hdom].
    apply NoDup_app in Hnd as [Hnd _]. apply NoDup_app in Hnd as (_ & Hdisj & _).
    destruct (Hdisj u); [|done]. apply Hdom. by rewrite Hr.
Qed.

End histories.

(** ** The claims about the flows *)

(** C5.  When the image has been saved and the storage service refuses the
    upload, [process_image] returns a message that contains "cloud
    storage"; the record is left at status [image_received] with no cloud
    key and with its temp path set; the temp file is still on disk and no
    file has been deleted. *)
Theorem process_image_upload_failure (sv : services) (env : process_env)
    (img : image) (data : string) (w : world) :
  jpeg img = Some data ->
  disk w !! image_temp_path sv env <> Some Dir ->
  put_refused (oracle_storage sv) (pe_put_accepted env) ->
  let res := process_image sv env (Some img) w in
  exists message r stored,
    fst res = Return (VNone, VStr message) /\
    contains "cloud storage" message = true /\
    requests (snd res) !! pe_uuid4 env = Some r /\
    r !! "status" = Some (VStr "image_received") /\
    r !! "cloud_path" = Some VNone /\
    r !! "temp_path" = Some (VStr (image_temp_path sv env)) /\
    disk (snd res) !! image_temp_path sv env = Some (File data stored) /\
    os_path_exists (VStr (image_temp_path sv env)) (snd res) = Return true /\
    deleted_files (tracker_log (snd res)) = deleted_files (tracker_log w) /\
    objects (snd res) = objects w.
Proof.
  intros Hjpeg Hnodir Href res.
  destruct (process_image_upload_refused sv env img data w Hjpeg Hnodir Href)
    as (stored & w' & Hres & Hreq & Hdisk & Hobj & Hlog).
  subst res. rewrite Hres. cbn [fst snd].
  eexists _, _, stored. split; [reflexivity|]. split; [reflexivity|].
  rewrite Hreq, Hdisk, Hlog, lookup_insert_eq. split; [reflexivity|].
  split_and!; try record_lookup; try done.
  - cbn. rewrite Hdisk, lookup_insert_eq. by rewrite bool_decide_eq_true_2.
  - rewrite deleted_files_app. cbn. by rewrite app_nil_r.
Qed.

(** C6.  The description client gives [None], never text, when the request
    fails in transit or the response status is not 200, and the empty
    string when a 200 response is a JSON object without [output].  In all
    these cases [process_image], once the upload has succeeded, returns
    "Failed to analyze image." and leaves the record at status
    [uploaded_to_cloud] with its cloud key set and no description. *)
Theorem describe_failure_handling (sv : services) (env : process_env)
    (img : image) (data ns b : string) (w : world) :
  jpeg img = Some data ->
  disk w !! image_temp_path sv env <> Some Dir ->
  namespace (oracle_storage sv) = Some ns ->
  bucket_name (oracle_storage sv) = Some b ->
  pe_put_accepted env = true ->
  no_text (pe_post env (describe_request (llm_service sv) (image_temp_path sv env) data)) ->
  (forall svc post path w0 file,
     read_file path w0 = Return file ->
     post (describe_request svc path file) = NetworkError ->
     analyze_image svc post path w0 = VNone) /\
  (forall svc post path w0 file status json,
     read_file path w0 = Return file ->
     post (describe_request svc path file) = Response status json ->
     status <> 200%Z ->
     analyze_image svc post path w0 = VNone) /\
  (forall svc post path w0 file result,
     read_file path w0 = Return file ->
     post (describe_request svc path file) = Response 200 (Some (VDict result)) ->
     dict_get "output" result = None ->
     analyze_image svc post path w0 = VStr "") /\
  let res := process_image sv env (Some img) w in
  exists message r,
    fst res = Return (VNone, VStr message) /\
    message = "Failed to analyze image." /\
    contains "failed to analyze image" (lower message) = true /\
    requests (snd res) !! pe_uuid4 env = Some r /\
    r !! "status" = Some (VStr "uploaded_to_cloud") /\
    r !! "cloud_path" = Some (VStr (image_filename env)) /\
    r !! "llm_description" = Some VNone.
Proof.
  intros Hjpeg Hnodir Hns Hb Hacc Hno.
  split; [apply analyze_image_network_error|].
  split; [apply analyze_image_bad_status|].
  split; [apply analyze_image_no_output|].
  destruct (process_image_no_text sv env img data w Hjpeg Hnodir ns b Hns Hb Hacc Hno)
    as (stored & w' & Hres & Hreq & _).
  cbn zeta. rewrite Hres. cbn [fst snd].
  eexists _, _. split; [reflexivity|]. split; [reflexivity|]. split; [reflexivity|].
  rewrite Hreq, lookup_insert_eq. split; [reflexivity|].
  split_and!; record_lookup.
Qed.

(** C7, as the code has it.  Every request that [analyze_image] sends is a
    form with the fields [prompt], [system_prompt], [max_tokens],
    [temperature] and [images], in this order, and the header [X-API-Key]
    carrying the key the client was constructed with.  [max_tokens] is
    the numeral 4000 and [temperature] the text 0.5.  The two prompts are
    the fixed instruction and persona texts, whatever client sends the
    request: construction chooses the URL and the key, nothing else. *)
Theorem describe_request_contract (svc : LLMService) (path file : string) :
  let req := describe_request svc path file in
  map field_name (req_form req) =
    ["prompt"; "system_prompt"; "max_tokens"; "temperature"; "images"] /\
  form_text "prompt" req = Some prompt /\
  form_text "system_prompt" req = Some system_prompt /\
  String.prefix "Describe the uploaded image in full detail" prompt = true /\
  String.prefix "You are an expert image analysis agent." system_prompt = true /\
  form_text "max_tokens" req = Some (pretty 4000%N) /\
  form_text "temperature" req = Some "0.5" /\
  form_binary "images" req = Some file /\
  header "X-API-Key" req = Some (api_key svc) /\
  req_headers req = [("X-API-Key", api_key svc)] /\
  req_url req = api_url svc /\
  (forall svc', req_form (describe_request svc' path file) = req_form req) /\
  (forall environ,
     LLMService_init environ =
       {| api_url := default "https://api.example.com/analyze" (environ !! "LLM_API_URL");
          api_key := default "" (environ !! "LLM_API_KEY") |}) /\
  (forall post post' w,
     read_file path w = Return file ->
     post req = post' req ->
     analyze_image svc post path w = analyze_image svc post' path w).
Proof.
  cbn zeta. split_and!; try reflexivity.
  intros post post' w Hf Hp. unfold analyze_image. by rewrite Hf, Hp.
Qed.

(** C7 as stated fails: no two clients, however constructed, send
    different prompts. *)
Lemma prompts_not_configurable :
  ~ exists (svc1 svc2 : LLMService) (path file : string),
      form_text "prompt" (describe_request svc1 path file) <>
      form_text "prompt" (describe_request svc2 path file) \/
      form_text "system_prompt" (describe_request svc1 path file) <>
      form_text "system_prompt" (describe_request svc2 path file).
Proof. intros (svc1 & svc2 & path & file & [H|H]); by apply H. Qed.

(** C8.  In any run of [process_image] and [save_feedback] calls in which
    [uuid4] never yields the same value twice, the successive contents of
    the tracker satisfy: once a record's [cloud_path] (or
    [llm_description]) is non-empty, the record exists with the same value
    of that field at every later point, up to and including the final
    state. *)
Theorem write_once_fields_kept (sv : services) (cs : list call)
    (d : gmap string entry) (fds : gset Z) (o : gmap object_key string) :
  Forall (fun c => is_flow c = true) cs ->
  NoDup (all_draws cs) ->
  let w := run sv cs (init_world d fds o) in
  last (snapshots w) = Some (requests w) /\
  forall (i j : nat) m m' request_id r key v,
    (i <= j)%nat ->
    snapshots w !! i = Some m ->
    snapshots w !! j = Some m' ->
    m !! request_id = Some r ->
    key = "cloud_path" \/ key = "llm_description" ->
    r !! key = Some v ->
    truthy v = true ->
    exists r', m' !! request_id = Some r' /\ r' !! key = Some v.
Proof.
  intros Hflow Hnd w.
  destruct (run_history sv cs [] (init_world d fds o) Hflow Hnd
              (init_accounted d fds o) (history_ok_init d fds o)) as [Hlast Hchain].
  split; [done|].
  intros i j m m' request_id r key v Hij Hi Hj Hr Hkey Hv Ht.
  destruct (Hchain i j m m' Hij Hi Hj request_id r Hr) as (r' & Hr' & Hk).
  exists r'. split; [done|]. apply Hk; [|done..].
  unfold write_once_fields. destruct Hkey as [-> | ->]; set_solver.
Qed.

(** ** The claims at the example inputs *)

(** C1 as stated fails.  On a record that was just created, whose
    [temp_path] was never set, [clean_temp_file] reports failure; and on a
    record whose file cannot be removed it reports failure on both of two
    calls in a row. *)
Lemma clean_temp_file_unset_fails :
  let w := snd (create_request demo_id demo_start) in
  requests w !! demo_id = Some new_request /\
  new_request !! "temp_path" = Some VNone /\
  fst (clean_temp_file demo_id w) = Return false /\
  fst (clean_temp_file demo_id w) <> Return true /\
  fst (clean_temp_file demo_id demo_locked) = Return false /\
  fst (clean_temp_file demo_id (snd (clean_temp_file demo_id demo_locked))) = Return false.
Proof.
  cbn zeta. split_and!.
  - vm_compute. reflexivity.
  - reflexivity.
  - vm_compute. reflexivity.
  - vm_compute. discriminate.
  - vm_compute. reflexivity.
  - vm_compute. reflexivity.
Qed.

(** C1 at the record of the example run: the temp file is on disk, the
    first call removes it, the second finds nothing to do. *)
Lemma clean_temp_file_idempotent_witness :
  requests demo_analyzed !! demo_id = Some demo_record /\
  demo_record !! "temp_path" = Some (VStr demo_temp_path) /\
  disk demo_analyzed !! demo_temp_path = Some (File "JFIF-bytes" true) /\
  let w1 := snd (clean_temp_file demo_id demo_analyzed) in
  let w2 := snd (clean_temp_file demo_id w1) in
  fst (clean_temp_file demo_id demo_analyzed) = Return true /\
  fst (clean_temp_file demo_id w1) = Return true /\
  disk w2 !! demo_temp_path = None /\
  w2 = w1.
Proof.
  assert (Hr : requests demo_analyzed !! demo_id = Some demo_record)
    by (vm_compute; reflexivity).
  assert (Hp : demo_record !! "temp_path" = Some (VStr demo_temp_path))
    by (vm_compute; reflexivity).
  assert (Hd : disk demo_analyzed !! demo_temp_path = Some (File "JFIF-bytes" true))
    by (vm_compute; reflexivity).
  split; [exact Hr|]. split; [exact Hp|]. split; [exact Hd|].
  destruct (clean_temp_file_idempotent demo_analyzed demo_id demo_record Hr)
    as [_ Hset].
  destruct (Hset demo_temp_path Hp ltac:(discriminate) (or_intror (ex_intro _ _ Hd)))
    as (H1 & H2 & H3 & H4 & _).
  cbn zeta. split; [exact H1|]. split; [exact H2|]. split; [exact H3|exact H4].
Defined.

(** C2 at the record of the example run, for an update of the status alone. *)
Lemma update_request_partial_witness :
  exists r',
    fst (update_request demo_id [("status", VStr "completed")] demo_analyzed) = true /\
    requests (snd (update_request demo_id [("status", VStr "completed")] demo_analyzed))
      !! demo_id = Some r' /\
    (forall key, key ∉ [("status", VStr "completed")].*1 ->
       r' !! key = demo_record !! key) /\
    (forall other, other <> demo_id ->
       requests (snd (update_request demo_id [("status", VStr "completed")] demo_analyzed))
         !! other = requests demo_analyzed !! other).
Proof.
  apply (update_request_partial demo_analyzed demo_id
           [("status", VStr "completed")] demo_record).
  vm_compute. reflexivity.
Defined.

(** C4 as stated fails on the description: the record holds what the
    endpoint answered, and [process_image] accepts any answer that is not
    empty and can be sliced.  When the endpoint answers with a list, the
    list is returned as the description and stored, and feedback persists
    a list; and feedback on a record that was never described persists
    [null]. *)
Lemma description_not_always_string :
  let key := ("tenancy", "images", demo_filename ++ ".metadata.json") in
  let w1 := snd (process_image demo_services demo_env_list (Some demo_image) demo_start) in
  let w2 := snd (save_feedback demo_services demo_feedback_env demo_id true "ok" w1) in
  let v1 := snd (process_image demo_services demo_env_llm_down (Some demo_image)
                   demo_start) in
  let v2 := snd (save_feedback demo_services demo_feedback_env demo_id true "ok" v1) in
  fst (process_image demo_services demo_env_list (Some demo_image) demo_start)
    = Return (VStr demo_id, demo_parts) /\
  (exists bytes metadata,
     objects w2 !! key = Some bytes /\
     decode_utf8 bytes ≫= json_loads = Some (VDict metadata) /\
     dict_get "description" metadata = Some demo_parts /\
     forall text, dict_get "description" metadata <> Some (VStr text)) /\
  (exists bytes metadata,
     objects v2 !! key = Some bytes /\
     decode_utf8 bytes ≫= json_loads = Some (VDict metadata) /\
     dict_get "description" metadata = Some VNone /\
     forall text, dict_get "description" metadata <> Some (VStr text)).
Proof.
  split_and!.
  - reflexivity.
  - exists (encode_utf8 (json_dumps (VDict (feedback_metadata demo_now demo_parts true "ok")))),
      (feedback_metadata demo_now demo_parts true "ok").
    split_and!; [reflexivity|by apply dumps_round_trip|reflexivity|done].
  - exists (encode_utf8 (json_dumps (VDict (feedback_metadata demo_now VNone true "ok")))),
      (feedback_metadata demo_now VNone true "ok").
    split_and!; [reflexivity|by apply dumps_round_trip|reflexivity|done].
Qed.

(** C4 for approving feedback, with a note, on a record whose description
    is a text beyond ASCII. *)
Lemma metadata_persisted_round_trip_witness :
  let w' := snd (save_feedback demo_services demo_feedback_env demo_id true
                   demo_note demo_described) in
  exists bytes timestamp,
    objects w' !! ("tenancy", "images", demo_filename ++ ".metadata.json") = Some bytes /\
    get_object (oracle_storage demo_services) (demo_filename ++ ".metadata.json") w'
      = Return bytes /\
    decode_utf8 bytes ≫= json_loads =
      Some (VDict [ ("timestamp", VStr timestamp);
                    ("description", VStr demo_text);
                    ("approved", VBool true);
                    ("note", VStr demo_note) ]) /\
    timestamp = isoformat (fe_now demo_feedback_env) /\
    iso8601 timestamp = true /\
    (forall other, other <> demo_filename ++ ".metadata.json" ->
       objects w' !! ("tenancy", "images", other) =
       objects demo_described !! ("tenancy", "images", other)).
Proof.
  apply (metadata_persisted_round_trip demo_services demo_feedback_env demo_id true
           demo_note demo_described demo_described_record demo_filename
           "tenancy" "images" (VStr demo_text)).
  - discriminate.
  - reflexivity.
  - reflexivity.
  - reflexivity.
  - reflexivity.
  - reflexivity.
  - unfold valid_datetime. cbn. lia.
  - reflexivity.
  - reflexivity.
  - reflexivity.
Defined.

(** C5 with the storage service down. *)
Lemma process_image_upload_failure_witness :
  let res := process_image demo_services demo_env_storage_down (Some demo_image)
               demo_start in
  exists message r stored,
    fst res = Return (VNone, VStr message) /\
    contains "cloud storage" message = true /\
    requests (snd res) !! pe_uuid4 demo_env_storage_down = Some r /\
    r !! "status" = Some (VStr "image_received") /\
    r !! "cloud_path" = Some VNone /\
    r !! "temp_path" =
      Some (VStr (image_temp_path demo_services demo_env_storage_down)) /\
    disk (snd res) !! image_temp_path demo_services demo_env_storage_down =
      Some (File "JFIF-bytes" stored) /\
    os_path_exists (VStr (image_temp_path demo_services demo_env_storage_down)) (snd res)
      = Return true /\
    deleted_files (tracker_log (snd res)) = deleted_files (tracker_log demo_start) /\
    objects (snd res) = objects demo_start.
Proof.
  apply (process_image_upload_failure demo_services demo_env_storage_down
           demo_image "JFIF-bytes" demo_start).
  - reflexivity.
  - vm_compute. discriminate.
  - left. reflexivity.
Defined.

(** C6 with the inference endpoint answering 503. *)
Lemma describe_failure_handling_witness :
  let res := process_image demo_services demo_env_llm_down (Some demo_image)
               demo_start in
  exists message r,
    fst res = Return (VNone, VStr message) /\
    message = "Failed to analyze image." /\
    contains "failed to analyze image" (lower message) = true /\
    requests (snd res) !! pe_uuid4 demo_env_llm_down = Some r /\
    r !! "status" = Some (VStr "uploaded_to_cloud") /\
    r !! "cloud_path" = Some (VStr (image_filename demo_env_llm_down)) /\
    r !! "llm_description" = Some VNone.
Proof.
  apply (describe_failure_handling demo_services demo_env_llm_down
           demo_image "JFIF-bytes" "tenancy" "images" demo_start).
  - reflexivity.
  - vm_compute. discriminate.
  - reflexivity.
  - reflexivity.
  - reflexivity.
  - left. discriminate.
Defined.

(** C8 on the example run: one image, then feedback given twice. *)
Lemma write_once_fields_kept_witness :
  let w := run demo_services demo_run demo_start in
  last (snapshots w) = Some (requests w) /\
  forall (i j : nat) m m' request_id r key v,
    (i <= j)%nat ->
    snapshots w !! i = Some m ->
    snapshots w !! j = Some m' ->
    m !! request_id = Some r ->
    key = "cloud_path" \/ key = "llm_description" ->
    r !! key = Some v ->
    truthy v = true ->
    exists r', m' !! request_id = Some r' /\ r' !! key = Some v.
Proof.
  apply (write_once_fields_kept demo_services demo_run ∅ ∅ ∅).
  - repeat constructor.
  - vm_compute. apply (bool_decide_unpack _). vm_compute. reflexivity.
Defined.

(** C10 at the record of the example run. *)
Lemma clean_temp_file_keeps_temp_path_witness :
  let w' := snd (clean_temp_file demo_id demo_analyzed) in
  (forall request_id' (w0 : world),
     requests (snd (clean_temp_file request_id' w0)) = requests w0) /\
  exists r p,
    requests demo_analyzed !! demo_id = Some r /\
    fst (get_request demo_id w') = Some r /\
    r !! "temp_path" = Some p /\
    truthy p = true /\
    os_path_exists p w' = Return false.
Proof.
  apply (clean_temp_file_keeps_temp_path demo_analyzed demo_id).
  vm_compute. reflexivity.
Defined.

(** ** More on the tracker *)

Section tracker_more.
Implicit Types (w : world) (r : gmap string value) (kwargs : pydict).

Lemma apply_kwargs_app kwargs1 kwargs2 r :
  apply_kwargs (kwargs1 ++ kwargs2) r = apply_kwargs kwargs2 (apply_kwargs kwargs1 r).
Proof. unfold apply_kwargs. apply foldl_app. Qed.

(** The value of a field after an update: the last assignment to it, or
    the old value when the update does not name it. *)
Lemma apply_kwargs_lookup kwargs r key :
  apply_kwargs kwargs r !! key =
    match dict_get key (rev kwargs) with
    | Some v => Some v
    | None => r !! key
    end.
Proof.
  revert r. induction kwargs as [|[k v] kwargs IH] using rev_ind; intros r; [done|].
  rewrite apply_kwargs_app, rev_app_distr. cbn.
  destruct (String.eqb_spec key k) as [->|Hne].
  - apply lookup_insert_eq.
  - rewrite lookup_insert_ne by done. apply IH.
Qed.

Lemma dict_get_rev_NoDup kwargs key v :
  NoDup kwargs.*1 -> (key, v) ∈ kwargs -> dict_get key (rev kwargs) = Some v.
Proof.
  induction kwargs as [|[k x] kwargs IH]; intros Hnd Hin.
  { by apply elem_of_nil in Hin. }
  cbn in Hnd. apply NoDup_cons in Hnd as [Hk Hnd].
  cbn [rev].
  assert (Happ : forall d1 d2, dict_get key (d1 ++ d2) =
                   match dict_get key d1 with Some y => Some y | None => dict_get key d2 end).
  { intros d1 d2. induction d1 as [|[k1 y1] d1 IHd]; [done|]. cbn.
    by destruct (String.eqb key k1). }
  rewrite Happ. apply elem_of_cons in Hin as [Heq|Hin].
  - injection Heq as -> ->.
    assert (Hnone : forall d : pydict, k ∉ d.*1 -> dict_get k d = None).
    { intros d. induction d as [|[k1 y1] d IHd]; [done|]. cbn.
      intros [Hne Hd]%not_elem_of_cons.
      destruct (String.eqb_spec k k1); [done|auto]. }
    rewrite Hnone.
    + cbn. by rewrite String.eqb_refl.
    + intros ([k' y] & -> & Hin')%list_elem_of_fmap. apply Hk.
      apply list_elem_of_In, in_rev, list_elem_of_In in Hin'.
      by apply (list_elem_of_fmap_2 fst) in Hin'.
  - by rewrite IH.
Qed.

End tracker_more.

(** X1.  After an update of an existing record by keyword arguments (whose
    names are distinct, as Python's are), [get_request] returns a record in
    which every named field has the value given for it. *)
Theorem update_then_get (w : world) (request_id : string) (kwargs : pydict)
    (r : gmap string value) :
  requests w !! request_id = Some r ->
  NoDup kwargs.*1 ->
  exists r',
    fst (get_request request_id (snd (update_request request_id kwargs w))) = Some r' /\
    forall key v, (key, v) ∈ kwargs -> r' !! key = Some v.
Proof.
  intros Hr Hnd. rewrite (update_request_found _ _ _ _ Hr). cbn [snd].
  exists (apply_kwargs kwargs r). split.
  - erewrite get_request_found; [done|]. cbn. apply lookup_insert_eq.
  - intros key v Hin. rewrite apply_kwargs_lookup.
    by rewrite (dict_get_rev_NoDup _ _ _ Hnd Hin).
Qed.

(** X2.  Two updates of a record in a row leave the tracker's records as
    one update with both lists of fields does; in particular repeating an
    update changes no record. *)
Theorem update_request_compose (w : world) (request_id : string)
    (kwargs1 kwargs2 : pydict) :
  let w1 := snd (update_request request_id kwargs1 w) in
  requests (snd (update_request request_id kwargs2 w1)) =
    requests (snd (update_request request_id (kwargs1 ++ kwargs2) w)) /\
  requests (snd (update_request request_id kwargs1 w1)) = requests w1.
Proof.
  cbn zeta. unfold update_request.
  destruct (requests w !! request_id) as [r|] eqn:Hr; cbn.
  - rewrite !lookup_insert_eq. cbn. rewrite !insert_insert_eq.
    split; [by rewrite apply_kwargs_app|].
    f_equal. apply map_eq. intros key. rewrite !apply_kwargs_lookup.
    by destruct (dict_get key (rev kwargs1)).
  - by rewrite !Hr.
Qed.

(** X3.  What the tracker does with an identifier it does not know:
    [update_request] reports [False], [get_request] gives [None] and
    [clean_temp_file] reports [False]; each only logs the identifier and
    leaves every record, the disk and the object store as they were.  An
    update succeeds exactly on the identifiers that have a record. *)
Theorem unknown_request_id (w : world) (request_id : string) (kwargs : pydict) :
  requests w !! request_id = None ->
  update_request request_id kwargs w = (false, logging (LogNotFound request_id) w) /\
  get_request request_id w = (None, logging (LogNotFound request_id) w) /\
  clean_temp_file request_id w = (Return false, logging (LogNotFound request_id) w) /\
  requests (logging (LogNotFound request_id) w) = requests w /\
  disk (logging (LogNotFound request_id) w) = disk w /\
  objects (logging (LogNotFound request_id) w) = objects w /\
  (forall other kwargs',
     fst (update_request other kwargs' w) = true <-> is_Some (requests w !! other)).
Proof.
  intros Hr. split_and!; try done.
  - unfold update_request. by rewrite Hr.
  - unfold get_request. by rewrite Hr.
  - unfold clean_temp_file, get_request. by rewrite Hr.
  - intros other kwargs'. unfold update_request.
    destruct (requests w !! other); cbn.
    + split; eauto.
    + split; [done|]. by intros [? ?].
Qed.

(** X4.  [clean_temp_file] touches no file but the one named by the
    record's [temp_path]: every other path of the disk is as before, and
    the object store is never touched. *)
Theorem clean_temp_file_only_temp_path (w : world) (request_id q : string) :
  let w' := snd (clean_temp_file request_id w) in
  objects w' = objects w /\
  (disk w' !! q = disk w !! q \/
   exists r, requests w !! request_id = Some r /\
             r !! "temp_path" = Some (VStr q) /\
             disk w' !! q = None).
Proof.
  cbn zeta. split; [apply clean_temp_file_objects|].
  unfold clean_temp_file, get_request.
  destruct (requests w !! request_id) as [r|] eqn:Hr; [|by left].
  case_bool_decide; [by left|].
  destruct (r !! "temp_path") as [p|] eqn:Hp; [|by left].
  destruct (truthy p); [|by left]. cbn [negb].
  destruct (os_path_exists p w) as [[]|]; [|by left|by left].
  unfold os_remove. destruct p as [| | |s| |]; try by left.
  destruct (disk w !! s) as [[data []|]|] eqn:Hd; try by left.
  cbn. destruct (decide (q = s)) as [->|Hne].
  - right. exists r. by rewrite lookup_delete_eq.
  - left. by rewrite lookup_delete_ne.
Qed.

(** ** More on [process_image] *)

Section process_image_more.
Variables (sv : services) (env : process_env).
Implicit Types (w : world) (img : image) (data : string).

Lemma analyze_image_read svc post path w file :
  read_file path w = Return file ->
  analyze_image svc post path w = response_text (post (describe_request svc path file)).
Proof. intros Hf. unfold analyze_image. by rewrite Hf. Qed.

(** [image_save] succeeds exactly on an image that can be written as JPEG
    to a path that is not a directory; when it fails, a file that was at
    the path is left empty. *)
Lemma image_save_cases img path w :
  (exists data, jpeg img = Some data /\ disk w !! path <> Some Dir) \/
  ((jpeg img = None \/ disk w !! path = Some Dir) /\
   image_save img path w = (Raise OSError, emptied path w)).
Proof.
  unfold image_save, emptied.
  destruct (disk w !! path) as [[old r|]|] eqn:Hd, (jpeg img) as [data|];
    first [by left; eauto | by right; auto].
Qed.

Lemma emptied_requests path w : requests (emptied path w) = requests w.
Proof. unfold emptied. by destruct (disk w !! path) as [[]|]. Qed.

Lemma emptied_objects path w : objects (emptied path w) = objects w.
Proof. unfold emptied. by destruct (disk w !! path) as [[]|]. Qed.

Lemma emptied_disk_other path w other :
  other <> path -> disk (emptied path w) !! other = disk w !! other.
Proof.
  intros Hne. unfold emptied. destruct (disk w !! path) as [[]|]; [|done..].
  cbn. by rewrite lookup_insert_ne.
Qed.

Lemma emptied_disk path w :
  disk (emptied path w) !! path =
  match disk w !! path with
  | Some (File _ removable) => Some (File "" removable)
  | other => other
  end.
Proof.
  unfold emptied. destruct (disk w !! path) as [[]|] eqn:Hd; [|done..].
  cbn. by rewrite lookup_insert_eq.
Qed.

Lemma image_save_saved img data path w :
  jpeg img = Some data -> disk w !! path <> Some Dir ->
  image_save img path w =
    (Return tt, set_disk (<[path := File data (saved_removable w path)]> (disk w)) w).
Proof.
  intros Hj Hd. unfold image_save, saved_removable. rewrite Hj.
  by destruct (disk w !! path) as [[? r|]|].
Qed.

Lemma put_object_cases st accepted :
  put_refused st accepted \/
  exists ns b, namespace st = Some ns /\ bucket_name st = Some b /\ accepted = true.
Proof.
  unfold put_refused.
  destruct (namespace st), (bucket_name st), accepted; eauto 10.
Qed.

(** The world once [process_image] has uploaded the image. *)
Lemma process_image_uploaded img data w ns b :
  jpeg img = Some data ->
  disk w !! image_temp_path sv env <> Some Dir ->
  namespace (oracle_storage sv) = Some ns ->
  bucket_name (oracle_storage sv) = Some b ->
  pe_put_accepted env = true ->
  exists w3,
    requests w3 = <[pe_uuid4 env := uploaded_record sv env]> (requests w) /\
    disk w3 = <[image_temp_path sv env :=
                  File data (saved_removable w (image_temp_path sv env))]> (disk w) /\
    objects w3 = <[(ns, b, image_filename env) := data]> (objects w) /\
    deleted_files (tracker_log w3) = deleted_files (tracker_log w) /\
    process_image sv env (Some img) w =
      let description := image_description sv env data in
      if negb (truthy description)
      then (Return (VNone, VStr "Failed to analyze image."), w3)
      else
        match slice_prefix 50 description with
        | Raise e => (Raise e, w3)
        | Return _ =>
            (Return (VStr (pe_uuid4 env), description),
             snd (update_request (pe_uuid4 env)
                    [("status", VStr "analyzed"); ("llm_description", description)] w3))
        end.
Proof.
  intros Hjpeg Hnodir Hns Hb Hacc.
  unfold process_image, create_request.
  fold (image_filename env). fold (image_temp_path sv env).
  rewrite (image_save_saved img data) by done.
  erewrite update_request_found by (world_simpl; apply lookup_insert_eq).
  rewrite Hacc.
  erewrite upload_image_accepted
    by first [exact Hns | exact Hb | exact (image_filename_truthy env) | read_saved_file].
  rewrite image_filename_truthy. cbn [negb].
  erewrite update_request_found by (world_simpl; apply lookup_insert_eq).
  erewrite analyze_image_read by read_saved_file.
  fold (image_description sv env data).
  eexists. split_and!; [..|cbn zeta].
  5: { destruct (truthy (image_description sv env data)); cbn [negb]; [|reflexivity].
       destruct (slice_prefix 50 (image_description sv env data)); [|reflexivity].
       match goal with
       | |- context [update_request ?i ?k ?w0] => by destruct (update_request i k w0)
       end. }
  - world_simpl. by rewrite !insert_insert_eq.
  - done.
  - done.
  - world_simpl. rewrite !deleted_files_app. cbn. by rewrite !app_nil_r.
Qed.

(** The world after a [process_image] that went through. *)
Lemma process_image_analyzed img data w ns b description prefix :
  jpeg img = Some data ->
  disk w !! image_temp_path sv env <> Some Dir ->
  namespace (oracle_storage sv) = Some ns ->
  bucket_name (oracle_storage sv) = Some b ->
  pe_put_accepted env = true ->
  image_description sv env data = description ->
  truthy description = true ->
  slice_prefix 50 description = Return prefix ->
  exists w4,
    process_image sv env (Some img) w = (Return (VStr (pe_uuid4 env), description), w4) /\
    requests w4 = <[pe_uuid4 env := analyzed_record sv env description]> (requests w) /\
    disk w4 = <[image_temp_path sv env :=
                  File data (saved_removable w (image_temp_path sv env))]> (disk w) /\
    objects w4 = <[(ns, b, image_filename env) := data]> (objects w) /\
    deleted_files (tracker_log w4) = deleted_files (tracker_log w).
Proof.
  intros Hjpeg Hnodir Hns Hb Hacc Hd Ht Hs.
  destruct (process_image_uploaded img data w ns b Hjpeg Hnodir Hns Hb Hacc)
    as (w3 & Hreq & Hdisk & Hobj & Hlog & ->).
  cbn zeta. rewrite Hd, Ht, Hs. cbn [negb].
  assert (Hr3 : requests w3 !! pe_uuid4 env = Some (uploaded_record sv env))
    by (rewrite Hreq; apply lookup_insert_eq).
  rewrite (update_request_found _ _ _ _ Hr3). cbn [snd].
  eexists. split; [reflexivity|]. world_simpl. split_and!; try done.
  - rewrite Hreq. by rewrite insert_insert_eq.
  - rewrite deleted_files_app, Hlog. cbn. by rewrite app_nil_r.
Qed.

End process_image_more.

Ltac flow_record_lookup :=
  unfold analyzed_record, uploaded_record, received_record; record_lookup.

(** X5.  The happy path of [process_image]: the image can be saved, the
    storage service takes it and the endpoint answers with a non-empty
    text.  The call returns the new identifier with the text; the record is
    at status [analyzed] with its temp path, cloud key and description set
    and no feedback yet; the temp file is on disk; the image bytes are in
    the bucket under the generated file name, where the browser's
    [get_image] finds them. *)
Theorem process_image_success (sv : services) (env : process_env) (img : image)
    (data ns b text : string) (w : world) :
  jpeg img = Some data ->
  disk w !! image_temp_path sv env <> Some Dir ->
  namespace (oracle_storage sv) = Some ns ->
  bucket_name (oracle_storage sv) = Some b ->
  pe_put_accepted env = true ->
  image_description sv env data = VStr text ->
  text <> "" ->
  let res := process_image sv env (Some img) w in
  exists r stored,
    fst res = Return (VStr (pe_uuid4 env), VStr text) /\
    requests (snd res) !! pe_uuid4 env = Some r /\
    r !! "status" = Some (VStr "analyzed") /\
    r !! "temp_path" = Some (VStr (image_temp_path sv env)) /\
    r !! "cloud_path" = Some (VStr (image_filename env)) /\
    r !! "llm_description" = Some (VStr text) /\
    r !! "user_feedback" = Some VNone /\
    r !! "user_note" = Some VNone /\
    disk (snd res) !! image_temp_path sv env = Some (File data stored) /\
    objects (snd res) = <[(ns, b, image_filename env) := data]> (objects w) /\
    get_image (oracle_storage sv) (image_filename env) (snd res) =
      Return (data, "image/webp").
Proof.
  intros Hjpeg Hnodir Hns Hb Hacc Htext Hne res.
  destruct (process_image_analyzed sv env img data w ns b (VStr text)
              (VStr (text_prefix 50 text)) Hjpeg Hnodir Hns Hb Hacc Htext)
    as (w4 & Hres & Hreq & Hdisk & Hobj & _); [by apply truthy_VStr|done|].
  subst res. rewrite Hres. cbn [fst snd].
  exists (analyzed_record sv env (VStr text)),
         (saved_removable w (image_temp_path sv env)).
  split_and!.
  - reflexivity.
  - rewrite Hreq. apply lookup_insert_eq.
  - flow_record_lookup.
  - flow_record_lookup.
  - flow_record_lookup.
  - flow_record_lookup.
  - flow_record_lookup.
  - flow_record_lookup.
  - rewrite Hdisk. apply lookup_insert_eq.
  - exact Hobj.
  - unfold get_image, get_object. by rewrite Hns, Hb, Hobj, lookup_insert_eq.
Qed.

(** X6.  What a result of [process_image] tells the caller.  If the call
    returns an identifier, it is the one drawn for this call, the
    description returned with it is non-empty, and the record under the
    identifier is at status [analyzed] and holds that description and the
    cloud key under which the image bytes are in the bucket.  If it returns
    no identifier, the message is one of the three failure texts. *)
Theorem process_image_result (sv : services) (env : process_env)
    (img : option image) (w : world) (first second : value) :
  fst (process_image sv env img w) = Return (first, second) ->
  (first <> VNone ->
     first = VStr (pe_uuid4 env) /\
     truthy second = true /\
     exists r data ns b,
       requests (snd (process_image sv env img w)) !! pe_uuid4 env = Some r /\
       r !! "status" = Some (VStr "analyzed") /\
       r !! "llm_description" = Some second /\
       r !! "cloud_path" = Some (VStr (image_filename env)) /\
       namespace (oracle_storage sv) = Some ns /\
       bucket_name (oracle_storage sv) = Some b /\
       objects (snd (process_image sv env img w)) !! (ns, b, image_filename env)
         = Some data) /\
  (first = VNone ->
     second = VStr "Please upload an image or take a photo." \/
     second = VStr "Failed to upload image to cloud storage." \/
     second = VStr "Failed to analyze image.").
Proof.
  destruct img as [img|]; [|cbn; intros [= <- <-]; split; [done|auto]].
  destruct (image_save_cases img (image_temp_path sv env)
              (snd (create_request (pe_uuid4 env) w)))
    as [(data & Hjpeg & Hnodir)|[_ Hfail]].
  2: { unfold process_image. unfold create_request in *. cbn [fst snd] in *.
       fold (image_filename env). fold (image_temp_path sv env).
       by rewrite Hfail. }
  cbn in Hnodir.
  destruct (put_object_cases (oracle_storage sv) (pe_put_accepted env))
    as [Href|(ns & b & Hns & Hb & Hacc)].
  - destruct (process_image_upload_refused sv env img data w Hjpeg Hnodir Href)
      as (stored & w' & -> & _). cbn. intros [= <- <-]. split; [done|auto].
  - destruct (process_image_uploaded sv env img data w ns b Hjpeg Hnodir Hns Hb Hacc)
      as (w3 & Hreq & Hdisk & Hobj & _ & ->). cbn zeta.
    destruct (truthy (image_description sv env data)) eqn:Ht; cbn [negb].
    + destruct (slice_prefix 50 (image_description sv env data)); [|done].
      cbn [fst snd]. intros [= <- <-]. split; [|done]. intros _.
      split; [done|]. split; [done|].
      assert (Hr3 : requests w3 !! pe_uuid4 env = Some (uploaded_record sv env))
        by (rewrite Hreq; apply lookup_insert_eq).
      rewrite (update_request_found _ _ _ _ Hr3). cbn [snd].
      exists (analyzed_record sv env (image_description sv env data)), data, ns, b.
      split_and!; try flow_record_lookup; try done.
      * cbn. apply lookup_insert_eq.
      * cbn. rewrite Hobj. apply lookup_insert_eq.
    + cbn. intros [= <- <-]. split; [done|auto].
Qed.

(** X7.  When the image cannot be saved (its mode cannot be written as
    JPEG, or the temp path is a directory), [process_image] raises the
    error of [save]: nothing is returned, and the record created for the
    submission stays behind at status [created]; the bucket is untouched.
    On disk nothing changes except that a file which was already at the
    temp path is left empty: [save] had opened it for writing. *)
Theorem process_image_save_failure (sv : services) (env : process_env)
    (img : image) (w : world) :
  jpeg img = None \/ disk w !! image_temp_path sv env = Some Dir ->
  let res := process_image sv env (Some img) w in
  fst res = Raise OSError /\
  requests (snd res) = <[pe_uuid4 env := new_request]> (requests w) /\
  objects (snd res) = objects w /\
  (forall path, path <> image_temp_path sv env ->
     disk (snd res) !! path = disk w !! path) /\
  (forall old removable,
     disk w !! image_temp_path sv env = Some (File old removable) ->
     disk (snd res) !! image_temp_path sv env = Some (File "" removable)) /\
  (disk w !! image_temp_path sv env = Some Dir \/
   disk w !! image_temp_path sv env = None ->
   disk (snd res) = disk w).
Proof.
  intros Hbad. cbn zeta.
  destruct (image_save_cases img (image_temp_path sv env)
              (snd (create_request (pe_uuid4 env) w)))
    as [(data & Hjpeg & Hnodir)|[_ Hfail]].
  { cbn in Hnodir. destruct Hbad; congruence. }
  unfold process_image. unfold create_request in *. cbn [fst snd] in *.
  fold (image_filename env). fold (image_temp_path sv env).
  rewrite Hfail. cbn [fst snd]. split_and!.
  - reflexivity.
  - by rewrite emptied_requests.
  - by rewrite emptied_objects.
  - intros path Hne. by rewrite emptied_disk_other.
  - intros old removable Hd. rewrite emptied_disk. cbn. by rewrite Hd.
  - intros Hd. unfold emptied. cbn. by destruct Hd as [-> | ->].
Qed.

(** X8.  When the endpoint's [output] is not empty but cannot be sliced (a
    non-zero number, or [true]), the log line that quotes its first 50
    characters raises: [process_image] ends in a [TypeError] after the
    upload, with the record at [uploaded_to_cloud], no description stored
    and the image already in the bucket. *)
Theorem process_image_unsliceable_output (sv : services) (env : process_env)
    (img : image) (data ns b : string) (w : world) :
  jpeg img = Some data ->
  disk w !! image_temp_path sv env <> Some Dir ->
  namespace (oracle_storage sv) = Some ns ->
  bucket_name (oracle_storage sv) = Some b ->
  pe_put_accepted env = true ->
  (exists z, image_description sv env data = VInt z /\ z <> 0%Z) \/
  image_description sv env data = VBool true ->
  let res := process_image sv env (Some img) w in
  fst res = Raise TypeError /\
  requests (snd res) !! pe_uuid4 env = Some (uploaded_record sv env) /\
  uploaded_record sv env !! "status" = Some (VStr "uploaded_to_cloud") /\
  uploaded_record sv env !! "llm_description" = Some VNone /\
  objects (snd res) !! (ns, b, image_filename env) = Some data.
Proof.
  intros Hjpeg Hnodir Hns Hb Hacc Hout res.
  destruct (process_image_uploaded sv env img data w ns b Hjpeg Hnodir Hns Hb Hacc)
    as (w3 & Hreq & Hdisk & Hobj & _ & Hres).
  subst res. rewrite Hres. cbn zeta.
  assert (Hraise : negb (truthy (image_description sv env data)) = false /\
                   slice_prefix 50 (image_description sv env data) = Raise TypeError).
  { destruct Hout as [(z & -> & Hz)| ->]; [|done]. cbn.
    by destruct (Z.eqb_spec z 0). }
  destruct Hraise as [-> ->]. cbn [fst snd].
  rewrite Hreq, Hobj, !lookup_insert_eq.
  split_and!; try flow_record_lookup; done.
Qed.

(** ** Records of other submissions *)

Section others.
Implicit Types (w : world).

Lemma update_request_other request_id kwargs w other :
  other <> request_id ->
  requests (snd (update_request request_id kwargs w)) !! other = requests w !! other.
Proof.
  intros Hne. unfold update_request.
  destruct (requests w !! request_id); cbn; [|done]. by rewrite lookup_insert_ne.
Qed.

Lemma same_tracker_lookup w w' other :
  same_tracker w w' -> requests w' !! other = requests w !! other.
Proof. by intros (-> & _). Qed.

End others.

(** One primitive call further along a flow, carrying the record of
    another submission. *)
Ltac other_step Hne :=
  cbn [snd fst negb];
  match goal with
  | |- context [negb (truthy ?v)] => destruct (truthy v)
  | |- context [match slice_prefix ?n ?v with _ => _ end] =>
      destruct (slice_prefix n v)
  | |- context [match request_field ?id ?k ?w0 with _ => _ end] =>
      destruct (request_field id k w0)
  | |- context [if bool_decide ?P then _ else _] => destruct (bool_decide P)
  | H : requests ?w0 !! _ = _ |- context [image_save ?i ?p ?w0] =>
      rewrite <- (same_tracker_lookup _ _ _ (image_save_same i p w0)) in H;
      destruct (image_save i p w0) as [[[]|?] ?]; cbn [snd] in H
  | H : requests ?w0 !! _ = _ |- context [upload_image ?st ?a ?p ?n ?w0] =>
      rewrite <- (same_tracker_lookup _ _ _ (upload_image_same st a p n w0)) in H;
      destruct (upload_image st a p n w0) as [? ?]; cbn [snd] in H
  | H : requests ?w0 !! _ = _ |- context [save_metadata ?st ?a ?n ?m ?w0] =>
      rewrite <- (same_tracker_lookup _ _ _ (save_metadata_same st a n m w0)) in H;
      destruct (save_metadata st a n m w0) as [[] ?]; cbn [snd] in H
  | H : requests ?w0 !! _ = _ |- context [clean_temp_file ?id ?w0] =>
      rewrite <- (same_tracker_lookup _ _ _ (clean_temp_file_same id w0)) in H;
      destruct (clean_temp_file id w0) as [[?|?] ?]; cbn [snd] in H
  | H : requests ?w0 !! _ = _ |- context [get_request ?id ?w0] =>
      rewrite <- (same_tracker_lookup _ _ _ (get_request_same id w0)) in H;
      destruct (get_request id w0) as [[?|] ?]; cbn [snd] in H
  | H : requests ?w0 !! _ = _ |- context [update_request ?id ?kw ?w0] =>
      rewrite <- (update_request_other id kw w0 _ Hne) in H;
      destruct (update_request id kw w0) as [? ?]; cbn [snd] in H
  end.

(** X9.  Neither flow touches the record of another submission: after
    [process_image] every record except the one under the identifier drawn
    for the call is as before, and after [save_feedback] every record
    except the one the feedback is for is as before. *)
Theorem flows_leave_other_records (sv : services) (w : world) (other : string)
    (penv : process_env) (img : option image)
    (fenv : feedback_env) (request_id : string) (approved : bool) (note : string) :
  other <> pe_uuid4 penv ->
  other <> request_id ->
  requests (snd (process_image sv penv img w)) !! other = requests w !! other /\
  requests (snd (save_feedback sv fenv request_id approved note w)) !! other =
    requests w !! other.
Proof.
  intros Hne1 Hne2. split.
  - destruct img as [img|]; [|done].
    unfold process_image.
    assert (H : requests (snd (create_request (pe_uuid4 penv) w)) !! other
                = requests w !! other) by (cbn; by rewrite lookup_insert_ne).
    destruct (create_request (pe_uuid4 penv) w) as [id w1] eqn:Hc.
    assert (id = pe_uuid4 penv) as -> by (by injection Hc as <- _).
    cbn [snd] in H.
    repeat other_step Hne1; exact H.
  - unfold save_feedback.
    set (x := requests w !! other).
    assert (H : requests w !! other = x) by done. clearbody x.
    repeat other_step Hne2; exact H.
Qed.

(** ** Invariants of the tracker's contents *)

Section closed.
Variable P : gmap string (gmap string value) -> Prop.
Hypothesis Hclosed : update_closed P.
Implicit Types (w : world).

Lemma update_request_closed request_id kwargs w :
  P (requests w) -> P (requests (snd (update_request request_id kwargs w))).
Proof.
  intros HP. unfold update_request.
  destruct (requests w !! request_id) as [r|] eqn:Hr; cbn; [|done].
  by apply Hclosed.
Qed.

Lemma same_tracker_closed w w' : same_tracker w w' -> P (requests w) -> P (requests w').
Proof. by intros (-> & _). Qed.

End closed.

(** One primitive call further along a flow, carrying a property of the
    tracker's contents that updates cannot break. *)
Ltac closed_step Hclosed :=
  cbn [snd fst negb];
  match goal with
  | |- context [negb (truthy ?v)] => destruct (truthy v)
  | |- context [match slice_prefix ?n ?v with _ => _ end] =>
      destruct (slice_prefix n v)
  | |- context [match request_field ?id ?k ?w0 with _ => _ end] =>
      destruct (request_field id k w0)
  | |- context [if bool_decide ?Q then _ else _] => destruct (bool_decide Q)
  | H : _ (requests ?w0) |- context [image_save ?i ?p ?w0] =>
      apply (same_tracker_closed _ _ _ (image_save_same i p w0)) in H;
      destruct (image_save i p w0) as [[[]|?] ?]; cbn [snd] in H
  | H : _ (requests ?w0) |- context [upload_image ?st ?a ?p ?n ?w0] =>
      apply (same_tracker_closed _ _ _ (upload_image_same st a p n w0)) in H;
      destruct (upload_image st a p n w0) as [? ?]; cbn [snd] in H
  | H : _ (requests ?w0) |- context [save_metadata ?st ?a ?n ?m ?w0] =>
      apply (same_tracker_closed _ _ _ (save_metadata_same st a n m w0)) in H;
      destruct (save_metadata st a n m w0) as [[] ?]; cbn [snd] in H
  | H : _ (requests ?w0) |- context [clean_temp_file ?id ?w0] =>
      apply (same_tracker_closed _ _ _ (clean_temp_file_same id w0)) in H;
      destruct (clean_temp_file id w0) as [[?|?] ?]; cbn [snd] in H
  | H : _ (requests ?w0) |- context [get_request ?id ?w0] =>
      apply (same_tracker_closed _ _ _ (get_request_same id w0)) in H;
      destruct (get_request id w0) as [[?|] ?]; cbn [snd] in H
  | H : _ (requests ?w0) |- context [update_request ?id ?kw ?w0] =>
      apply (update_request_closed _ Hclosed id kw) in H;
      destruct (update_request id kw w0) as [? ?]; cbn [snd] in H
  end.

Section closed_flows.
Variable sv : services.
Variable P : gmap string (gmap string value) -> Prop.
Hypothesis Hclosed : update_closed P.
Implicit Types (w : world).

(** After its [create_request], [process_image] changes the tracker only
    by updates of existing records. *)
Lemma process_image_closed env img w :
  P (<[pe_uuid4 env := new_request]> (requests w)) ->
  P (requests (snd (process_image sv env (Some img) w))).
Proof.
  intros H. unfold process_image.
  change (<[pe_uuid4 env := new_request]> (requests w))
    with (requests (snd (create_request (pe_uuid4 env) w))) in H.
  destruct (create_request (pe_uuid4 env) w) as [request_id w1]. cbn [snd] in H.
  repeat closed_step Hclosed; exact H.
Qed.

(** [save_feedback] changes the tracker only by updates of existing
    records. *)
Lemma save_feedback_closed env request_id approved note w :
  P (requests w) ->
  P (requests (snd (save_feedback sv env request_id approved note w))).
Proof.
  intros H. unfold save_feedback.
  repeat closed_step Hclosed; exact H.
Qed.

Hypothesis Hcreate : forall m uuid4, P m -> P (<[uuid4 := new_request]> m).

Lemma step_closed w c : P (requests w) -> P (requests (step sv w c)).
Proof.
  intros H. destruct c as [u|id kw|id|id|env [img|]|env id a n]; cbn [step].
  - cbn. by apply Hcreate.
  - by apply update_request_closed.
  - by eapply same_tracker_closed; [apply get_request_same|].
  - by eapply same_tracker_closed; [apply clean_temp_file_same|].
  - apply process_image_closed. by apply Hcreate.
  - done.
  - by apply save_feedback_closed.
Qed.

Lemma run_closed cs : forall w, P (requests w) -> P (requests (run sv cs w)).
Proof.
  induction cs as [|c cs IH]; intros w H; [done|].
  cbn [run foldl]. apply IH. by apply step_closed.
Qed.

End closed_flows.

Section record_ids.
Variable sv : services.
Implicit Types (w : world).

Lemma present_update_closed request_id :
  update_closed (fun m => is_Some (m !! request_id)).
Proof.
  intros m id r kwargs Hr H. destruct (decide (request_id = id)) as [->|Hne].
  - rewrite lookup_insert_eq. eauto.
  - by rewrite lookup_insert_ne.
Qed.

Lemma present_create request_id (m : gmap string (gmap string value)) uuid4 :
  is_Some (m !! request_id) -> is_Some (<[uuid4 := new_request]> m !! request_id).
Proof.
  intros H. destruct (decide (request_id = uuid4)) as [->|Hne].
  - rewrite lookup_insert_eq. eauto.
  - by rewrite lookup_insert_ne.
Qed.

Lemma run_keeps_record cs w request_id :
  is_Some (requests w !! request_id) ->
  is_Some (requests (run sv cs w) !! request_id).
Proof.
  apply (run_closed sv (fun m => is_Some (m !! request_id))).
  - apply present_update_closed.
  - intros m u. apply present_create.
Qed.

Lemma step_creates w c request_id :
  request_id ∈ draws c -> is_Some (requests (step sv w c) !! request_id).
Proof.
  destruct c as [u|id kw|id|id|env [img|]|env id a n]; cbn [draws];
    try (by intros ?%elem_of_nil); intros ->%list_elem_of_singleton; cbn [step].
  - cbn. rewrite lookup_insert_eq. eauto.
  - apply (process_image_closed sv (fun m => is_Some (m !! pe_uuid4 env))).
    + apply present_update_closed.
    + rewrite lookup_insert_eq. eauto.
Qed.

Lemma run_creates cs : forall w request_id,
  request_id ∈ all_draws cs -> is_Some (requests (run sv cs w) !! request_id).
Proof.
  induction cs as [|c cs IH]; intros w request_id Hin.
  { by apply elem_of_nil in Hin. }
  unfold all_draws in Hin. cbn [map concat] in Hin.
  apply elem_of_app in Hin as [Hin|Hin]; cbn [run foldl].
  - apply run_keeps_record. by apply step_creates.
  - by apply IH.
Qed.

End record_ids.

(** X10.  Records are never removed.  Whatever calls are made, a record
    that exists keeps existing; and in a run from the start of the
    program the tracker holds a record under an identifier exactly when
    [create_request] has drawn that identifier. *)
Theorem records_never_removed (sv : services) (cs : list call) (w : world)
    (request_id : string) :
  is_Some (requests w !! request_id) ->
  is_Some (requests (run sv cs w) !! request_id) /\
  (forall d fds o other,
     is_Some (requests (run sv cs (init_world d fds o)) !! other) <->
     other ∈ all_draws cs).
Proof.
  intros Hr. split; [by apply run_keeps_record|].
  intros d fds o other. split.
  - destruct (run_accounted sv cs [] _ (init_accounted d fds o)) as [_ Hdom].
    apply Hdom.
  - apply run_creates.
Qed.



Section complete.
Variable sv : services.
Implicit Types (w : world).

Lemma apply_kwargs_is_Some kwargs (r : gmap string value) key :
  is_Some (r !! key) -> is_Some (apply_kwargs kwargs r !! key).
Proof.
  intros H. rewrite apply_kwargs_lookup.
  destruct (dict_get key (rev kwargs)); eauto.
Qed.

Lemma records_complete_update_closed : update_closed records_complete.
Proof.
  intros m id r kwargs Hr Hm id' r' key Hr' Hkey.
  destruct (decide (id' = id)) as [->|Hne].
  - rewrite lookup_insert_eq in Hr'. injection Hr' as <-.
    apply apply_kwargs_is_Some. eauto.
  - rewrite lookup_insert_ne in Hr' by done. eauto.
Qed.

Lemma new_request_complete key : key ∈ record_fields -> is_Some (new_request !! key).
Proof.
  unfold record_fields. rewrite !elem_of_cons, elem_of_nil.
  intros [->|[->|[->|[->|[->|[->|[]]]]]]]; vm_compute; eauto.
Qed.

Lemma records_complete_create (m : gmap string (gmap string value)) uuid4 :
  records_complete m -> records_complete (<[uuid4 := new_request]> m).
Proof.
  intros Hm id r key Hr Hkey. destruct (decide (id = uuid4)) as [->|Hne].
  - rewrite lookup_insert_eq in Hr. injection Hr as <-. by apply new_request_complete.
  - rewrite lookup_insert_ne in Hr by done. eauto.
Qed.

Lemma run_complete cs w :
  records_complete (requests w) -> records_complete (requests (run sv cs w)).
Proof.
  apply (run_closed sv records_complete).
  - apply records_complete_update_closed.
  - apply records_complete_create.
Qed.

Lemma clean_temp_file_returns request_id w :
  records_complete (requests w) ->
  exists ok, fst (clean_temp_file request_id w) = Return ok.
Proof.
  intros Hc. unfold clean_temp_file, get_request.
  destruct (requests w !! request_id) as [r|] eqn:Hr; [|eauto].
  case_bool_decide; [eauto|].
  destruct (Hc request_id r "temp_path" Hr) as [p ->]; [compute_done|].
  destruct (truthy p); cbn [negb]; [|eauto].
  destruct (os_path_exists p w) as [[]|]; [|eauto..].
  destruct (os_remove p w) as [[] ?]; eauto.
Qed.

Lemma save_feedback_returns env request_id approved note w :
  records_complete (requests w) ->
  exists message, fst (save_feedback sv env request_id approved note w) = Return message.
Proof.
  intros Hc. unfold save_feedback.
  destruct (truthy (VStr request_id)); cbn [negb]; [|eauto].
  unfold get_request.
  destruct (requests w !! request_id) as [r|] eqn:Hr; [|eauto].
  case_bool_decide; [eauto|].
  rewrite (update_request_found _ _ _ _ Hr).
  set (kwargs := [("status", VStr "feedback_received");
                  ("user_feedback", VBool approved); ("user_note", VStr note)]).
  set (w1 := logging _ _).
  assert (Hc1 : records_complete (requests w1)).
  { subst w1. apply (records_complete_update_closed _ _ _ kwargs Hr Hc). }
  assert (Hr1 : requests w1 !! request_id = Some (apply_kwargs kwargs r)).
  { subst w1. cbn. apply lookup_insert_eq. }
  unfold request_field. rewrite Hr1.
  destruct (Hc1 _ _ "llm_description" Hr1) as [description ->]; [compute_done|].
  destruct (Hc1 _ _ "cloud_path" Hr1) as [cloud_path ->]; [compute_done|].
  match goal with
  | |- context [save_metadata ?st ?a ?n ?m w1] =>
      pose proof (save_metadata_same st a n m w1) as Hs;
      destruct (save_metadata st a n m w1) as [[] w2]
  end; cbn [snd negb] in *; [|eauto].
  apply (same_tracker_closed records_complete) in Hs; [|done].
  destruct (clean_temp_file_returns request_id w2 Hs) as [ok Hok].
  destruct (clean_temp_file request_id w2) as [[?|?] w3]; [|done].
  destruct (update_request request_id _ w3). eauto.
Qed.

End complete.

(** X11.  In every state the program can reach, each record has all six
    keys it was created with (updates only add or replace keys), so the
    lookups of [clean_temp_file] and [save_feedback] cannot fail: neither
    function ever raises. *)
Theorem no_key_error (sv : services) (cs : list call)
    (d : gmap string entry) (fds : gset Z) (o : gmap object_key string) :
  let w := run sv cs (init_world d fds o) in
  (forall request_id r key,
     requests w !! request_id = Some r -> key ∈ record_fields -> is_Some (r !! key)) /\
  (forall request_id, exists ok, fst (clean_temp_file request_id w) = Return ok) /\
  (forall env request_id approved note,
     exists message,
       fst (save_feedback sv env request_id approved note w) = Return message).
Proof.
  cbn zeta.
  assert (Hc : records_complete (requests (run sv cs (init_world d fds o)))).
  { apply run_complete. intros id r key Hr. cbn in Hr. by rewrite lookup_empty in Hr. }
  split_and!.
  - apply Hc.
  - intros. by apply clean_temp_file_returns.
  - intros. by apply save_feedback_returns.
Qed.

(** ** More on [save_feedback] *)

Section save_feedback_more.
Variables (sv : services) (env : feedback_env).
Variables (request_id : string) (approved : bool) (note : string).
Variable w : world.
Variables (r : gmap string value) (cloud_path description : value).
Hypothesis Hid : request_id <> "".
Hypothesis Hr : requests w !! request_id = Some r.
Hypothesis Hkey : r !! "cloud_path" = Some cloud_path.
Hypothesis Hdesc : r !! "llm_description" = Some description.

(** The world once [save_feedback] has recorded the feedback. *)
Lemma save_feedback_recorded :
  exists w1,
    requests w1 = <[request_id := feedback_record approved note r]> (requests w) /\
    snapshots w1 = (snapshots w ++ [requests w1])%list /\
    disk w1 = disk w /\ objects w1 = objects w /\ open_fds w1 = open_fds w /\
    deleted_files (tracker_log w1) = deleted_files (tracker_log w) /\
    save_feedback sv env request_id approved note w =
      let '(success, w2) :=
        save_metadata (oracle_storage sv) (fe_put_accepted env) cloud_path
          (feedback_metadata (fe_now env) description approved note) w1 in
      if negb success
      then (Return "Failed to save feedback to cloud storage.", w2)
      else
        match clean_temp_file request_id w2 with
        | (Raise e, w3) => (Raise e, w3)
        | (Return _, w3) =>
            let '(_, w4) := update_request request_id [("status", VStr "completed")] w3 in
            (Return (if approved
                     then "Thank you for your feedback!"
                     else "Thank you for your feedback. We'll improve our descriptions."),
             w4)
        end.
Proof.
  eexists. split_and!; [..|unfold save_feedback].
  7: { rewrite truthy_VStr by done. cbn [negb].
       rewrite (get_request_found _ _ _ Hr).
       rewrite bool_decide_eq_false_2 by (intros ->; by rewrite lookup_empty in Hkey).
       rewrite (update_request_found _ _ _ _ Hr).
       unfold request_field. world_simpl. rewrite lookup_insert_eq.
       rewrite !apply_kwargs_frame by compute_done. rewrite Hdesc, Hkey.
       reflexivity. }
  all: try reflexivity.
  cbn. rewrite deleted_files_app. cbn. by rewrite app_nil_r.
Qed.

End save_feedback_more.

(** The world after a [save_feedback] that went through. *)
Lemma save_feedback_completes (sv : services) (env : feedback_env)
    (request_id : string) (approved : bool) (note : string) (w : world)
    (r : gmap string value) (p ns b : string) (cloud_path description : value) :
  request_id <> "" ->
  requests w !! request_id = Some r ->
  r !! "cloud_path" = Some cloud_path ->
  r !! "llm_description" = Some description ->
  r !! "temp_path" = Some (VStr p) -> p <> "" ->
  (disk w !! p = None \/ exists data, disk w !! p = Some (File data true)) ->
  namespace (oracle_storage sv) = Some ns ->
  bucket_name (oracle_storage sv) = Some b ->
  fe_put_accepted env = true ->
  exists w4,
    save_feedback sv env request_id approved note w =
      (Return (if approved
               then "Thank you for your feedback!"
               else "Thank you for your feedback. We'll improve our descriptions."),
       w4) /\
    requests w4 = <[request_id := completed_record approved note r]> (requests w) /\
    disk w4 = delete p (disk w) /\
    objects w4 =
      <[(ns, b, py_str cloud_path ++ ".metadata.json") :=
          encode_utf8 (json_dumps (VDict
            (feedback_metadata (fe_now env) description approved note)))]> (objects w).
Proof.
  intros Hid Hr Hkey Hdesc Hp Hne Hfile Hns Hb Hacc.
  destruct (save_feedback_recorded sv env request_id approved note w r
              cloud_path description Hid Hr Hkey Hdesc)
    as (w1 & Hreq1 & _ & Hdisk1 & Hobj1 & _ & _ & Hres).
  rewrite Hres. unfold save_metadata. rewrite Hacc.
  rewrite (put_object_accepted _ _ _ _ _ _ Hns Hb). cbn [negb].
  set (w2 := set_objects _ w1).
  assert (Hr2 : requests w2 !! request_id = Some (feedback_record approved note r)).
  { subst w2. cbn. rewrite Hreq1. apply lookup_insert_eq. }
  assert (Hp2 : feedback_record approved note r !! "temp_path" = Some (VStr p)).
  { unfold feedback_record. by rewrite apply_kwargs_frame by compute_done. }
  assert (Hclean : exists w3,
            clean_temp_file request_id w2 = (Return true, w3) /\
            requests w3 = requests w2 /\ objects w3 = objects w2 /\
            disk w3 = delete p (disk w)).
  { destruct Hfile as [Hd|[data Hd]].
    - exists w2. rewrite (clean_temp_file_absent _ _ _ _ Hr2 Hp2 Hne)
        by (subst w2; cbn; by rewrite Hdisk1).
      split_and!; try done. subst w2. cbn. rewrite Hdisk1.
      by rewrite delete_id.
    - eexists. rewrite (clean_temp_file_present _ _ _ _ data Hr2 Hp2 Hne)
        by (subst w2; cbn; by rewrite Hdisk1).
      split_and!; try done. subst w2. cbn. by rewrite Hdisk1. }
  destruct Hclean as (w3 & -> & Hreq3 & Hobj3 & Hdisk3).
  rewrite (update_request_found w3 _ _ (feedback_record approved note r))
    by (by rewrite Hreq3).
  eexists. split; [reflexivity|]. world_simpl. split_and!.
  - rewrite Hreq3. subst w2. cbn. rewrite Hreq1. by rewrite insert_insert_eq.
  - exact Hdisk3.
  - rewrite Hobj3. subst w2. cbn. by rewrite Hobj1.
Qed.

(** X12.  Feedback on a described image whose temp file can be cleaned up
    (it is removable, or already gone), with the storage service taking
    the metadata: [save_feedback] thanks the user in the words for the
    given decision; the record ends at status [completed] with the decision
    and the note stored and its temp path, cloud key and description
    unchanged; the temp file is no longer on disk, no other file is
    touched; the bucket gains exactly the metadata object. *)
Theorem save_feedback_success (sv : services) (env : feedback_env)
    (request_id : string) (approved : bool) (note : string) (w : world)
    (r : gmap string value) (p ns b : string) (cloud_path description : value) :
  request_id <> "" ->
  requests w !! request_id = Some r ->
  r !! "cloud_path" = Some cloud_path ->
  r !! "llm_description" = Some description ->
  r !! "temp_path" = Some (VStr p) -> p <> "" ->
  (disk w !! p = None \/ exists data, disk w !! p = Some (File data true)) ->
  namespace (oracle_storage sv) = Some ns ->
  bucket_name (oracle_storage sv) = Some b ->
  fe_put_accepted env = true ->
  let res := save_feedback sv env request_id approved note w in
  exists r',
    fst res = Return (if approved
                      then "Thank you for your feedback!"
                      else "Thank you for your feedback. We'll improve our descriptions.") /\
    requests (snd res) = <[request_id := r']> (requests w) /\
    r' !! "status" = Some (VStr "completed") /\
    r' !! "user_feedback" = Some (VBool approved) /\
    r' !! "user_note" = Some (VStr note) /\
    r' !! "temp_path" = Some (VStr p) /\
    r' !! "cloud_path" = Some cloud_path /\
    r' !! "llm_description" = Some description /\
    disk (snd res) = delete p (disk w) /\
    objects (snd res) =
      <[(ns, b, py_str cloud_path ++ ".metadata.json") :=
          encode_utf8 (json_dumps (VDict
            (feedback_metadata (fe_now env) description approved note)))]> (objects w).
Proof.
  intros Hid Hr Hkey Hdesc Hp Hne Hfile Hns Hb Hacc res.
  destruct (save_feedback_completes sv env request_id approved note w r p ns b
              cloud_path description Hid Hr Hkey Hdesc Hp Hne Hfile Hns Hb Hacc)
    as (w4 & Hres & Hreq & Hdisk & Hobj).
  subst res. rewrite Hres. cbn [fst snd].
  exists (completed_record approved note r).
  split_and!; try done.
  - unfold completed_record, feedback_record. record_lookup.
  - unfold completed_record, feedback_record. record_lookup.
  - unfold completed_record, feedback_record. record_lookup.
  - unfold completed_record, feedback_record.
    by rewrite !apply_kwargs_frame by compute_done.
  - unfold completed_record, feedback_record.
    by rewrite !apply_kwargs_frame by compute_done.
  - unfold completed_record, feedback_record.
    by rewrite !apply_kwargs_frame by compute_done.
Qed.

(** X13.  When the storage service refuses the metadata, [save_feedback]
    reports that the feedback could not be saved; the decision and the note
    are nevertheless in the record, which stays at [feedback_received];
    nothing is written to the bucket, the temp file is not cleaned up and
    no file is deleted. *)
Theorem save_feedback_storage_failure (sv : services) (env : feedback_env)
    (request_id : string) (approved : bool) (note : string) (w : world)
    (r : gmap string value) (cloud_path description : value) :
  request_id <> "" ->
  requests w !! request_id = Some r ->
  r !! "cloud_path" = Some cloud_path ->
  r !! "llm_description" = Some description ->
  put_refused (oracle_storage sv) (fe_put_accepted env) ->
  let res := save_feedback sv env request_id approved note w in
  exists r',
    fst res = Return "Failed to save feedback to cloud storage." /\
    requests (snd res) = <[request_id := r']> (requests w) /\
    r' !! "status" = Some (VStr "feedback_received") /\
    r' !! "user_feedback" = Some (VBool approved) /\
    r' !! "user_note" = Some (VStr note) /\
    (forall key, key ∉ ["status"; "user_feedback"; "user_note"] -> r' !! key = r !! key) /\
    disk (snd res) = disk w /\
    objects (snd res) = objects w /\
    deleted_files (tracker_log (snd res)) = deleted_files (tracker_log w).
Proof.
  intros Hid Hr Hkey Hdesc Href res.
  destruct (save_feedback_recorded sv env request_id approved note w r
              cloud_path description Hid Hr Hkey Hdesc)
    as (w1 & Hreq1 & _ & Hdisk1 & Hobj1 & _ & Hlog1 & Hres).
  subst res. rewrite Hres. unfold save_metadata.
  match goal with
  | |- context [put_object ?st ?a ?n ?body w1] =>
      destruct (put_object_refused st a n body w1 Href) as [e ->]
  end. cbn [negb fst snd].
  exists (feedback_record approved note r). split_and!; try done.
  - unfold feedback_record. record_lookup.
  - unfold feedback_record. record_lookup.
  - unfold feedback_record. record_lookup.
  - intros key Hk. unfold feedback_record. by apply apply_kwargs_frame.
Qed.

(** X14.  Feedback that names no record.  With an empty identifier
    [save_feedback] asks for an upload and changes nothing at all; with
    an identifier the tracker does not know it answers "Invalid request
    ID." and neither a record nor the disk nor the bucket changes. *)
Theorem save_feedback_no_record (sv : services) (env : feedback_env)
    (request_id : string) (approved : bool) (note : string) (w : world) :
  requests w !! request_id = None ->
  let res := save_feedback sv env request_id approved note w in
  (request_id = "" ->
     res = (Return "No active request. Please upload an image first.", w)) /\
  (request_id <> "" -> fst res = Return "Invalid request ID.") /\
  requests (snd res) = requests w /\
  disk (snd res) = disk w /\
  objects (snd res) = objects w.
Proof.
  intros Hr res. subst res. unfold save_feedback, get_request. rewrite Hr.
  destruct (String.eqb_spec request_id "") as [->|Hne].
  - cbn. split_and!; done.
  - rewrite truthy_VStr by done. cbn. split_and!; done.
Qed.

(** ** More on the service clients *)

(** X15.  The two writes to object storage are all or nothing.
    [upload_image] either returns [None] and leaves the world as it was,
    or returns the object name and has stored exactly the bytes of the
    file under that name; the name is the one given, or the last component
    of the file path when none (or an empty one) is given.
    [save_metadata] either returns [False] and leaves the world as it
    was, or returns [True] and has stored the encoded metadata under
    [<name>.metadata.json]. *)
Theorem storage_writes_all_or_nothing (st : OracleCloudStorage) (accepted : bool)
    (w : world) :
  (forall file_path object_name,
     let res := upload_image st accepted file_path object_name w in
     res = (VNone, w) \/
     exists data ns b,
       read_file file_path w = Return data /\
       namespace st = Some ns /\ bucket_name st = Some b /\
       res = (VStr (upload_name file_path object_name),
              set_objects (<[(ns, b, upload_name file_path object_name) := data]>
                             (objects w)) w)) /\
  (forall object_name metadata,
     let res := save_metadata st accepted object_name metadata w in
     res = (false, w) \/
     exists ns b,
       namespace st = Some ns /\ bucket_name st = Some b /\
       res = (true,
              set_objects (<[(ns, b, py_str object_name ++ ".metadata.json") :=
                               encode_utf8 (json_dumps (VDict metadata))]>
                             (objects w)) w)).
Proof.
  split.
  - intros file_path object_name. cbn zeta. unfold upload_image.
    fold (upload_name file_path object_name).
    destruct (read_file file_path w) as [data|]; [|by left].
    unfold put_object.
    destruct (namespace st) as [ns|], (bucket_name st) as [b|], accepted;
      try (by left).
    right. by exists data, ns, b.
  - intros object_name metadata. cbn zeta. unfold save_metadata, put_object.
    destruct (namespace st) as [ns|], (bucket_name st) as [b|], accepted;
      try (by left).
    right. by exists ns, b.
Qed.

(** X16.  Whatever dictionary [save_metadata] is given -- its keys texts
    of any characters, its values texts, integers, booleans, [None], or
    lists and dictionaries of these -- once the service has taken it the
    browsers' way of reading it back, [get_object] of
    [<name>.metadata.json], UTF-8 decoding and JSON decoding, yields that
    dictionary; and no other object of the bucket, the image included,
    has changed. *)
Theorem save_metadata_round_trip (st : OracleCloudStorage) (object_name : value)
    (metadata : pydict) (w : world) (ns b : string) :
  namespace st = Some ns ->
  bucket_name st = Some b ->
  json_value (VDict metadata) = true ->
  let res := save_metadata st true object_name metadata w in
  fst res = true /\
  (exists bytes,
     get_object st (py_str object_name ++ ".metadata.json") (snd res) = Return bytes /\
     decode_utf8 bytes ≫= json_loads = Some (VDict metadata)) /\
  (forall other, other <> py_str object_name ++ ".metadata.json" ->
     get_object st other (snd res) = get_object st other w).
Proof.
  intros Hns Hb Hjson res. subst res. unfold save_metadata.
  rewrite (put_object_accepted _ _ _ _ _ _ Hns Hb). cbn [fst snd].
  split; [done|]. split.
  - eexists. unfold get_object. rewrite Hns, Hb. world_simpl.
    rewrite lookup_insert_eq.
    split; [reflexivity|]. by apply dumps_round_trip.
  - intros other Hne. unfold get_object. rewrite Hns, Hb. cbn.
    rewrite lookup_insert_ne; [done|]. congruence.
Qed.

(** X17.  [analyze_image] gives a non-empty result only when the image
    file could be read and the endpoint answered 200 with a JSON object
    whose [output] field is that result; in every other case the result
    is [None] or the empty string. *)
Theorem analyze_image_text_origin (svc : LLMService)
    (post : http_request -> http_outcome) (path : string) (w : world) :
  truthy (analyze_image svc post path w) = true ->
  exists file result,
    read_file path w = Return file /\
    post (describe_request svc path file) = Response 200 (Some (VDict result)) /\
    dict_get "output" result = Some (analyze_image svc post path w).
Proof.
  unfold analyze_image.
  destruct (read_file path w) as [file|]; [|done].
  destruct (post (describe_request svc path file)) as [|status json] eqn:Hp; [done|].
  destruct (Z.eqb_spec status 200) as [->|]; [|done].
  destruct json as [[| | | | |result]|]; try done.
  destruct (dict_get "output" result) as [v|] eqn:Hv; [|done].
  cbn. intros _. by exists file, result.
Qed.

Section paths.

Lemma split_slash_app cur a b :
  split_slash cur (a ++ String "/" b) = (split_slash cur a ++ split_slash "" b)%list.
Proof.
  revert cur. induction a as [|c a IH]; intros cur.
  - reflexivity.
  - rewrite string_app_cons. cbn [split_slash].
    destruct (Ascii.eqb c "/"); [|apply IH].
    cbn [app]. f_equal. apply IH.
Qed.

Lemma split_slash_simple cur name :
  has_slash name = false -> split_slash cur name = [cur ++ name].
Proof.
  revert cur. induction name as [|c name IH]; intros cur Hs.
  - cbn [split_slash]. by rewrite string_app_nil_r.
  - cbn in Hs. apply orb_false_iff in Hs as [Hc Hs]. cbn [split_slash].
    rewrite Hc, IH by done. by rewrite string_app_assoc.
Qed.

Lemma path_name_join dir name :
  simple_name name -> path_name (path_join dir name) = name.
Proof.
  intros (Hne & Hdot & Hs). unfold path_name, path_join.
  change ("/" ++ name) with (String "/" name).
  rewrite split_slash_app, (split_slash_simple "" name) by done.
  rewrite List.filter_app. cbn [List.filter]. change ("" ++ name) with name.
  destruct (String.eqb_spec name ""); [done|].
  destruct (String.eqb_spec name "."); [done|]. cbn [negb andb].
  apply List.last_last.
Qed.

End paths.

(** X18.  The default object name.  For a file [dir/name] whose name is
    a proper file name, [upload_image] without an object name (or with an
    empty one) does exactly what it does when given [name]: the object is
    stored under the file's own name. *)
Theorem upload_image_default_name (st : OracleCloudStorage) (accepted : bool)
    (dir name : string) (w : world) :
  simple_name name ->
  upload_image st accepted (path_join dir name) None w =
    upload_image st accepted (path_join dir name) (Some name) w /\
  upload_image st accepted (path_join dir name) (Some "") w =
    upload_image st accepted (path_join dir name) (Some name) w.
Proof.
  intros Hname. unfold upload_image.
  destruct Hname as (Hne & Hrest).
  rewrite (truthy_VStr name Hne).
  change (truthy (VStr "")) with false. cbv iota.
  by rewrite path_name_join.
Qed.

(** ** The image browser *)

Section browser.
Variable loads : string -> option value.
Variable st : OracleCloudStorage.
Implicit Types (w : world) (listing : list string).

Lemma image_entry_dict name metadata :
  image_entry name (VDict metadata) = Return (entry_of name metadata).
Proof. reflexivity. Qed.

Lemma image_entry_other name v :
  (forall metadata, v <> VDict metadata) -> image_entry name v = Raise AttributeError.
Proof. intros Hv. destruct v; try done. by destruct (Hv l). Qed.

(** An entry is built, or the metadata is not a dictionary. *)
Lemma image_entry_cases name v :
  (exists metadata, v = VDict metadata /\
     image_entry name v = Return (entry_of name metadata)) \/
  ((forall metadata, v <> VDict metadata) /\ image_entry name v = Raise AttributeError).
Proof. destruct v; try (right; split; [done|reflexivity]). left. eauto. Qed.

Lemma read_metadata_unreadable name w :
  metadata_unreadable loads st name w ->
  read_metadata loads st name w = VDict empty_metadata.
Proof.
  unfold metadata_unreadable, read_metadata.
  destruct (get_object st (name ++ ".metadata.json") w); [|done]. by intros ->.
Qed.

Lemma read_metadata_decoded name w content v :
  get_object st (name ++ ".metadata.json") w = Return content ->
  loads content = Some v ->
  read_metadata loads st name w = v.
Proof. intros Hg Hl. unfold read_metadata. by rewrite Hg, Hl. Qed.

Lemma collect_images_raises listing w e :
  collect_images loads st listing w = Raise e -> e = AttributeError.
Proof.
  induction listing as [|name listing IH]; [done|]. cbn [collect_images].
  destruct (endswith ".metadata.json" name); [done|].
  destruct (image_entry_cases name (read_metadata loads st name w))
    as [(metadata & _ & ->)|[_ ->]]; [|congruence].
  destruct (collect_images loads st listing w); [done|]. intros [= <-]. by apply IH.
Qed.

Lemma collect_images_names listing w images :
  collect_images loads st listing w = Return images ->
  Forall2 (fun name entry =>
             exists metadata, read_metadata loads st name w = VDict metadata /\
                              entry = entry_of name metadata)
    (filter (fun name => is_image_name name = true) listing) images.
Proof.
  revert images. induction listing as [|name listing IH]; intros images.
  { cbn. intros [= <-]. constructor. }
  cbn [collect_images]. rewrite filter_cons.
  destruct (endswith ".metadata.json" name) eqn:He.
  - rewrite decide_False by (unfold is_image_name; rewrite He; done). apply IH.
  - rewrite decide_True by (unfold is_image_name; rewrite He; done).
    destruct (image_entry_cases name (read_metadata loads st name w))
      as [(metadata & Hm & ->)|[_ ->]]; [|done].
    destruct (collect_images loads st listing w) as [images'|]; [|done].
    intros [= <-]. constructor; [eauto|]. by apply IH.
Qed.

(** The response carries each entry with its keys sorted. *)
Lemma sort_keys_entry name metadata :
  sort_keys (VDict (entry_of name metadata)) = VDict (shown_entry name metadata).
Proof. reflexivity. Qed.

Lemma jsonify_images (images : list pydict) :
  jsonify (VList (VDict <$> images)) =
  VList ((fun entry => sort_keys (VDict entry)) <$> images).
Proof.
  unfold jsonify. cbn [sort_keys]. f_equal.
  induction images as [|entry images IH]; [done|].
  cbn [fmap list_fmap map] in *. by rewrite IH.
Qed.

Lemma list_images_raises listing w e :
  list_images loads st listing w = Raise e -> e = AttributeError.
Proof.
  unfold list_images.
  destruct (collect_images loads st listing w) eqn:Hc; [done|].
  intros [= <-]. by apply (collect_images_raises listing w).
Qed.

(** What [list_images] returns is the list of the entries, one for each
    image of the listing and in its order. *)
Lemma list_images_names listing w response :
  list_images loads st listing w = Return response ->
  exists entries,
    response = VList (VDict <$> entries) /\
    Forall2 (fun name entry =>
               exists metadata, read_metadata loads st name w = VDict metadata /\
                                entry = shown_entry name metadata)
      (filter (fun name => is_image_name name = true) listing) entries.
Proof.
  unfold list_images.
  destruct (collect_images loads st listing w) as [images|] eqn:Hc; [|done].
  rewrite jsonify_images. intros [= <-]. apply collect_images_names in Hc.
  induction Hc as [|name entry names images (metadata & Hm & ->) _ (entries & He & IH)].
  { by exists []. }
  exists (shown_entry name metadata :: entries). split.
  - injection He as He. cbn [fmap list_fmap] in *. f_equal.
    exact (f_equal2 cons (sort_keys_entry name metadata) He).
  - constructor; [eauto|done].
Qed.

End browser.

(** X19.  What [list_images] lists.  When it returns, the response is a
    list with one entry for each object whose name does not end in
    [.metadata.json], in the order of the listing: no metadata object is
    shown as an image and no image is left out or repeated.  Every entry
    has the keys [approved], [description], [name], [note], [timestamp]
    and [url], in this order, and its [url] is [/image/<name>]. *)
Theorem list_images_entries (loads : string -> option value) (st : OracleCloudStorage)
    (listing : list string) (w : world) (response : value) :
  list_images loads st listing w = Return response ->
  exists entries : list pydict,
    response = VList (VDict <$> entries) /\
    dict_get "name" <$> entries =
      (fun name => Some (VStr name))
        <$> filter (fun name => is_image_name name = true) listing /\
    dict_get "url" <$> entries =
      (fun name => Some (VStr ("/image/" ++ name)))
        <$> filter (fun name => is_image_name name = true) listing /\
    Forall (fun entry : pydict => entry.*1 = entry_keys) entries.
Proof.
  intros (entries & -> & H)%list_images_names. exists entries. split; [done|].
  induction H as [|name entry names entries (metadata & _ & ->) _ IH]; [done|].
  destruct IH as (IH1 & IH2 & IH3). cbn [fmap list_fmap] in *.
  split_and!.
  - by rewrite IH1.
  - by rewrite IH2.
  - by constructor.
Qed.

(** X20.  Soft failure.  An image whose metadata object is missing, or
    whose content does not decode, is listed all the same, with empty
    strings for description, note, approval and timestamp; with no
    readable metadata anywhere the listing never fails. *)
Theorem list_images_without_metadata (loads : string -> option value)
    (st : OracleCloudStorage) (listing : list string) (w : world) :
  (forall name, name ∈ listing -> is_image_name name = true ->
     metadata_unreadable loads st name w) ->
  list_images loads st listing w =
    Return (VList ((fun name => VDict (bare_entry name))
                     <$> filter (fun name => is_image_name name = true) listing)).
Proof.
  intros Hun. unfold list_images.
  assert (Hc : collect_images loads st listing w =
    Return ((fun name => entry_of name empty_metadata)
              <$> filter (fun name => is_image_name name = true) listing)).
  { induction listing as [|name listing IH]; [done|].
    cbn [collect_images]. rewrite filter_cons.
    destruct (endswith ".metadata.json" name) eqn:He.
    - rewrite decide_False by (unfold is_image_name; rewrite He; done). apply IH.
      intros n Hn. apply Hun. by right.
    - rewrite decide_True by (unfold is_image_name; rewrite He; done).
      rewrite (read_metadata_unreadable loads st name w).
      + rewrite image_entry_dict, IH; [done|].
        intros n Hn. apply Hun. by right.
      + apply Hun; [by left|]. unfold is_image_name. by rewrite He. }
  assert (Hl : forall names : list string,
            (fun entry => sort_keys (VDict entry))
              <$> ((fun name => entry_of name empty_metadata) <$> names) =
            (fun name => VDict (bare_entry name)) <$> names).
  { intros names. induction names as [|n names IH]; [done|].
    exact (f_equal2 cons (eq_refl (VDict (bare_entry n))) IH). }
  by rewrite Hc, jsonify_images, Hl.
Qed.

(** X21.  A metadata object that decodes to something that is not a JSON
    object (a list, a string, a number, null) is not caught by the soft
    failure: the lookups [metadata.get] lie outside the [try], and
    [list_images] as a whole raises [AttributeError].  Once the bucket has
    been listed, nothing else can make it raise. *)
Theorem list_images_bad_metadata (loads : string -> option value)
    (st : OracleCloudStorage) (listing : list string) (w : world)
    (name content : string) (v : value) :
  name ∈ listing -> is_image_name name = true ->
  get_object st (name ++ ".metadata.json") w = Return content ->
  loads content = Some v ->
  (forall metadata, v <> VDict metadata) ->
  list_images loads st listing w = Raise AttributeError /\
  (forall listing' w' e, list_images loads st listing' w' = Raise e -> e = AttributeError).
Proof.
  intros Hin Himg Hg Hl Hv. split; [|intros ? ? ?; apply list_images_raises].
  unfold list_images.
  assert (Hc : collect_images loads st listing w = Raise AttributeError);
    [|by rewrite Hc].
  induction listing as [|n listing IH]; [by apply elem_of_nil in Hin|].
  cbn [collect_images]. apply elem_of_cons in Hin as [<-|Hin].
  - unfold is_image_name in Himg. apply negb_true_iff in Himg. rewrite Himg.
    rewrite (read_metadata_decoded loads st name w content v Hg Hl).
    by rewrite image_entry_other.
  - destruct (endswith ".metadata.json" n); [by apply IH|].
    destruct (image_entry_cases n (read_metadata loads st n w))
      as [(metadata & _ & ->)|[_ ->]]; [|done].
    by rewrite IH.
Qed.

(** ** From submission to the browser *)

Section names.

Lemma substring_all s : String.substring 0 (String.length s) s = s.
Proof. induction s as [|c s IH]; [done|]. cbn. by rewrite IH. Qed.

Lemma substring_split s : forall k,
  (k <= String.length s)%nat ->
  s = String.substring 0 k s ++ String.substring k (String.length s - k) s.
Proof.
  induction s as [|c s IH]; intros k Hk.
  - cbn in Hk. assert (k = 0)%nat as -> by lia. done.
  - destruct k as [|k].
    + cbn [String.substring]. change ("" ++ ?t) with t.
      cbn. by rewrite substring_all.
    + cbn [String.substring String.length]. cbn in Hk.
      rewrite string_app_cons. f_equal.
      replace (S (String.length s) - S k)%nat with (String.length s - k)%nat by lia.
      apply IH. lia.
Qed.

Lemma endswith_true suffix s :
  endswith suffix s = true -> exists pre, s = pre ++ suffix.
Proof.
  unfold endswith.
  destruct (Nat.leb_spec (String.length suffix) (String.length s)) as [Hle|]; [|done].
  intros Heq%String.eqb_eq.
  exists (String.substring 0 (String.length s - String.length suffix) s).
  pose proof (substring_split s (String.length s - String.length suffix)) as Hs.
  replace (String.length s - (String.length s - String.length suffix))%nat
    with (String.length suffix) in Hs by lia.
  rewrite Heq in Hs. apply Hs. lia.
Qed.

Lemma list_ascii_app a b :
  list_ascii_of_string (a ++ b) = (list_ascii_of_string a ++ list_ascii_of_string b)%list.
Proof.
  induction a as [|c a IH]; [done|]. rewrite string_app_cons. cbn. by rewrite IH.
Qed.

(** A name that ends in [.jpg] is an image for the browsers. *)
Lemma jpg_is_image_name stem : is_image_name (stem ++ ".jpg") = true.
Proof.
  unfold is_image_name. destruct (endswith ".metadata.json" (stem ++ ".jpg")) eqn:He; [|done].
  apply endswith_true in He as [pre He].
  apply (f_equal list_ascii_of_string) in He. rewrite !list_ascii_app in He.
  apply (f_equal (fun l => List.last l "000"%char)) in He.
  change (list_ascii_of_string ".jpg")
    with (["."; "j"; "p"]%char ++ ["g"%char])%list in He.
  change (list_ascii_of_string ".metadata.json")
    with ([".";"m";"e";"t";"a";"d";"a";"t";"a";".";"j";"s";"o"]%char ++ ["n"%char])%list in He.
  rewrite !app_assoc, !List.last_last in He. discriminate.
Qed.

Lemma image_filename_is_image (env : process_env) :
  is_image_name (image_filename env) = true.
Proof.
  unfold image_filename. rewrite <- !string_app_assoc. apply jpg_is_image_name.
Qed.

Lemma string_app_neq s t : t <> "" -> s <> s ++ t.
Proof.
  intros Ht Heq. apply (f_equal String.length) in Heq.
  rewrite string_length_app in Heq. destruct t; [done|]. cbn in Heq. lia.
Qed.

End names.

Section listing.
Variable loads : string -> option value.
Variable st : OracleCloudStorage.

(** An image of the listing has its entry in the response. *)
Lemma list_images_elem listing w response name :
  list_images loads st listing w = Return response ->
  name ∈ listing -> is_image_name name = true ->
  exists metadata entries,
    read_metadata loads st name w = VDict metadata /\
    response = VList entries /\
    VDict (shown_entry name metadata) ∈ entries.
Proof.
  intros (entries & -> & H)%list_images_names Hin Himg.
  assert (Hf : name ∈ filter (fun n => is_image_name n = true) listing)
    by (by apply list_elem_of_filter).
  clear Hin.
  assert (exists metadata, read_metadata loads st name w = VDict metadata /\
            shown_entry name metadata ∈ entries) as (metadata & Hm & He).
  { induction H as [|n entry names entries' Hn _ IH].
    { by apply elem_of_nil in Hf. }
    apply elem_of_cons in Hf as [->|Hf].
    - destruct Hn as (metadata & Hm & ->). exists metadata. split; [done|by left].
    - destruct (IH Hf) as (metadata & Hm & He). exists metadata.
      split; [done|by right]. }
  exists metadata, (VDict <$> entries). split_and!; [done|done|].
  by apply list_elem_of_fmap_2.
Qed.

End listing.

Section shown.
Variable loads : string -> option value.
Hypothesis Hloads : decodes_metadata loads.

(** The browsers read back what [save_metadata] has written for the
    feedback. *)
Lemma read_feedback_metadata st ns b name now d approved note (w : world) :
  is_text d = true -> is_text note = true ->
  namespace st = Some ns -> bucket_name st = Some b ->
  objects w !! (ns, b, name ++ ".metadata.json") =
    Some (encode_utf8 (json_dumps (VDict (feedback_metadata now (VStr d) approved note)))) ->
  read_metadata loads st name w = VDict (feedback_metadata now (VStr d) approved note).
Proof.
  intros Hd Hn Hns Hb Hobj. unfold read_metadata, get_object. rewrite Hns, Hb, Hobj.
  by rewrite (Hloads _ _ (metadata_round_trip now (VStr d) approved note Hd Hn)).
Qed.

End shown.

(** X22.  Feedback reaches the browser.  After [save_feedback] on the
    record of an image stored under key [K] and described by a text, with
    the storage service taking the metadata, every listing of the bucket
    that contains [K] shows for it the description, the note, the decision
    as a boolean and the timestamp of the feedback.  The description and
    the note are texts of any characters. *)
Theorem browser_shows_feedback (sv : services) (env : feedback_env)
    (request_id : string) (approved : bool) (note : string) (w : world)
    (r : gmap string value) (K d ns b : string)
    (loads : string -> option value) (listing : list string) (response : value) :
  request_id <> "" ->
  requests w !! request_id = Some r ->
  r !! "cloud_path" = Some (VStr K) ->
  r !! "llm_description" = Some (VStr d) ->
  is_text d = true -> is_text note = true ->
  namespace (oracle_storage sv) = Some ns ->
  bucket_name (oracle_storage sv) = Some b ->
  fe_put_accepted env = true ->
  decodes_metadata loads ->
  K ∈ listing -> is_image_name K = true ->
  list_images loads (oracle_storage sv) listing
    (snd (save_feedback sv env request_id approved note w)) = Return response ->
  exists entries,
    response = VList entries /\
    VDict (feedback_entry K (fe_now env) (VStr d) approved note) ∈ entries.
Proof.
  intros Hid Hr HK Hd Htd Htn Hns Hb Hacc Hloads Hin Himg Hlist.
  destruct (list_images_elem loads _ _ _ _ K Hlist Hin Himg)
    as (metadata & entries & Hm & -> & He).
  rewrite (read_feedback_metadata loads Hloads _ ns b K (fe_now env) d approved note)
    in Hm; [|done|done|done|done|].
  - injection Hm as <-. by exists entries.
  - rewrite (save_feedback_persists sv env request_id approved note w r
               (VStr K) (VStr d) ns b) by done.
    cbn [py_str]. apply lookup_insert_eq.
Qed.

(** X23.  One submission from upload to browser.  An image saved to a
    fresh temp path, taken by the storage service and described by a
    non-empty text, then feedback under the identifier that
    [process_image] returned: the feedback call thanks the user; the
    record ends at [completed] with decision, note, cloud key and
    description in place; the temp file is gone from disk; the browser's
    [get_image] still serves the image bytes, and any listing that
    contains the image shows it with the feedback.  The description and
    the note are texts of any characters. *)
Theorem submission_pipeline (sv : services) (penv : process_env) (fenv : feedback_env)
    (img : image) (data ns b text : string) (approved : bool) (note : string)
    (w : world) (loads : string -> option value) (listing : list string) :
  jpeg img = Some data ->
  disk w !! image_temp_path sv penv = None ->
  namespace (oracle_storage sv) = Some ns ->
  bucket_name (oracle_storage sv) = Some b ->
  pe_put_accepted penv = true ->
  image_description sv penv data = VStr text -> text <> "" ->
  is_text text = true -> is_text note = true ->
  pe_uuid4 penv <> "" ->
  fe_put_accepted fenv = true ->
  decodes_metadata loads ->
  image_filename penv ∈ listing ->
  let res1 := process_image sv penv (Some img) w in
  let res2 := save_feedback sv fenv (pe_uuid4 penv) approved note (snd res1) in
  fst res1 = Return (VStr (pe_uuid4 penv), VStr text) /\
  fst res2 = Return (if approved
                     then "Thank you for your feedback!"
                     else "Thank you for your feedback. We'll improve our descriptions.") /\
  (exists r,
     requests (snd res2) !! pe_uuid4 penv = Some r /\
     r !! "status" = Some (VStr "completed") /\
     r !! "user_feedback" = Some (VBool approved) /\
     r !! "user_note" = Some (VStr note) /\
     r !! "cloud_path" = Some (VStr (image_filename penv)) /\
     r !! "llm_description" = Some (VStr text)) /\
  disk (snd res2) !! image_temp_path sv penv = None /\
  get_image (oracle_storage sv) (image_filename penv) (snd res2) =
    Return (data, "image/webp") /\
  (forall response,
     list_images loads (oracle_storage sv) listing (snd res2) = Return response ->
     exists entries,
       response = VList entries /\
       VDict (feedback_entry (image_filename penv) (fe_now fenv) (VStr text)
                approved note) ∈ entries).
Proof.
  intros Hjpeg Hfresh Hns Hb Hpacc Htext Hne Htt Htn Hid Hfacc Hloads Hin res1 res2.
  destruct (process_image_analyzed sv penv img data w ns b (VStr text)
              (VStr (text_prefix 50 text)) Hjpeg)
    as (w1 & Hres1 & Hreq1 & Hdisk1 & Hobj1 & _);
    [by rewrite Hfresh|done..|by apply truthy_VStr|done|].
  assert (Hflag : saved_removable w (image_temp_path sv penv) = true)
    by (unfold saved_removable; by rewrite Hfresh).
  rewrite Hflag in Hdisk1.
  assert (Hr1 : requests w1 !! pe_uuid4 penv = Some (analyzed_record sv penv (VStr text)))
    by (rewrite Hreq1; apply lookup_insert_eq).
  assert (Hcp : analyzed_record sv penv (VStr text) !! "cloud_path"
                = Some (VStr (image_filename penv))) by flow_record_lookup.
  assert (Hds : analyzed_record sv penv (VStr text) !! "llm_description"
                = Some (VStr text)) by flow_record_lookup.
  assert (Htp : analyzed_record sv penv (VStr text) !! "temp_path"
                = Some (VStr (image_temp_path sv penv))) by flow_record_lookup.
  assert (Htpne : image_temp_path sv penv <> "").
  { unfold image_temp_path, path_join. destruct (TEMP_DIR sv); done. }
  destruct (save_feedback_completes sv fenv (pe_uuid4 penv) approved note w1
              (analyzed_record sv penv (VStr text)) (image_temp_path sv penv) ns b
              (VStr (image_filename penv)) (VStr text))
    as (w2 & Hres2 & Hreq2 & Hdisk2 & Hobj2); try done.
  { right. exists data. rewrite Hdisk1. apply lookup_insert_eq. }
  subst res1 res2. cbn zeta. rewrite Hres1. cbn [fst snd]. rewrite Hres2. cbn [fst snd].
  cbn [py_str] in Hobj2.
  split_and!; try done.
  - exists (completed_record approved note (analyzed_record sv penv (VStr text))).
    rewrite Hreq2, lookup_insert_eq. split; [done|].
    unfold completed_record, feedback_record.
    split_and!; try flow_record_lookup;
      rewrite !apply_kwargs_frame by compute_done; done.
  - rewrite Hdisk2. apply lookup_delete_eq.
  - unfold get_image, get_object. rewrite Hns, Hb, Hobj2.
    rewrite lookup_insert_ne
      by (intros [= Heq]; symmetry in Heq; by apply string_app_neq in Heq).
    by rewrite Hobj1, lookup_insert_eq.
  - intros response Hlist.
    destruct (list_images_elem loads _ _ _ _ (image_filename penv) Hlist Hin
                (image_filename_is_image penv)) as (metadata & entries & Hm & -> & He).
    rewrite (read_feedback_metadata loads Hloads _ ns b (image_filename penv)
               (fe_now fenv) text approved note) in Hm; [|done|done|done|done|].
    + injection Hm as <-. by exists entries.
    + rewrite Hobj2. apply lookup_insert_eq.
Qed.

(** ** The status and the fields *)

Section lifecycle_facts.
Variable sv : services.
Implicit Types (w : world) (r : gmap string value).

Lemma image_temp_path_truthy env : truthy (VStr (image_temp_path sv env)) = true.
Proof.
  apply truthy_VStr. unfold image_temp_path, path_join. by destruct (TEMP_DIR sv).
Qed.

Lemma lifecycle_fields r : lifecycle r -> status_matches_fields r.
Proof.
  induction 1 as [|sv0 env|sv0 env|sv0 env d Hd|a n r _ IH|a n r _ IH].
  - exists "created", VNone, VNone, VNone, VNone, VNone.
    split_and!; try reflexivity; try done; try (intros; discriminate).
    + compute_done.
    + by intros [|].
  - exists "image_received", (VStr (image_temp_path sv0 env)), VNone, VNone, VNone, VNone.
    split_and!; try flow_record_lookup; try done; try (intros; discriminate).
    + compute_done.
    + intros _. split_and!; try done. unfold image_temp_path, path_join.
      apply truthy_VStr. by destruct (TEMP_DIR sv0).
    + by intros [|].
  - exists "uploaded_to_cloud", (VStr (image_temp_path sv0 env)),
      (VStr (image_filename env)), VNone, VNone, VNone.
    split_and!; try flow_record_lookup; try done; try (intros; discriminate).
    + compute_done.
    + intros _. unfold image_temp_path, path_join.
      apply truthy_VStr. by destruct (TEMP_DIR sv0).
    + intros _. split_and!; try done. apply image_filename_truthy.
    + by intros [|].
  - exists "analyzed", (VStr (image_temp_path sv0 env)),
      (VStr (image_filename env)), d, VNone, VNone.
    split_and!; try flow_record_lookup; try done; try (intros; discriminate).
    + compute_done.
    + intros _. apply image_filename_truthy.
    + intros _. unfold image_temp_path, path_join.
      apply truthy_VStr. by destruct (TEMP_DIR sv0).
    + by intros [|].
  - destruct IH as (st & tp & cp & d & fb & nt & Hst & Htp & Hcp & Hd & Hfb & Hnt
                    & _ & H1 & H2 & _).
    exists "feedback_received", tp, cp, d, (VBool a), (VStr n).
    unfold feedback_record.
    split_and!; try record_lookup; try done; try (intros; discriminate);
      try compute_done.
    intros _. eauto.
  - destruct IH as (st & tp & cp & d & fb & nt & Hst & Htp & Hcp & Hd & Hfb & Hnt
                    & _ & H1 & H2 & _).
    exists "completed", tp, cp, d, (VBool a), (VStr n).
    unfold completed_record, feedback_record.
    split_and!; try record_lookup; try done; try (intros; discriminate);
      try compute_done.
    intros _. eauto.
Qed.

Lemma records_in_lifecycle_insert (m : gmap string (gmap string value)) request_id r :
  records_in_lifecycle m -> lifecycle r -> records_in_lifecycle (<[request_id := r]> m).
Proof.
  intros Hm Hr id r0. destruct (decide (id = request_id)) as [->|Hne].
  - rewrite lookup_insert_eq. by intros [= <-].
  - rewrite lookup_insert_ne by done. apply Hm.
Qed.

(** The record [process_image] leaves under its identifier. *)
Lemma process_image_leaves env img w :
  exists r,
    lifecycle r /\
    requests (snd (process_image sv env (Some img) w)) =
      <[pe_uuid4 env := r]> (requests w).
Proof.
  destruct (image_save_cases img (image_temp_path sv env)
              (snd (create_request (pe_uuid4 env) w)))
    as [(data & Hjpeg & Hnodir)|[_ Hfail]].
  2: { exists new_request. split; [apply lc_created|].
       unfold process_image. unfold create_request in *. cbn [fst snd] in *.
       fold (image_filename env). fold (image_temp_path sv env).
       rewrite Hfail. cbn [fst snd]. by rewrite emptied_requests. }
  cbn in Hnodir.
  destruct (put_object_cases (oracle_storage sv) (pe_put_accepted env))
    as [Href|(ns & b & Hns & Hb & Hacc)].
  - destruct (process_image_upload_refused sv env img data w Hjpeg Hnodir Href)
      as (stored & w' & -> & Hreq & _).
    exists (received_record sv env). split; [apply lc_received|done].
  - destruct (process_image_uploaded sv env img data w ns b Hjpeg Hnodir Hns Hb Hacc)
      as (w3 & Hreq & _ & _ & _ & ->). cbn zeta.
    destruct (truthy (image_description sv env data)) eqn:Ht; cbn [negb].
    + destruct (slice_prefix 50 (image_description sv env data)).
      * exists (analyzed_record sv env (image_description sv env data)).
        split; [by apply lc_analyzed|].
        assert (Hr3 : requests w3 !! pe_uuid4 env = Some (uploaded_record sv env))
          by (rewrite Hreq; apply lookup_insert_eq).
        rewrite (update_request_found _ _ _ _ Hr3). cbn.
        rewrite Hreq. by rewrite insert_insert_eq.
      * exists (uploaded_record sv env). split; [apply lc_uploaded|done].
    + exists (uploaded_record sv env). split; [apply lc_uploaded|done].
Qed.

Lemma process_image_lifecycle env img w :
  records_in_lifecycle (requests w) ->
  records_in_lifecycle (requests (snd (process_image sv env img w))).
Proof.
  intros Hw. destruct img as [img|]; [|done].
  destruct (process_image_leaves env img w) as (r & Hr & ->).
  by apply records_in_lifecycle_insert.
Qed.

Lemma save_feedback_lifecycle env request_id approved note w :
  records_in_lifecycle (requests w) ->
  records_in_lifecycle (requests (snd (save_feedback sv env request_id approved note w))).
Proof.
  intros Hw.
  destruct (String.eqb_spec request_id "") as [->|Hid]; [done|].
  destruct (requests w !! request_id) as [r|] eqn:Hr.
  2: { unfold save_feedback, get_request. rewrite Hr, truthy_VStr by done. done. }
  pose proof (Hw _ _ Hr) as Hlc.
  destruct (lifecycle_fields r Hlc)
    as (st & tp & cp & d & fb & nt & _ & _ & Hcp & Hd & _).
  destruct (save_feedback_recorded sv env request_id approved note w r cp d
              Hid Hr Hcp Hd)
    as (w1 & Hreq1 & _ & _ & _ & _ & _ & ->).
  assert (H1 : records_in_lifecycle (requests w1)).
  { rewrite Hreq1. apply records_in_lifecycle_insert; [done|by apply lc_feedback]. }
  match goal with
  | |- context [save_metadata ?a ?b ?c ?m w1] =>
      pose proof (save_metadata_same a b c m w1) as Hs;
      destruct (save_metadata a b c m w1) as [[] w2]
  end; cbn [snd negb] in *.
  2: { destruct Hs as (-> & _). done. }
  pose proof (clean_temp_file_same request_id w2) as Hc.
  destruct (clean_temp_file request_id w2) as [[ok|e] w3]; cbn [snd] in *.
  2: { destruct Hc as (-> & _), Hs as (-> & _). done. }
  assert (Hr3 : requests w3 !! request_id = Some (feedback_record approved note r)).
  { destruct Hc as (-> & _), Hs as (-> & _). rewrite Hreq1. apply lookup_insert_eq. }
  rewrite (update_request_found _ _ _ _ Hr3). cbn.
  apply records_in_lifecycle_insert; [|by apply lc_completed].
  destruct Hc as (-> & _), Hs as (-> & _). done.
Qed.

Lemma run_lifecycle cs : forall w,
  Forall (fun c => is_flow c = true) cs ->
  records_in_lifecycle (requests w) ->
  records_in_lifecycle (requests (run sv cs w)).
Proof.
  induction cs as [|c cs IH]; intros w Hflow Hw; [done|].
  apply Forall_cons in Hflow as [Hc Hflow]. cbn [run foldl].
  apply IH; [done|]. destruct c; try done; cbn [step].
  - by apply process_image_lifecycle.
  - by apply save_feedback_lifecycle.
Qed.

End lifecycle_facts.

(** X24.  The status tells which fields are set.  In every state that
    calls of [process_image] and [save_feedback] can reach from the start
    of the program, each record has one of the six statuses, and:
    [created] means no field is set; [image_received] means the temp path
    is set and nothing else; [uploaded_to_cloud] means the cloud key is set
    and there is no description; [analyzed] means there is a non-empty
    description; before feedback there is no decision, and at
    [feedback_received] or [completed] the decision is a boolean and the
    note a string.  At every status a description implies a cloud key and a
    cloud key implies a temp path. *)
Theorem status_tells_fields (sv : services) (cs : list call)
    (d : gmap string entry) (fds : gset Z) (o : gmap object_key string)
    (request_id : string) (r : gmap string value) :
  Forall (fun c => is_flow c = true) cs ->
  requests (run sv cs (init_world d fds o)) !! request_id = Some r ->
  status_matches_fields r.
Proof.
  intros Hflow Hr. apply lifecycle_fields.
  eapply (run_lifecycle sv cs _ Hflow); [|exact Hr].
  intros id r0 H0. cbn in H0. by rewrite lookup_empty in H0.
Qed.

(** ** File names *)

Section filenames.

(** A property of the naturals below a bound, checked by running through
    them. *)
Lemma below_bound (f : nat -> bool) (lo len : nat) :
  forallb f (seq lo len) = true ->
  forall k, (lo <= k < lo + len)%nat -> f k = true.
Proof.
  intros Hall k Hk. rewrite forallb_forall in Hall. apply Hall, in_seq. lia.
Qed.

Lemma zero_pad_2_length n : (n < 100)%N -> String.length (zero_pad 2 n) = 2%nat.
Proof.
  intros Hn.
  pose proof (below_bound
    (fun k => Nat.eqb (String.length (zero_pad 2 (N.of_nat k))) 2) 0 100) as H.
  specialize (H ltac:(vm_compute; reflexivity) (N.to_nat n) ltac:(lia)).
  cbv beta in H. rewrite N2Nat.id in H. by apply Nat.eqb_eq.
Qed.

Lemma pretty_year_length n :
  (1000 <= n < 10000)%N -> String.length (pretty n) = 4%nat.
Proof.
  intros Hn.
  pose proof (below_bound
    (fun k => Nat.eqb (String.length (pretty (N.of_nat k))) 4) 1000 (4500 + 4500)) as H.
  specialize (H ltac:(vm_compute; reflexivity) (N.to_nat n) ltac:(lia)).
  cbv beta in H. rewrite N2Nat.id in H. by apply Nat.eqb_eq.
Qed.

Lemma strftime_stamp_length t :
  four_digit_year t -> String.length (strftime_stamp t) = 15%nat.
Proof.
  intros (Hy & Hmo & Hd & Hh & Hmi & Hs). unfold strftime_stamp.
  rewrite !string_length_app, pretty_year_length, !zero_pad_2_length by done.
  reflexivity.
Qed.

Lemma string_app_inj_length a b x y :
  String.length a = String.length b -> a ++ x = b ++ y -> a = b /\ x = y.
Proof.
  revert b. induction a as [|c a IH]; intros [|c' b] Hlen Heq; try done.
  rewrite !string_app_cons in Heq. injection Heq as -> Heq.
  cbn in Hlen. destruct (IH b) as [-> ->]; [lia|done|done].
Qed.

Lemma string_app_inv_tail a b s : a ++ s = b ++ s -> a = b.
Proof.
  intros Heq. apply (string_app_inj_length a b s s); [|done].
  apply (f_equal String.length) in Heq. rewrite !string_length_app in Heq. lia.
Qed.

End filenames.

(** X25.  File names do not collide.  For clock readings in a year of
    four digits and identifiers that are, as [uuid4] gives them, free of
    slashes (so that the temp path is the temp directory followed by the
    file name), the file name generated for a submission determines the
    moment and the request identifier it was generated from: two
    submissions with different identifiers get different file names,
    hence different cloud keys and, under one temp directory, different
    temp paths. *)
Theorem image_filename_injective (sv : services) (env1 env2 : process_env) :
  four_digit_year (pe_now env1) ->
  four_digit_year (pe_now env2) ->
  has_slash (pe_uuid4 env1) = false ->
  has_slash (pe_uuid4 env2) = false ->
  (image_filename env1 = image_filename env2 ->
     strftime_stamp (pe_now env1) = strftime_stamp (pe_now env2) /\
     pe_uuid4 env1 = pe_uuid4 env2) /\
  (image_temp_path sv env1 = image_temp_path sv env2 ->
     pe_uuid4 env1 = pe_uuid4 env2) /\
  (pe_uuid4 env1 <> pe_uuid4 env2 ->
     image_filename env1 <> image_filename env2 /\
     image_temp_path sv env1 <> image_temp_path sv env2).
Proof.
  intros H1 H2 _ _.
  assert (Hname : image_filename env1 = image_filename env2 ->
            strftime_stamp (pe_now env1) = strftime_stamp (pe_now env2) /\
            pe_uuid4 env1 = pe_uuid4 env2).
  { unfold image_filename. intros Heq.
    apply string_app_inj_length in Heq as [Hs Heq];
      [|by rewrite !strftime_stamp_length].
    split; [done|]. rewrite !string_app_cons in Heq. injection Heq as Heq.
    change ("" ++ ?t) with t in Heq. by apply string_app_inv_tail in Heq. }
  assert (Hpath : image_temp_path sv env1 = image_temp_path sv env2 ->
            pe_uuid4 env1 = pe_uuid4 env2).
  { unfold image_temp_path, path_join. intros Heq.
    apply string_app_inj_length in Heq as [_ Heq]; [|done].
    rewrite !string_app_cons in Heq. injection Heq as Heq.
    change ("" ++ ?t) with t in Heq. by apply Hname. }
  split_and!; [done|done|].
  intros Hne. split; intros Heq; [apply Hname in Heq as [_ ?]|apply Hpath in Heq]; done.
Qed.

Section again.
Implicit Types (r : gmap string value).

Lemma completed_record_again a1 n1 a2 n2 r :
  completed_record a2 n2 (completed_record a1 n1 r) = completed_record a2 n2 r.
Proof.
  apply map_eq. intros key. unfold completed_record, feedback_record.
  rewrite !apply_kwargs_lookup. cbn [rev app dict_get].
  repeat match goal with
         | |- context [String.eqb key ?k] => destruct (String.eqb key k)
         end; reflexivity.
Qed.

End again.

(** X26.  Feedback can be given again, and the last one wins.  After two
    successful calls of [save_feedback] for the same record, the
    records, the disk and the bucket are exactly as after the second call
    alone: decision, note and the metadata object are those of the second
    feedback, and the second call, finding the temp file gone, still
    succeeds. *)
Theorem save_feedback_again (sv : services) (env1 env2 : feedback_env)
    (request_id : string) (approved1 approved2 : bool) (note1 note2 : string)
    (w : world) (r : gmap string value) (p ns b : string)
    (cloud_path description : value) :
  request_id <> "" ->
  requests w !! request_id = Some r ->
  r !! "cloud_path" = Some cloud_path ->
  r !! "llm_description" = Some description ->
  r !! "temp_path" = Some (VStr p) -> p <> "" ->
  (disk w !! p = None \/ exists data, disk w !! p = Some (File data true)) ->
  namespace (oracle_storage sv) = Some ns ->
  bucket_name (oracle_storage sv) = Some b ->
  fe_put_accepted env1 = true ->
  fe_put_accepted env2 = true ->
  let w1 := snd (save_feedback sv env1 request_id approved1 note1 w) in
  let res := save_feedback sv env2 request_id approved2 note2 w1 in
  let once := save_feedback sv env2 request_id approved2 note2 w in
  fst res = fst once /\
  requests (snd res) = requests (snd once) /\
  disk (snd res) = disk (snd once) /\
  objects (snd res) = objects (snd once).
Proof.
  intros Hid Hr Hkey Hdesc Hp Hne Hfile Hns Hb Hacc1 Hacc2 w1 res once.
  destruct (save_feedback_completes sv env1 request_id approved1 note1 w r p ns b
              cloud_path description Hid Hr Hkey Hdesc Hp Hne Hfile Hns Hb Hacc1)
    as (w1' & Hres1 & Hreq1 & Hdisk1 & Hobj1).
  destruct (save_feedback_completes sv env2 request_id approved2 note2 w r p ns b
              cloud_path description Hid Hr Hkey Hdesc Hp Hne Hfile Hns Hb Hacc2)
    as (w2 & Hres2 & Hreq2 & Hdisk2 & Hobj2).
  subst w1 res once. rewrite Hres1, Hres2. cbn [fst snd].
  destruct (save_feedback_completes sv env2 request_id approved2 note2 w1'
              (completed_record approved1 note1 r) p ns b cloud_path description)
    as (w3 & Hres3 & Hreq3 & Hdisk3 & Hobj3); try done.
  - rewrite Hreq1. apply lookup_insert_eq.
  - unfold completed_record, feedback_record.
    by rewrite !apply_kwargs_frame by compute_done.
  - unfold completed_record, feedback_record.
    by rewrite !apply_kwargs_frame by compute_done.
  - unfold completed_record, feedback_record.
    by rewrite !apply_kwargs_frame by compute_done.
  - left. rewrite Hdisk1. apply lookup_delete_eq.
  - rewrite Hres3. cbn [fst snd]. split_and!.
    + done.
    + by rewrite Hreq3, Hreq2, Hreq1, insert_insert_eq, completed_record_again.
    + rewrite Hdisk3, Hdisk2, Hdisk1. apply map_eq. intros q.
      destruct (decide (q = p)) as [->|Hq].
      * by rewrite !lookup_delete_eq.
      * by rewrite !lookup_delete_ne.
    + by rewrite Hobj3, Hobj2, Hobj1, insert_insert_eq.
Qed.

(** ** Instances of the further properties *)

(** ** The further properties at the example inputs *)

(** X1 at the record of the example run. *)
Lemma update_then_get_witness :
  exists r',
    fst (get_request demo_id
           (snd (update_request demo_id
                   [("status", VStr "completed"); ("user_note", VStr "ok")]
                   demo_analyzed))) = Some r' /\
    forall key v,
      (key, v) ∈ [("status", VStr "completed"); ("user_note", VStr "ok")] ->
      r' !! key = Some v.
Proof.
  apply (update_then_get demo_analyzed demo_id
           [("status", VStr "completed"); ("user_note", VStr "ok")] demo_record).
  - reflexivity.
  - apply (bool_decide_unpack _). reflexivity.
Defined.

(** X5 with every service answering. *)
Lemma process_image_success_witness :
  let res := process_image demo_services demo_env (Some demo_image) demo_start in
  exists r stored,
    fst res = Return (VStr (pe_uuid4 demo_env), VStr "A cat on a sofa.") /\
    requests (snd res) !! pe_uuid4 demo_env = Some r /\
    r !! "status" = Some (VStr "analyzed") /\
    r !! "temp_path" = Some (VStr (image_temp_path demo_services demo_env)) /\
    r !! "cloud_path" = Some (VStr (image_filename demo_env)) /\
    r !! "llm_description" = Some (VStr "A cat on a sofa.") /\
    r !! "user_feedback" = Some VNone /\
    r !! "user_note" = Some VNone /\
    disk (snd res) !! image_temp_path demo_services demo_env
      = Some (File "JFIF-bytes" stored) /\
    objects (snd res) =
      <[("tenancy", "images", image_filename demo_env) := "JFIF-bytes"]>
        (objects demo_start) /\
    get_image (oracle_storage demo_services) (image_filename demo_env) (snd res) =
      Return ("JFIF-bytes", "image/webp").
Proof.
  apply (process_image_success demo_services demo_env demo_image "JFIF-bytes"
           "tenancy" "images" "A cat on a sofa." demo_start).
  - reflexivity.
  - vm_compute. discriminate.
  - reflexivity.
  - reflexivity.
  - reflexivity.
  - reflexivity.
  - discriminate.
Defined.

(** X6 for the result of the example submission. *)
Lemma process_image_result_witness :
  (VStr demo_id <> VNone ->
     VStr demo_id = VStr (pe_uuid4 demo_env) /\
     truthy (VStr "A cat on a sofa.") = true /\
     exists r data ns b,
       requests (snd (process_image demo_services demo_env (Some demo_image) demo_start))
         !! pe_uuid4 demo_env = Some r /\
       r !! "status" = Some (VStr "analyzed") /\
       r !! "llm_description" = Some (VStr "A cat on a sofa.") /\
       r !! "cloud_path" = Some (VStr (image_filename demo_env)) /\
       namespace (oracle_storage demo_services) = Some ns /\
       bucket_name (oracle_storage demo_services) = Some b /\
       objects (snd (process_image demo_services demo_env (Some demo_image) demo_start))
         !! (ns, b, image_filename demo_env) = Some data) /\
  (VStr demo_id = VNone ->
     VStr "A cat on a sofa." = VStr "Please upload an image or take a photo." \/
     VStr "A cat on a sofa." = VStr "Failed to upload image to cloud storage." \/
     VStr "A cat on a sofa." = VStr "Failed to analyze image.").
Proof.
  apply (process_image_result demo_services demo_env (Some demo_image) demo_start
           (VStr demo_id) (VStr "A cat on a sofa.")).
  reflexivity.
Defined.

(** X7 for an image that cannot be written as JPEG, with a file already
    at the temp path. *)
Lemma process_image_save_failure_witness :
  let res := process_image demo_services demo_env (Some demo_unsaveable) demo_occupied in
  fst res = Raise OSError /\
  requests (snd res) = <[pe_uuid4 demo_env := new_request]> (requests demo_occupied) /\
  objects (snd res) = objects demo_occupied /\
  (forall path, path <> image_temp_path demo_services demo_env ->
     disk (snd res) !! path = disk demo_occupied !! path) /\
  (forall old removable,
     disk demo_occupied !! image_temp_path demo_services demo_env =
       Some (File old removable) ->
     disk (snd res) !! image_temp_path demo_services demo_env =
       Some (File "" removable)) /\
  (disk demo_occupied !! image_temp_path demo_services demo_env = Some Dir \/
   disk demo_occupied !! image_temp_path demo_services demo_env = None ->
   disk (snd res) = disk demo_occupied).
Proof.
  apply (process_image_save_failure demo_services demo_env demo_unsaveable demo_occupied).
  left. reflexivity.
Defined.

(** X8 with the endpoint answering 7. *)
Lemma process_image_unsliceable_output_witness :
  let res := process_image demo_services demo_env_number (Some demo_image) demo_start in
  fst res = Raise TypeError /\
  requests (snd res) !! pe_uuid4 demo_env_number
    = Some (uploaded_record demo_services demo_env_number) /\
  uploaded_record demo_services demo_env_number !! "status"
    = Some (VStr "uploaded_to_cloud") /\
  uploaded_record demo_services demo_env_number !! "llm_description" = Some VNone /\
  objects (snd res) !! ("tenancy", "images", image_filename demo_env_number)
    = Some "JFIF-bytes".
Proof.
  apply (process_image_unsliceable_output demo_services demo_env_number demo_image
           "JFIF-bytes" "tenancy" "images" demo_start).
  - reflexivity.
  - vm_compute. discriminate.
  - reflexivity.
  - reflexivity.
  - reflexivity.
  - left. exists 7%Z. split; [vm_compute; reflexivity|lia].
Defined.

(** X12 for approving feedback on the record of the example run. *)
Lemma save_feedback_success_witness :
  let res := save_feedback demo_services demo_feedback_env demo_id true "looks good"
               demo_analyzed in
  exists r',
    fst res = Return "Thank you for your feedback!" /\
    requests (snd res) = <[demo_id := r']> (requests demo_analyzed) /\
    r' !! "status" = Some (VStr "completed") /\
    r' !! "user_feedback" = Some (VBool true) /\
    r' !! "user_note" = Some (VStr "looks good") /\
    r' !! "temp_path" = Some (VStr demo_temp_path) /\
    r' !! "cloud_path" = Some (VStr demo_filename) /\
    r' !! "llm_description" = Some (VStr "A cat on a sofa.") /\
    disk (snd res) = delete demo_temp_path (disk demo_analyzed) /\
    objects (snd res) =
      <[("tenancy", "images", py_str (VStr demo_filename) ++ ".metadata.json") :=
          encode_utf8 (json_dumps (VDict
            (feedback_metadata (fe_now demo_feedback_env) (VStr "A cat on a sofa.")
               true "looks good")))]> (objects demo_analyzed).
Proof.
  apply (save_feedback_success demo_services demo_feedback_env demo_id true
           "looks good" demo_analyzed demo_record demo_temp_path "tenancy" "images"
           (VStr demo_filename) (VStr "A cat on a sofa.")).
  - discriminate.
  - reflexivity.
  - reflexivity.
  - reflexivity.
  - reflexivity.
  - discriminate.
  - right. exists "JFIF-bytes". reflexivity.
  - reflexivity.
  - reflexivity.
  - reflexivity.
Defined.

(** X13 with the storage service down. *)
Lemma save_feedback_storage_failure_witness :
  let res := save_feedback demo_services demo_feedback_env_down demo_id false "blurry"
               demo_analyzed in
  exists r',
    fst res = Return "Failed to save feedback to cloud storage." /\
    requests (snd res) = <[demo_id := r']> (requests demo_analyzed) /\
    r' !! "status" = Some (VStr "feedback_received") /\
    r' !! "user_feedback" = Some (VBool false) /\
    r' !! "user_note" = Some (VStr "blurry") /\
    (forall key, key ∉ ["status"; "user_feedback"; "user_note"] ->
       r' !! key = demo_record !! key) /\
    disk (snd res) = disk demo_analyzed /\
    objects (snd res) = objects demo_analyzed /\
    deleted_files (tracker_log (snd res)) = deleted_files (tracker_log demo_analyzed).
Proof.
  apply (save_feedback_storage_failure demo_services demo_feedback_env_down demo_id
           false "blurry" demo_analyzed demo_record
           (VStr demo_filename) (VStr "A cat on a sofa.")).
  - discriminate.
  - reflexivity.
  - reflexivity.
  - reflexivity.
  - left. reflexivity.
Defined.

(** X14 for an identifier the tracker has never seen. *)
Lemma save_feedback_no_record_witness :
  let res := save_feedback demo_services demo_feedback_env "no-such-id" true ""
               demo_analyzed in
  ("no-such-id" = "" ->
     res = (Return "No active request. Please upload an image first.", demo_analyzed)) /\
  ("no-such-id" <> "" -> fst res = Return "Invalid request ID.") /\
  requests (snd res) = requests demo_analyzed /\
  disk (snd res) = disk demo_analyzed /\
  objects (snd res) = objects demo_analyzed.
Proof.
  apply (save_feedback_no_record demo_services demo_feedback_env "no-such-id" true ""
           demo_analyzed).
  reflexivity.
Defined.

(** X16 for a metadata dictionary with text beyond ASCII. *)
Lemma save_metadata_round_trip_witness :
  let metadata := demo_metadata in
  let res := save_metadata (oracle_storage demo_services) true (VStr demo_filename)
               metadata demo_analyzed in
  fst res = true /\
  (exists bytes,
     get_object (oracle_storage demo_services)
       (py_str (VStr demo_filename) ++ ".metadata.json") (snd res) = Return bytes /\
     decode_utf8 bytes ≫= json_loads = Some (VDict metadata)) /\
  (forall other, other <> py_str (VStr demo_filename) ++ ".metadata.json" ->
     get_object (oracle_storage demo_services) other (snd res) =
     get_object (oracle_storage demo_services) other demo_analyzed).
Proof.
  apply (save_metadata_round_trip (oracle_storage demo_services) (VStr demo_filename)
           demo_metadata demo_analyzed "tenancy" "images").
  - reflexivity.
  - reflexivity.
  - reflexivity.
Defined.

(** X17 for the description of the example image. *)
Lemma analyze_image_text_origin_witness :
  exists file result,
    read_file demo_temp_path demo_analyzed = Return file /\
    pe_post demo_env (describe_request (llm_service demo_services) demo_temp_path file)
      = Response 200 (Some (VDict result)) /\
    dict_get "output" result =
      Some (analyze_image (llm_service demo_services) (pe_post demo_env)
              demo_temp_path demo_analyzed).
Proof.
  apply (analyze_image_text_origin (llm_service demo_services) (pe_post demo_env)
           demo_temp_path demo_analyzed).
  reflexivity.
Defined.

(** X18 for the example file name. *)
Lemma upload_image_default_name_witness :
  upload_image (oracle_storage demo_services) true
      (path_join (TEMP_DIR demo_services) demo_filename) None demo_analyzed =
    upload_image (oracle_storage demo_services) true
      (path_join (TEMP_DIR demo_services) demo_filename) (Some demo_filename)
      demo_analyzed /\
  upload_image (oracle_storage demo_services) true
      (path_join (TEMP_DIR demo_services) demo_filename) (Some "") demo_analyzed =
    upload_image (oracle_storage demo_services) true
      (path_join (TEMP_DIR demo_services) demo_filename) (Some demo_filename)
      demo_analyzed.
Proof.
  apply (upload_image_default_name (oracle_storage demo_services) true
           (TEMP_DIR demo_services) demo_filename demo_analyzed).
  split; [discriminate|]. split; [discriminate|]. reflexivity.
Defined.

(** X19 for the bucket after the example feedback. *)
Lemma list_images_entries_witness :
  exists entries : list pydict,
    demo_images = VList (VDict <$> entries) /\
    dict_get "name" <$> entries =
      (fun name => Some (VStr name))
        <$> filter (fun name => is_image_name name = true) demo_listing /\
    dict_get "url" <$> entries =
      (fun name => Some (VStr ("/image/" ++ name)))
        <$> filter (fun name => is_image_name name = true) demo_listing /\
    Forall (fun entry : pydict => entry.*1 = entry_keys) entries.
Proof.
  apply (list_images_entries demo_loads (oracle_storage demo_services) demo_listing
           demo_completed demo_images).
  reflexivity.
Defined.

(** X20 for the bucket before any feedback. *)
Lemma list_images_without_metadata_witness :
  list_images demo_loads (oracle_storage demo_services) [demo_filename] demo_analyzed =
    Return (VList ((fun name => VDict (bare_entry name))
                     <$> filter (fun name => is_image_name name = true) [demo_filename])).
Proof.
  apply (list_images_without_metadata demo_loads (oracle_storage demo_services)
           [demo_filename] demo_analyzed).
  intros name Hin _. apply list_elem_of_singleton in Hin. subst name.
  vm_compute. exact I.
Defined.

(** X22 for a description and a note beyond ASCII. *)
Lemma browser_shows_feedback_witness :
  exists entries,
    demo_response = VList entries /\
    VDict (feedback_entry demo_filename (fe_now demo_feedback_env) (VStr demo_text)
             true demo_note) ∈ entries.
Proof.
  apply (browser_shows_feedback demo_services demo_feedback_env demo_id true
           demo_note demo_described demo_described_record demo_filename demo_text
           "tenancy" "images" demo_loads demo_listing demo_response).
  - discriminate.
  - reflexivity.
  - reflexivity.
  - reflexivity.
  - reflexivity.
  - reflexivity.
  - reflexivity.
  - reflexivity.
  - reflexivity.
  - intros bytes v H. exact H.
  - left.
  - reflexivity.
  - reflexivity.
Defined.

(** X23 for a submission described and approved with text beyond ASCII. *)
Lemma submission_pipeline_witness :
  let res1 := process_image demo_services demo_env_text (Some demo_image) demo_start in
  let res2 := save_feedback demo_services demo_feedback_env (pe_uuid4 demo_env_text) true
                demo_note (snd res1) in
  fst res1 = Return (VStr (pe_uuid4 demo_env_text), VStr demo_text) /\
  fst res2 = Return "Thank you for your feedback!" /\
  (exists r,
     requests (snd res2) !! pe_uuid4 demo_env_text = Some r /\
     r !! "status" = Some (VStr "completed") /\
     r !! "user_feedback" = Some (VBool true) /\
     r !! "user_note" = Some (VStr demo_note) /\
     r !! "cloud_path" = Some (VStr (image_filename demo_env_text)) /\
     r !! "llm_description" = Some (VStr demo_text)) /\
  disk (snd res2) !! image_temp_path demo_services demo_env_text = None /\
  get_image (oracle_storage demo_services) (image_filename demo_env_text) (snd res2) =
    Return ("JFIF-bytes", "image/webp") /\
  (forall response,
     list_images demo_loads (oracle_storage demo_services) demo_listing (snd res2)
       = Return response ->
     exists entries,
       response = VList entries /\
       VDict (feedback_entry (image_filename demo_env_text) (fe_now demo_feedback_env)
                (VStr demo_text) true demo_note) ∈ entries).
Proof.
  apply (submission_pipeline demo_services demo_env_text demo_feedback_env demo_image
           "JFIF-bytes" "tenancy" "images" demo_text true demo_note
           demo_start demo_loads demo_listing).
  - reflexivity.
  - reflexivity.
  - reflexivity.
  - reflexivity.
  - reflexivity.
  - reflexivity.
  - discriminate.
  - reflexivity.
  - reflexivity.
  - discriminate.
  - reflexivity.
  - intros bytes v H. exact H.
  - left.
Defined.

(** X24 for the record at the end of the example run. *)
Lemma status_tells_fields_witness : status_matches_fields demo_final_record.
Proof.
  apply (status_tells_fields demo_services demo_run ∅ ∅ ∅ demo_id demo_final_record).
  - repeat constructor.
  - reflexivity.
Defined.

(** X25 for two submissions a second apart. *)
Lemma image_filename_injective_witness :
  (image_filename demo_env = image_filename demo_env_next ->
     strftime_stamp (pe_now demo_env) = strftime_stamp (pe_now demo_env_next) /\
     pe_uuid4 demo_env = pe_uuid4 demo_env_next) /\
  (image_temp_path demo_services demo_env = image_temp_path demo_services demo_env_next ->
     pe_uuid4 demo_env = pe_uuid4 demo_env_next) /\
  (pe_uuid4 demo_env <> pe_uuid4 demo_env_next ->
     image_filename demo_env <> image_filename demo_env_next /\
     image_temp_path demo_services demo_env <> image_temp_path demo_services demo_env_next).
Proof.
  apply (image_filename_injective demo_services demo_env demo_env_next).
  - unfold four_digit_year. cbn. lia.
  - unfold four_digit_year. cbn. lia.
  - reflexivity.
  - reflexivity.
Defined.

(** X26 for a rejection after the approval of the example run. *)
Lemma save_feedback_again_witness :
  let w1 := snd (save_feedback demo_services demo_feedback_env demo_id true
                   "looks good" demo_analyzed) in
  let res := save_feedback demo_services demo_feedback_env demo_id false "" w1 in
  let once := save_feedback demo_services demo_feedback_env demo_id false ""
                demo_analyzed in
  fst res = fst once /\
  requests (snd res) = requests (snd once) /\
  disk (snd res) = disk (snd once) /\
  objects (snd res) = objects (snd once).
Proof.
  apply (save_feedback_again demo_services demo_feedback_env demo_feedback_env demo_id
           true false "looks good" "" demo_analyzed demo_record demo_temp_path
           "tenancy" "images" (VStr demo_filename) (VStr "A cat on a sofa.")).
  - discriminate.
  - reflexivity.
  - reflexivity.
  - reflexivity.
  - reflexivity.
  - discriminate.
  - right. exists "JFIF-bytes". reflexivity.
  - reflexivity.
  - reflexivity.
  - reflexivity.
  - reflexivity.
Defined.

(** X3 for an identifier the tracker has never seen. *)
Lemma unknown_request_id_witness :
  update_request "no-such-id" [("status", VStr "completed")] demo_analyzed
    = (false, logging (LogNotFound "no-such-id") demo_analyzed) /\
  get_request "no-such-id" demo_analyzed
    = (None, logging (LogNotFound "no-such-id") demo_analyzed) /\
  clean_temp_file "no-such-id" demo_analyzed
    = (Return false, logging (LogNotFound "no-such-id") demo_analyzed) /\
  requests (logging (LogNotFound "no-such-id") demo_analyzed) = requests demo_analyzed /\
  disk (logging (LogNotFound "no-such-id") demo_analyzed) = disk demo_analyzed /\
  objects (logging (LogNotFound "no-such-id") demo_analyzed) = objects demo_analyzed /\
  (forall other kwargs',
     fst (update_request other kwargs' demo_analyzed) = true <->
     is_Some (requests demo_analyzed !! other)).
Proof.
  apply (unknown_request_id demo_analyzed "no-such-id" [("status", VStr "completed")]).
  reflexivity.
Defined.

(** X9 for a second submission and feedback on it, seen from the first. *)
Lemma flows_leave_other_records_witness :
  requests (snd (process_image demo_services demo_env_next (Some demo_image)
                   demo_analyzed)) !! demo_id = requests demo_analyzed !! demo_id /\
  requests (snd (save_feedback demo_services demo_feedback_env
                   (pe_uuid4 demo_env_next) true "" demo_analyzed)) !! demo_id =
    requests demo_analyzed !! demo_id.
Proof.
  apply (flows_leave_other_records demo_services demo_analyzed demo_id demo_env_next
           (Some demo_image) demo_feedback_env (pe_uuid4 demo_env_next) true "").
  - discriminate.
  - discriminate.
Defined.

(** X10 for the record of the example submission under the example run. *)
Lemma records_never_removed_witness :
  is_Some (requests (run demo_services demo_run demo_analyzed) !! demo_id) /\
  (forall d fds o other,
     is_Some (requests (run demo_services demo_run (init_world d fds o)) !! other) <->
     other ∈ all_draws demo_run).
Proof.
  apply (records_never_removed demo_services demo_run demo_analyzed demo_id).
  exists demo_record. reflexivity.
Defined.

(** X21 for a metadata object that holds a JSON list. *)
Lemma list_images_bad_metadata_witness :
  list_images demo_loads_list (oracle_storage demo_services) demo_listing demo_bad_bucket
    = Raise AttributeError /\
  (forall listing' w' e,
     list_images demo_loads_list (oracle_storage demo_services) listing' w' = Raise e ->
     e = AttributeError).
Proof.
  apply (list_images_bad_metadata demo_loads_list (oracle_storage demo_services)
           demo_listing demo_bad_bucket demo_filename "[]" (VList [])).
  - left.
  - reflexivity.
  - reflexivity.
  - reflexivity.
  - discriminate.
Defined.
